(** * great_expectations: MetricStore, EvaluationParameterStore and Domain

    A shallow embedding of
      great_expectations/data_context/store/metric_store.py
      great_expectations/rule_based_profiler/types/domain.py
    together with the part of Python (values, dict, json) they run on.

    Python values are an inductive type; a dict is an association list in
    insertion order with string keys; an operation that can raise returns a
    [result].  Strings are sequences of code points below 256; floats, and
    dicts with keys that are not str, are not part of the value model. *)

From Stdlib Require Import ZArith List String Ascii Bool Lia Permutation.
From Stdlib Require Import Decimal DecimalString DecimalFacts DecimalPos DecimalN DecimalZ.
Import ListNotations.
Open Scope list_scope.
Open Scope string_scope.

(** ** Exceptions and results *)

Inductive exn_class :=
| ValueError | TypeError | KeyError | AttributeError
| JSONDecodeError | InvalidExpectationConfigurationError | ClassInstantiationError.

Record exn := Exn { exn_kind : exn_class; exn_msg : string }.

Inductive result (A : Type) :=
| Ok (a : A)
| Raise (e : exn).
Arguments Ok {A} a.
Arguments Raise {A} e.

Definition bind {A B} (r : result A) (k : A -> result B) : result B :=
  match r with
  | Ok a => k a
  | Raise e => Raise e
  end.

Notation "x <- r ;; k" := (bind r (fun x => k))
  (at level 61, r at next level, right associativity).

Fixpoint mapM {A B} (f : A -> result B) (l : list A) : result (list B) :=
  match l with
  | [] => Ok []
  | a :: l' => b <- f a ;; bs <- mapM f l' ;; Ok (b :: bs)
  end.

(** ** Characters that cannot be written inside a literal *)

Definition dquote : ascii := "034"%char.
Definition newline : ascii := "010"%char.
Definition dq : string := String dquote EmptyString.
Definition nl : string := String newline EmptyString.

(** ** The two enumerations *)

(** [SemanticDomainTypes] of domain.py. *)
Inductive SemanticDomainTypes :=
| NUMERIC | TEXT | LOGIC | DATETIME | BINARY | CURRENCY | IDENTIFIER
| MISCELLANEOUS | UNKNOWN.

(** Modelled from the spec: the declaration of [MetricDomainTypes]
    (great_expectations.execution_engine.execution_engine) is missing; the spec
    names its kinds "table, column, column-pair, multicolumn", and the members
    follow the NAME = "name" convention of [SemanticDomainTypes]. *)
Inductive MetricDomainTypes :=
| TABLE | COLUMN | COLUMN_PAIR | MULTICOLUMN.

Module Semantic.
Definition members : list SemanticDomainTypes :=
  [NUMERIC; TEXT; LOGIC; DATETIME; BINARY; CURRENCY; IDENTIFIER;
   MISCELLANEOUS; UNKNOWN].

Definition name (t : SemanticDomainTypes) : string :=
  match t with
  | NUMERIC => "NUMERIC" | TEXT => "TEXT" | LOGIC => "LOGIC"
  | DATETIME => "DATETIME" | BINARY => "BINARY" | CURRENCY => "CURRENCY"
  | IDENTIFIER => "IDENTIFIER" | MISCELLANEOUS => "MISCELLANEOUS"
  | UNKNOWN => "UNKNOWN"
  end.

Definition value (t : SemanticDomainTypes) : string :=
  match t with
  | NUMERIC => "numeric" | TEXT => "text" | LOGIC => "logic"
  | DATETIME => "datetime" | BINARY => "binary" | CURRENCY => "currency"
  | IDENTIFIER => "identifier" | MISCELLANEOUS => "miscellaneous"
  | UNKNOWN => "unknown"
  end.

(** [SemanticDomainTypes(s)]: Enum lookup by value. *)
Definition of_value (s : string) : option SemanticDomainTypes :=
  find (fun t => String.eqb (value t) s) members.
End Semantic.

Module Metric.
Definition members : list MetricDomainTypes :=
  [TABLE; COLUMN; COLUMN_PAIR; MULTICOLUMN].

Definition name (t : MetricDomainTypes) : string :=
  match t with
  | TABLE => "TABLE" | COLUMN => "COLUMN" | COLUMN_PAIR => "COLUMN_PAIR"
  | MULTICOLUMN => "MULTICOLUMN"
  end.

Definition value (t : MetricDomainTypes) : string :=
  match t with
  | TABLE => "table" | COLUMN => "column" | COLUMN_PAIR => "column_pair"
  | MULTICOLUMN => "multicolumn"
  end.

(** [MetricDomainTypes(s)]: Enum lookup by value. *)
Definition of_value (s : string) : option MetricDomainTypes :=
  find (fun t => String.eqb (value t) s) members.

(** [MetricDomainTypes[s]]: Enum lookup by member name (not used by
    domain.py; needed to state what a "name" is). *)
Definition of_name (s : string) : option MetricDomainTypes :=
  find (fun t => String.eqb (name t) s) members.
End Metric.

(** ** Python values *)

Unset Elimination Schemes.
Inductive pyval :=
| PyNone
| PyBool (b : bool)
| PyInt (z : Z)
| PyStr (s : string)
| PyList (l : list pyval)
| PyDict (d : list (string * pyval))
| PyMetricType (t : MetricDomainTypes)
| PySemanticType (t : SemanticDomainTypes)
| PyBytes (b : string)
| PyTuple (l : list pyval).
Set Elimination Schemes.

Abbreviation pydict := (list (string * pyval)).

(** Induction on values, with the hypothesis on every element of a list or
    tuple and on every value of a dict. *)

Section PyvalInd.
Variable P : pyval -> Prop.
Hypothesis HNone : P PyNone.
Hypothesis HBool : forall b, P (PyBool b).
Hypothesis HInt : forall z, P (PyInt z).
Hypothesis HStr : forall s, P (PyStr s).
Hypothesis HList : forall l, Forall P l -> P (PyList l).
Hypothesis HDict : forall d, Forall (fun kv => P (snd kv)) d -> P (PyDict d).
Hypothesis HMetric : forall t, P (PyMetricType t).
Hypothesis HSemantic : forall t, P (PySemanticType t).
Hypothesis HBytes : forall b, P (PyBytes b).
Hypothesis HTuple : forall l, Forall P l -> P (PyTuple l).

Fixpoint pyval_ind (v : pyval) : P v :=
  match v with
  | PyNone => HNone
  | PyBool b => HBool b
  | PyInt z => HInt z
  | PyStr s => HStr s
  | PyList l =>
      HList l ((fix go (l : list pyval) : Forall P l :=
                  match l with
                  | [] => Forall_nil _
                  | p :: l' => Forall_cons p (pyval_ind p) (go l')
                  end) l)
  | PyDict d =>
      HDict d ((fix go (d : pydict) : Forall (fun kv => P (snd kv)) d :=
                  match d with
                  | [] => Forall_nil _
                  | kv :: d' => Forall_cons kv (pyval_ind (snd kv)) (go d')
                  end) d)
  | PyMetricType t => HMetric t
  | PySemanticType t => HSemantic t
  | PyBytes b => HBytes b
  | PyTuple l =>
      HTuple l ((fix go (l : list pyval) : Forall P l :=
                   match l with
                   | [] => Forall_nil _
                   | p :: l' => Forall_cons p (pyval_ind p) (go l')
                   end) l)
  end.
End PyvalInd.

Module Py.

(** [bool(v)]: Python truthiness. *)
Definition truthy (v : pyval) : bool :=
  match v with
  | PyNone => false
  | PyBool b => b
  | PyInt z => negb (Z.eqb z 0)
  | PyStr s => negb (String.eqb s EmptyString)
  | PyList l => match l with [] => false | _ => true end
  | PyDict d => match d with [] => false | _ => true end
  | PyMetricType _ => true
  | PySemanticType _ => true
  | PyBytes b => negb (String.eqb b EmptyString)
  | PyTuple l => match l with [] => false | _ => true end
  end.

(** [d.get(k)] *)
Fixpoint dict_get (k : string) (d : pydict) : option pyval :=
  match d with
  | [] => None
  | (k', v) :: d' => if String.eqb k k' then Some v else dict_get k d'
  end.

(** [k in d] *)
Definition dict_mem (k : string) (d : pydict) : bool :=
  match dict_get k d with Some _ => true | None => false end.

(** [d.get(k, default)] *)
Definition dict_get_default (k : string) (default : pyval) (d : pydict) : pyval :=
  match dict_get k d with Some v => v | None => default end.

(** [d[k] = v]: an existing key keeps its position, a new key goes last. *)
Fixpoint dict_set (k : string) (v : pyval) (d : pydict) : pydict :=
  match d with
  | [] => [(k, v)]
  | (k', v') :: d' =>
      if String.eqb k k' then (k', v) :: d' else (k', v') :: dict_set k v d'
  end.

(** [dict(pairs)] *)
Definition dict_of_pairs (l : pydict) : pydict :=
  fold_left (fun d kv => dict_set (fst kv) (snd kv) d) l [].

(** [a == b] on values: a dict compares without regard to key order, a bool
    compares as the int it is, a tuple equals no list. *)
Fixpoint eqb (a b : pyval) {struct a} : bool :=
  match a, b with
  | PyNone, PyNone => true
  | PyBool x, PyBool y => Bool.eqb x y
  | PyBool x, PyInt y => Z.eqb (Z.b2z x) y
  | PyInt x, PyBool y => Z.eqb x (Z.b2z y)
  | PyInt x, PyInt y => Z.eqb x y
  | PyStr x, PyStr y => String.eqb x y
  | PyList x, PyList y =>
      (fix all2 (x y : list pyval) : bool :=
         match x, y with
         | [], [] => true
         | p :: x', q :: y' => eqb p q && all2 x' y'
         | _, _ => false
         end) x y
  | PyDict x, PyDict y =>
      Nat.eqb (List.length x) (List.length y) &&
      (fix sub (x : pydict) : bool :=
         match x with
         | [] => true
         | (k, p) :: x' =>
             match dict_get k y with
             | Some q => eqb p q && sub x'
             | None => false
             end
         end) x
  | PyMetricType x, PyMetricType y => String.eqb (Metric.name x) (Metric.name y)
  | PySemanticType x, PySemanticType y =>
      String.eqb (Semantic.name x) (Semantic.name y)
  | PyBytes x, PyBytes y => String.eqb x y
  | PyTuple x, PyTuple y =>
      (fix all2 (x y : list pyval) : bool :=
         match x, y with
         | [], [] => true
         | p :: x', q :: y' => eqb p q && all2 x' y'
         | _, _ => false
         end) x y
  | _, _ => false
  end.

(** The data invariant of a dict: its keys are distinct, at every level. *)
Fixpoint wf (v : pyval) : Prop :=
  match v with
  | PyList l => (fix all (l : list pyval) : Prop :=
                   match l with [] => True | p :: l' => wf p /\ all l' end) l
  | PyDict d => NoDup (map fst d) /\
                (fix all (d : pydict) : Prop :=
                   match d with [] => True | (_, p) :: d' => wf p /\ all d' end) d
  | PyTuple l => (fix all (l : list pyval) : Prop :=
                    match l with [] => True | p :: l' => wf p /\ all l' end) l
  | _ => True
  end.

End Py.

(** ** The json module of the Python standard library *)

Module json.

(** *** Encoder: [json.dumps] with its default [ensure_ascii=True] *)

Definition hex_digit (n : N) : ascii :=
  if N.ltb n 10 then ascii_of_N (48 + n) else ascii_of_N (87 + n).

(** [c] as the six characters backslash, u, and four hex digits. *)
Definition escape_u (c : ascii) : string :=
  let n := N_of_ascii c in
  String "\" (String "u" (String "0" (String "0"
    (String (hex_digit (N.div n 16)) (String (hex_digit (N.modulo n 16))
       EmptyString))))).

(** One character of [py_encode_basestring_ascii]: the short escapes, a
    printable ASCII character as it is, anything else as a [\u] escape. *)
Definition escape_char (c : ascii) : string :=
  if Ascii.eqb c dquote then String "\" dq
  else if Ascii.eqb c "\" then "\\"
  else if Ascii.eqb c newline then "\n"
  else if Ascii.eqb c "013" then "\r"
  else if Ascii.eqb c "009" then "\t"
  else if Ascii.eqb c "012" then "\f"
  else if Ascii.eqb c "008" then "\b"
  else if N.leb 32 (N_of_ascii c) && N.leb (N_of_ascii c) 126
       then String c EmptyString
  else escape_u c.

Fixpoint escape (s : string) : string :=
  match s with
  | EmptyString => EmptyString
  | String c s' => escape_char c ++ escape s'
  end.

Definition encode_str (s : string) : string := dq ++ escape s ++ dq.

(** [str(int)], as the encoder writes an int. *)
Definition encode_int (z : Z) : string :=
  NilEmpty.string_of_int (Z.to_int z).

(** The values the encoder accepts, a tuple as a list; on any other it
    raises TypeError. *)
Fixpoint encodable (v : pyval) : bool :=
  match v with
  | PyNone | PyBool _ | PyInt _ | PyStr _ => true
  | PyList l | PyTuple l => forallb encodable l
  | PyDict d => forallb (fun kv => encodable (snd kv)) d
  | PyMetricType _ | PySemanticType _ | PyBytes _ => false
  end.

(** The values [json.loads] returns: no tuple at any level. *)
Fixpoint native (v : pyval) : bool :=
  match v with
  | PyNone | PyBool _ | PyInt _ | PyStr _ => true
  | PyList l => forallb native l
  | PyDict d => forallb (fun kv => native (snd kv)) d
  | PyTuple _ | PyMetricType _ | PySemanticType _ | PyBytes _ => false
  end.

(** What the encoder makes of [v] before it writes it: a tuple is written as
    the list of its items. *)
Fixpoint decoded (v : pyval) : pyval :=
  match v with
  | PyList l | PyTuple l => PyList (map decoded l)
  | PyDict d => PyDict (map (fun kv => (fst kv, decoded (snd kv))) d)
  | _ => v
  end.

(** The default separators [", "] and [": "]. *)
Fixpoint encode (v : pyval) : string :=
  match v with
  | PyNone => "null"
  | PyBool true => "true"
  | PyBool false => "false"
  | PyInt z => encode_int z
  | PyStr s => encode_str s
  | PyList l | PyTuple l => "[" ++ String.concat ", " (map encode l) ++ "]"
  | PyDict d =>
      "{" ++ String.concat ", "
               (map (fun kv => encode_str (fst kv) ++ ": " ++ encode (snd kv)) d)
          ++ "}"
  | PyMetricType _ | PySemanticType _ | PyBytes _ => EmptyString
  end.

(** [sorted(dct.items())] on items whose values are already rendered. *)
Fixpoint insert_item (kv : string * string) (l : list (string * string)) :=
  match l with
  | [] => [kv]
  | kv' :: l' =>
      if String.leb (fst kv) (fst kv') then kv :: kv' :: l'
      else kv' :: insert_item kv l'
  end.

Fixpoint sort_items (l : list (string * string)) : list (string * string) :=
  match l with
  | [] => []
  | kv :: l' => insert_item kv (sort_items l')
  end.

(** [sort_keys=True]. *)
Fixpoint encode_sorted (v : pyval) : string :=
  match v with
  | PyNone => "null"
  | PyBool true => "true"
  | PyBool false => "false"
  | PyInt z => encode_int z
  | PyStr s => encode_str s
  | PyList l | PyTuple l =>
      "[" ++ String.concat ", " (map encode_sorted l) ++ "]"
  | PyDict d =>
      "{" ++ String.concat ", "
               (map (fun kv => encode_str (fst kv) ++ ": " ++ snd kv)
                    (sort_items (map (fun kv => (fst kv, encode_sorted (snd kv))) d)))
          ++ "}"
  | PyMetricType _ | PySemanticType _ | PyBytes _ => EmptyString
  end.

Fixpoint spaces (n : nat) : string :=
  match n with O => EmptyString | S n' => String " " (spaces n') end.

(** A newline followed by the indentation of nesting level [level]. *)
Definition newline_indent (indent level : nat) : string :=
  nl ++ spaces (indent * level).

(** [indent=n]: one item per line, item separator [","]. *)
Fixpoint encode_indent (indent level : nat) (v : pyval) : string :=
  match v with
  | PyNone => "null"
  | PyBool true => "true"
  | PyBool false => "false"
  | PyInt z => encode_int z
  | PyStr s => encode_str s
  | PyList [] | PyTuple [] => "[]"
  | PyList l | PyTuple l =>
      "[" ++ newline_indent indent (S level)
          ++ String.concat ("," ++ newline_indent indent (S level))
               (map (encode_indent indent (S level)) l)
          ++ newline_indent indent level ++ "]"
  | PyDict [] => "{}"
  | PyDict d =>
      "{" ++ newline_indent indent (S level)
          ++ String.concat ("," ++ newline_indent indent (S level))
               (map (fun kv => encode_str (fst kv) ++ ": "
                                 ++ encode_indent indent (S level) (snd kv)) d)
          ++ newline_indent indent level ++ "}"
  | PyMetricType _ | PySemanticType _ | PyBytes _ => EmptyString
  end.

Definition not_serializable : exn :=
  Exn TypeError "Object is not JSON serializable".

(** [json.dumps(v)] *)
Definition dumps (v : pyval) : result string :=
  if encodable v then Ok (encode v) else Raise not_serializable.

(** [json.dumps(v, sort_keys=True)] *)
Definition dumps_sorted (v : pyval) : result string :=
  if encodable v then Ok (encode_sorted v) else Raise not_serializable.

(** [json.dumps(v, indent=n)] *)
Definition dumps_indent (indent : nat) (v : pyval) : result string :=
  if encodable v then Ok (encode_indent indent 0 v) else Raise not_serializable.

(** *** Decoder: [json.loads] *)

Definition is_ws (c : ascii) : bool :=
  Ascii.eqb c " " || Ascii.eqb c "009" || Ascii.eqb c newline || Ascii.eqb c "013".

Fixpoint skip_ws (s : string) : string :=
  match s with
  | String c s' => if is_ws c then skip_ws s' else s
  | EmptyString => s
  end.

Definition digit_of_char (c : ascii) : option (uint -> uint) :=
  if Ascii.eqb c "0" then Some D0 else if Ascii.eqb c "1" then Some D1
  else if Ascii.eqb c "2" then Some D2 else if Ascii.eqb c "3" then Some D3
  else if Ascii.eqb c "4" then Some D4 else if Ascii.eqb c "5" then Some D5
  else if Ascii.eqb c "6" then Some D6 else if Ascii.eqb c "7" then Some D7
  else if Ascii.eqb c "8" then Some D8 else if Ascii.eqb c "9" then Some D9
  else None.

(** The longest run of digits at the head of [s]. *)
Fixpoint scan_digits (s : string) : uint * string :=
  match s with
  | String c s' =>
      match digit_of_char c with
      | Some D => let (d, r) := scan_digits s' in (D d, r)
      | None => (Nil, s)
      end
  | EmptyString => (Nil, s)
  end.

(** The integer part of a JSON number, [0|[1-9][0-9]*]. *)
Definition scan_int (s : string) : option (uint * string) :=
  match s with
  | String c s' =>
      if Ascii.eqb c "0" then Some (D0 Nil, s')
      else match digit_of_char c with
           | Some _ => Some (scan_digits s)
           | None => None
           end
  | EmptyString => None
  end.

(** A number without fraction or exponent.  A text with a fraction or an
    exponent is a float in Python; here the characters after the integer
    part are left in place and no later rule accepts them. *)
Definition parse_number (s : string) : option (pyval * string) :=
  match s with
  | String c s' =>
      if Ascii.eqb c "-"
      then match scan_int s' with
           | Some (d, r) => Some (PyInt (Z.of_int (Neg d)), r)
           | None => None
           end
      else match scan_int s with
           | Some (d, r) => Some (PyInt (Z.of_int (Pos d)), r)
           | None => None
           end
  | EmptyString => None
  end.

Definition hex_val (c : ascii) : option N :=
  let n := N_of_ascii c in
  if N.leb 48 n && N.leb n 57 then Some (n - 48)%N
  else if N.leb 97 n && N.leb n 102 then Some (n - 87)%N
  else if N.leb 65 n && N.leb n 70 then Some (n - 55)%N
  else None.

(** The character of a [\uXXXX] escape; a code point of 256 or more is
    outside the string model. *)
Definition unescape_u (h1 h2 h3 h4 : ascii) : option ascii :=
  match hex_val h1, hex_val h2, hex_val h3, hex_val h4 with
  | Some a, Some b, Some c, Some d =>
      if N.eqb a 0 && N.eqb b 0 then Some (ascii_of_N (16 * c + d)) else None
  | _, _, _, _ => None
  end.

Definition unescape (c : ascii) : option ascii :=
  if Ascii.eqb c dquote then Some dquote
  else if Ascii.eqb c "\" then Some "\"%char
  else if Ascii.eqb c "/" then Some "/"%char
  else if Ascii.eqb c "b" then Some "008"%char
  else if Ascii.eqb c "f" then Some "012"%char
  else if Ascii.eqb c "n" then Some newline
  else if Ascii.eqb c "r" then Some "013"%char
  else if Ascii.eqb c "t" then Some "009"%char
  else None.

Definition cons_char (c : ascii) (r : option (string * string)) :=
  match r with
  | Some (s, rest) => Some (String c s, rest)
  | None => None
  end.

(** The body of a string, after its opening quote, up to and including the
    closing quote. *)
Fixpoint scan_string (s : string) : option (string * string) :=
  match s with
  | EmptyString => None
  | String c s1 =>
      if Ascii.eqb c dquote then Some (EmptyString, s1)
      else if Ascii.eqb c "\" then
        match s1 with
        | String e s2 =>
            if Ascii.eqb e "u" then
              match s2 with
              | String h1 (String h2 (String h3 (String h4 s3))) =>
                  match unescape_u h1 h2 h3 h4 with
                  | Some ch => cons_char ch (scan_string s3)
                  | None => None
                  end
              | _ => None
              end
            else match unescape e with
                 | Some ch => cons_char ch (scan_string s2)
                 | None => None
                 end
        | EmptyString => None
        end
      else if N.ltb (N_of_ascii c) 32 then None
      else cons_char c (scan_string s1)
  end.

(** [s] without the prefix [p], when it starts with it. *)
Fixpoint strip_prefix (p s : string) : option string :=
  match p, s with
  | EmptyString, _ => Some s
  | String a p', String b s' => if Ascii.eqb a b then strip_prefix p' s' else None
  | _, EmptyString => None
  end.

Definition literal (p : string) (v : pyval) (s : string) : option (pyval * string) :=
  match strip_prefix p s with
  | Some r => Some (v, r)
  | None => None
  end.

Fixpoint parse_value (fuel : nat) (s : string) {struct fuel}
  : option (pyval * string) :=
  match fuel with
  | O => None
  | S f =>
      match skip_ws s with
      | EmptyString => None
      | String c s1 =>
          if Ascii.eqb c "n" then literal "ull" PyNone s1
          else if Ascii.eqb c "t" then literal "rue" (PyBool true) s1
          else if Ascii.eqb c "f" then literal "alse" (PyBool false) s1
          else if Ascii.eqb c dquote then
            match scan_string s1 with
            | Some (str, r) => Some (PyStr str, r)
            | None => None
            end
          else if Ascii.eqb c "[" then
            match skip_ws s1 with
            | EmptyString => None
            | String c1 r =>
                if Ascii.eqb c1 "]" then Some (PyList [], r)
                else match parse_elems f s1 with
                     | Some (l, r1) => Some (PyList l, r1)
                     | None => None
                     end
            end
          else if Ascii.eqb c "{" then
            match skip_ws s1 with
            | EmptyString => None
            | String c1 r =>
                if Ascii.eqb c1 "}" then Some (PyDict [], r)
                else match parse_members f s1 with
                     | Some (d, r1) => Some (PyDict (Py.dict_of_pairs d), r1)
                     | None => None
                     end
            end
          else parse_number (String c s1)
      end
  end

with parse_elems (fuel : nat) (s : string) {struct fuel}
  : option (list pyval * string) :=
  match fuel with
  | O => None
  | S f =>
      match parse_value f s with
      | None => None
      | Some (v, r) =>
          match skip_ws r with
          | EmptyString => None
          | String c r1 =>
              if Ascii.eqb c "," then
                match parse_elems f r1 with
                | Some (vs, r2) => Some (v :: vs, r2)
                | None => None
                end
              else if Ascii.eqb c "]" then Some ([v], r1)
              else None
          end
      end
  end

with parse_members (fuel : nat) (s : string) {struct fuel}
  : option (pydict * string) :=
  match fuel with
  | O => None
  | S f =>
      match skip_ws s with
      | EmptyString => None
      | String c s1 =>
          if negb (Ascii.eqb c dquote) then None
          else
            match scan_string s1 with
            | None => None
            | Some (k, r) =>
                match skip_ws r with
                | EmptyString => None
                | String c1 r1 =>
                    if negb (Ascii.eqb c1 ":") then None
                    else
                      match parse_value f r1 with
                      | None => None
                      | Some (v, r2) =>
                          match skip_ws r2 with
                          | EmptyString => None
                          | String c2 r3 =>
                              if Ascii.eqb c2 "," then
                                match parse_members f r3 with
                                | Some (d, r4) => Some ((k, v) :: d, r4)
                                | None => None
                                end
                              else if Ascii.eqb c2 "}" then Some ([(k, v)], r3)
                              else None
                          end
                      end
                end
            end
      end
  end.

Definition decode_error : exn := Exn JSONDecodeError "Expecting value".
Definition extra_data : exn := Exn JSONDecodeError "Extra data".

(** [json.loads(s)]: one value, then nothing but white space. *)
Definition loads (s : string) : result pyval :=
  match parse_value (S (String.length s)) s with
  | Some (v, r) =>
      match skip_ws r with
      | EmptyString => Ok v
      | _ => Raise extra_data
      end
  | None => Raise decode_error
  end.

End json.


(** ** Builtins: [str], [repr], [type], [str.lower], subscription *)

Module builtins.

Definition hex2 (c : ascii) : string :=
  let n := N_of_ascii c in
  String (json.hex_digit (N.div n 16))
    (String (json.hex_digit (N.modulo n 16)) EmptyString).

Fixpoint contains_char (c : ascii) (s : string) : bool :=
  match s with
  | EmptyString => false
  | String x s' => Ascii.eqb x c || contains_char c s'
  end.

(** The quote [repr] puts around a str or bytes: a double quote only when
    the text has a single quote and no double quote. *)
Definition repr_quote (s : string) : ascii :=
  if contains_char "'" s && negb (contains_char dquote s) then dquote else "'"%char.

(** Latin-1 characters that [str.isprintable] accepts. *)
Definition printable (c : ascii) : bool :=
  let n := N_of_ascii c in
  (N.leb 32 n && N.leb n 126) || (N.leb 161 n && negb (N.eqb n 173)).

Definition repr_char (bytes : bool) (quote c : ascii) : string :=
  if Ascii.eqb c quote || Ascii.eqb c "\" then String "\" (String c EmptyString)
  else if Ascii.eqb c "009" then "\t"
  else if Ascii.eqb c newline then "\n"
  else if Ascii.eqb c "013" then "\r"
  else if printable c && (negb bytes || N.leb (N_of_ascii c) 126)
       then String c EmptyString
  else "\x" ++ hex2 c.

Fixpoint repr_chars (bytes : bool) (quote : ascii) (s : string) : string :=
  match s with
  | EmptyString => EmptyString
  | String c s' => repr_char bytes quote c ++ repr_chars bytes quote s'
  end.

Definition repr_str (s : string) : string :=
  let q := repr_quote s in
  String q (repr_chars false q s ++ String q EmptyString).

Definition repr_bytes (s : string) : string :=
  let q := repr_quote s in
  String "b" (String q (repr_chars true q s ++ String q EmptyString)).

(** [repr(v)] *)
Fixpoint repr (v : pyval) : string :=
  match v with
  | PyNone => "None"
  | PyBool true => "True"
  | PyBool false => "False"
  | PyInt z => json.encode_int z
  | PyStr s => repr_str s
  | PyList l => "[" ++ String.concat ", " (map repr l) ++ "]"
  | PyDict d =>
      "{" ++ String.concat ", "
               (map (fun kv => repr_str (fst kv) ++ ": " ++ repr (snd kv)) d)
          ++ "}"
  | PyMetricType t =>
      "<MetricDomainTypes." ++ Metric.name t ++ ": " ++ repr_str (Metric.value t) ++ ">"
  | PySemanticType t =>
      "<SemanticDomainTypes." ++ Semantic.name t ++ ": "
        ++ repr_str (Semantic.value t) ++ ">"
  | PyBytes b => repr_bytes b
  | PyTuple [p] => "(" ++ repr p ++ ",)"
  | PyTuple l => "(" ++ String.concat ", " (map repr l) ++ ")"
  end.

(** [str(v)] *)
Definition str (v : pyval) : string :=
  match v with
  | PyStr s => s
  | PyMetricType t => "MetricDomainTypes." ++ Metric.name t
  | PySemanticType t => "SemanticDomainTypes." ++ Semantic.name t
  | _ => repr v
  end.

(** [str(type(v))] *)
Definition type_str (v : pyval) : string :=
  match v with
  | PyNone => "<class 'NoneType'>"
  | PyBool _ => "<class 'bool'>"
  | PyInt _ => "<class 'int'>"
  | PyStr _ => "<class 'str'>"
  | PyList _ => "<class 'list'>"
  | PyDict _ => "<class 'dict'>"
  | PyMetricType _ => "<enum 'MetricDomainTypes'>"
  | PySemanticType _ => "<enum 'SemanticDomainTypes'>"
  | PyBytes _ => "<class 'bytes'>"
  | PyTuple _ => "<class 'tuple'>"
  end.

Definition lower_char (c : ascii) : ascii :=
  let n := N_of_ascii c in
  if (N.leb 65 n && N.leb n 90)
     || (N.leb 192 n && N.leb n 222 && negb (N.eqb n 215))
  then ascii_of_N (n + 32) else c.

(** [s.lower()] *)
Fixpoint lower (s : string) : string :=
  match s with
  | EmptyString => EmptyString
  | String c s' => String (lower_char c) (lower s')
  end.

(** [v[k]] for a str [k]. *)
Definition getitem (v : pyval) (k : string) : result pyval :=
  match v with
  | PyDict d =>
      match Py.dict_get k d with
      | Some x => Ok x
      | None => Raise (Exn KeyError (repr_str k))
      end
  | PyList _ => Raise (Exn TypeError "list indices must be integers or slices, not str")
  | PyStr _ => Raise (Exn TypeError "string indices must be integers")
  | PyBytes _ => Raise (Exn TypeError "byte indices must be integers or slices, not str")
  | PyTuple _ => Raise (Exn TypeError "tuple indices must be integers or slices, not str")
  | _ => Raise (Exn TypeError "object is not subscriptable")
  end.

(** [SemanticDomainTypes(s)]: a value that is no member's raises ValueError. *)
Definition SemanticDomainTypes_call (s : string) : result SemanticDomainTypes :=
  match Semantic.of_value s with
  | Some t => Ok t
  | None => Raise (Exn ValueError (repr_str s ++ " is not a valid SemanticDomainTypes"))
  end.

(** [MetricDomainTypes(s)]: a value that is no member's raises ValueError. *)
Definition MetricDomainTypes_call (s : string) : result MetricDomainTypes :=
  match Metric.of_value s with
  | Some t => Ok t
  | None => Raise (Exn ValueError (repr_str s ++ " is not a valid MetricDomainTypes"))
  end.

(** [s2 in s1] for strings. *)
Fixpoint contains (s1 s2 : string) : bool :=
  String.prefix s2 s1 ||
  match s1 with
  | EmptyString => false
  | String _ s1' => contains s1' s2
  end.

End builtins.

(** ** great_expectations.util and great_expectations.core.util *)

Module util.

(** Modelled from the spec: [ensure_json_serializable] (core/util.py) is
    missing; "the JSON-serializability checker" that makes a write "fail fast"
    on a payload that is not JSON-serializable. *)
Definition ensure_json_serializable (data : pyval) : result unit :=
  if json.encodable data then Ok tt
  else Raise (Exn InvalidExpectationConfigurationError
                (builtins.repr data ++ " is of type "
                   ++ builtins.type_str data ++ " which cannot be serialized to json")).

(** Modelled from the spec: [convert_to_json_serializable] (core/util.py) is
    missing; "a generic JSON-serializability converter".  On the values of
    this model a JSON value is its own converted form, a tuple becomes the
    list of its converted items, and any other value has none. *)
Definition convert_to_json_serializable (data : pyval) : result pyval :=
  if json.encodable data then Ok (json.decoded data)
  else Raise (Exn TypeError
                (builtins.repr data ++ " is of type "
                   ++ builtins.type_str data ++ " which cannot be serialized")).

(** Modelled from the spec: [filter_properties_dict] (util.py) is missing;
    with [clean_falsy=True] "falsy (empty/null) top-level entries" are
    stripped. *)
Definition filter_properties_dict (properties : pydict) : pydict :=
  filter (fun kv => Py.truthy (snd kv)) properties.

Definition null_or_empty (v : pyval) : bool :=
  match v with
  | PyNone | PyList [] | PyDict [] | PyTuple [] => true
  | _ => false
  end.

(** Modelled from the spec: [deep_filter_properties_iterable] (util.py) is
    missing; "nested null/empty removal": the tree without its null and
    empty branches. *)
Fixpoint deep_filter_properties_iterable (properties : pyval) : pyval :=
  match properties with
  | PyDict d =>
      PyDict (filter (fun kv => negb (null_or_empty (snd kv)))
                (map (fun kv => (fst kv, deep_filter_properties_iterable (snd kv))) d))
  | PyList l =>
      PyList (filter (fun v => negb (null_or_empty v))
                (map deep_filter_properties_iterable l))
  | PyTuple l =>
      PyTuple (filter (fun v => negb (null_or_empty v))
                 (map deep_filter_properties_iterable l))
  | _ => properties
  end.

End util.

(** ** Keys *)

(** [RunIdentifier]: the two leading fields of a metric key. *)
Record RunIdentifier := {
  run_name : string;
  run_time : string
}.

(** [ValidationMetricIdentifier]: the six fields that
    [MetricStore.__init__] lists as [key_columns]. *)
Record ValidationMetricIdentifier := {
  run_id : RunIdentifier;
  data_asset_name : string;
  expectation_suite_identifier : string;
  metric_name : string;
  metric_kwargs_id : string
}.

Module Key.
Definition run_to_tuple (r : RunIdentifier) : list string :=
  [run_name r; run_time r].

Definition to_tuple (k : ValidationMetricIdentifier) : list string :=
  run_to_tuple (run_id k)
    ++ [data_asset_name k; expectation_suite_identifier k; metric_name k;
        metric_kwargs_id k].

Definition from_tuple (t : list string) : result ValidationMetricIdentifier :=
  match t with
  | [a; b; c; d; e; f] =>
      Ok {| run_id := {| run_name := a; run_time := b |};
            data_asset_name := c; expectation_suite_identifier := d;
            metric_name := e; metric_kwargs_id := f |}
  | _ => Raise (Exn TypeError "wrong number of key fields")
  end.
End Key.

(** ** The store base and its backend *)

(** Modelled from the spec: the pluggable storage backends are missing (the
    spec names "in-memory, file, or database"); a backend is the map from key
    tuples to stored text that [get], [set] and [list_keys] work on, in
    insertion order. *)
Inductive backend_class :=
| InMemoryStoreBackend | TupleFilesystemStoreBackend | DatabaseStoreBackend.

Abbreviation backend := (list (list string * string)).

Module StoreBackend.

Definition tuple_eqb (a b : list string) : bool :=
  if list_eq_dec String.string_dec a b then true else false.

Fixpoint get (key : list string) (b : backend) : option string :=
  match b with
  | [] => None
  | (k, v) :: b' => if tuple_eqb key k then Some v else get key b'
  end.

Fixpoint set (key : list string) (value : string) (b : backend) : backend :=
  match b with
  | [] => [(key, value)]
  | (k, v) :: b' =>
      if tuple_eqb key k then (k, value) :: b' else (k, v) :: set key value b'
  end.

Fixpoint is_prefix (p t : list string) : bool :=
  match p, t with
  | [], _ => true
  | a :: p', b :: t' => String.eqb a b && is_prefix p' t'
  | _ :: _, [] => false
  end.

(** [list_keys(prefix)]: the keys "scoped to" the prefix, in backend order. *)
Definition list_keys (prefix : list string) (b : backend) : list (list string) :=
  filter (is_prefix prefix) (map fst b).

Definition default_module : string := "great_expectations.data_context.store".

(** Modelled from the spec: [verify_dynamic_loading_support] and
    [load_class] (util.py) are missing; the class named by a module and a
    class name, "failing on unresolved names". *)
Definition verify_dynamic_loading_support (module_name : pyval) : result unit :=
  match module_name with
  | PyStr m =>
      if String.eqb m default_module then Ok tt
      else Raise (Exn ClassInstantiationError ("No module named " ++ m))
  | _ => Raise (Exn TypeError "module name must be a str")
  end.

Definition load_class (class_name module_name : pyval) : result backend_class :=
  match class_name with
  | PyStr c =>
      if String.eqb c "InMemoryStoreBackend" then Ok InMemoryStoreBackend
      else if String.eqb c "TupleFilesystemStoreBackend"
           then Ok TupleFilesystemStoreBackend
      else if String.eqb c "DatabaseStoreBackend" then Ok DatabaseStoreBackend
      else Raise (Exn ClassInstantiationError ("No class named " ++ c))
  | _ => Raise (Exn TypeError "class name must be a str")
  end.

(** [issubclass(cls, DatabaseStoreBackend)] *)
Definition is_database (cls : backend_class) : bool :=
  match cls with DatabaseStoreBackend => true | _ => false end.

End StoreBackend.

(** A store instance: its backend contents, and the [_config] that
    [EvaluationParameterStore] keeps. *)
Record Store := {
  _store_backend : backend;
  _store_name : option string;
  _config : pydict
}.

Module StoreBase.
(** Modelled from the spec: [Store.__init__] (store.py) is missing; it
    instantiates the backend, which starts empty. *)
Definition __init__ (store_backend : option pydict) (store_name : option string)
  : result Store :=
  Ok {| _store_backend := []; _store_name := store_name; _config := [] |}.
End StoreBase.

(** ** metric_store.py *)

Module MetricStore.

Definition key_columns : pyval :=
  PyList [PyStr "run_name"; PyStr "run_time"; PyStr "data_asset_name";
          PyStr "expectation_suite_identifier"; PyStr "metric_name";
          PyStr "metric_kwargs_id"].

(** [__init__]: the first component is the caller's [store_backend] mapping
    as construction leaves it. *)
Definition __init__ (store_backend : option pydict) (store_name : option string)
  : option pydict * result Store :=
  match store_backend with
  | None => (None, StoreBase.__init__ None store_name)
  | Some sb =>
      let store_backend_module_name :=
        Py.dict_get_default "module_name" (PyStr StoreBackend.default_module) sb in
      let store_backend_class_name :=
        Py.dict_get_default "class_name" (PyStr "InMemoryStoreBackend") sb in
      match (_ <- StoreBackend.verify_dynamic_loading_support store_backend_module_name ;;
             StoreBackend.load_class store_backend_class_name store_backend_module_name)
      with
      | Raise e => (Some sb, Raise e)
      | Ok store_backend_class =>
          let sb2 :=
            if StoreBackend.is_database store_backend_class then
              let sb1 :=
                if negb (Py.dict_mem "table_name" sb)
                then Py.dict_set "table_name"
                       (Py.dict_get_default "table_name" (PyStr "ge_metrics") sb) sb
                else sb in
              if negb (Py.dict_mem "key_columns" sb1)
              then Py.dict_set "key_columns"
                     (Py.dict_get_default "key_columns" key_columns sb1) sb1
              else sb1
            else sb in
          (Some sb2, StoreBase.__init__ (Some sb2) store_name)
      end
  end.

Definition _validate_value (value : pyval) : result unit :=
  util.ensure_json_serializable value.

Definition serialize (key : ValidationMetricIdentifier) (value : pyval)
  : result string :=
  json.dumps (PyDict [("value", value)]).

(** [value] is the raw text of the backend, [None] when there is none; the
    function falls off its end, returning [None], on a falsy [value]. *)
Definition deserialize (key : ValidationMetricIdentifier) (value : option string)
  : result pyval :=
  match value with
  | None => Ok PyNone
  | Some s =>
      if negb (String.eqb s EmptyString)
      then d <- json.loads s ;; builtins.getitem d "value"
      else Ok PyNone
  end.

(** Modelled from the spec: [Store.set] (store.py) is missing; "rejects
    non-JSON-serializable input with a validation error before any write
    reaches the backend", then stores the serialized value under the key's
    tuple.  The first component is the store afterwards. *)
Definition set (key : ValidationMetricIdentifier) (value : pyval) (self : Store)
  : Store * result unit :=
  match _validate_value value with
  | Raise e => (self, Raise e)
  | Ok _ =>
      match serialize key value with
      | Raise e => (self, Raise e)
      | Ok raw =>
          ({| _store_backend :=
                StoreBackend.set (Key.to_tuple key) raw (_store_backend self);
              _store_name := _store_name self;
              _config := _config self |}, Ok tt)
      end
  end.

(** Modelled from the spec: [Store.get] (store.py) is missing; it fetches
    the raw value under the key's tuple and unwraps it with [deserialize]. *)
Definition get (key : ValidationMetricIdentifier) (self : Store) : result pyval :=
  deserialize key (StoreBackend.get (Key.to_tuple key) (_store_backend self)).

(** [Store.tuple_to_key] *)
Definition tuple_to_key (t : list string) : result ValidationMetricIdentifier :=
  Key.from_tuple t.

End MetricStore.

Module EvaluationParameterStore.

Definition module_name : string :=
  "great_expectations.data_context.store.metric_store".
Definition class_name : string := "EvaluationParameterStore".

Definition option_val {A} (f : A -> pyval) (o : option A) : pyval :=
  match o with Some a => f a | None => PyNone end.

Definition __init__ (store_backend : option pydict) (store_name : option string)
  : option pydict * result Store :=
  let after_defaults : option pydict * result unit :=
    match store_backend with
    | None => (None, Ok tt)
    | Some sb =>
        let store_backend_module_name :=
          Py.dict_get_default "module_name" (PyStr StoreBackend.default_module) sb in
        let store_backend_class_name :=
          Py.dict_get_default "class_name" (PyStr "InMemoryStoreBackend") sb in
        match (_ <- StoreBackend.verify_dynamic_loading_support store_backend_module_name ;;
               StoreBackend.load_class store_backend_class_name store_backend_module_name)
        with
        | Raise e => (Some sb, Raise e)
        | Ok store_backend_class =>
            if StoreBackend.is_database store_backend_class
            then (Some (Py.dict_set "table_name"
                          (Py.dict_get_default "table_name"
                             (PyStr "ge_evaluation_parameters") sb) sb), Ok tt)
            else (Some sb, Ok tt)
        end
    end in
  match after_defaults with
  | (sb1, Raise e) => (sb1, Raise e)
  | (sb1, Ok _) =>
      match MetricStore.__init__ sb1 store_name with
      | (sb2, Raise e) => (sb2, Raise e)
      | (sb2, Ok self) =>
          let config :=
            [("store_backend", option_val PyDict sb2);
             ("store_name", option_val PyStr store_name);
             ("module_name", PyStr module_name);
             ("class_name", PyStr class_name)] in
          (sb2, Ok {| _store_backend := _store_backend self;
                      _store_name := _store_name self;
                      _config := util.filter_properties_dict config |})
      end
  end.

Section BindParams.
(** [ValidationMetricIdentifier.to_evaluation_parameter_urn] is missing
    from the sources: the URN of a key is a parameter. *)
Variable to_evaluation_parameter_urn : ValidationMetricIdentifier -> string.

Fixpoint bind_loop (self : Store) (keys : list (list string)) (params : pydict)
  : result pydict :=
  match keys with
  | [] => Ok params
  | k :: keys' =>
      key <- MetricStore.tuple_to_key k ;;
      v <- MetricStore.get key self ;;
      bind_loop self keys' (Py.dict_set (to_evaluation_parameter_urn key) v params)
  end.

Definition get_bind_params (self : Store) (run_id : RunIdentifier) : result pydict :=
  bind_loop self
    (StoreBackend.list_keys (Key.run_to_tuple run_id) (_store_backend self)) [].
End BindParams.

Definition config (self : Store) : pydict := _config self.

End EvaluationParameterStore.

(** ** domain.py *)

Definition INFERRED_SEMANTIC_TYPE_KEY : string := "inferred_semantic_domain_type".

Module DomainKwargs.
Definition to_dict (self : pydict) : pyval := PyDict self.

Definition to_json_dict (self : pydict) : result pyval :=
  util.convert_to_json_serializable (to_dict self).
End DomainKwargs.

Module Domain.

(** The four entries of a [Domain]; [DomainKwargs] and the other dict
    wrappers are the dict they wrap. *)
Record t := {
  rule_name : string;
  domain_type : MetricDomainTypes;
  domain_kwargs : pydict;
  details : pydict
}.

(** What [other] can be in [self == other]. *)
Inductive pyobj :=
| ObjVal (v : pyval)
| ObjDomain (d : t).

Fixpoint depth (v : pyval) : nat :=
  match v with
  | PyList l | PyTuple l => S (fold_right Nat.max 0 (map depth l))
  | PyDict d => S (fold_right Nat.max 0 (map (fun kv => depth (snd kv)) d))
  | _ => 0
  end.

(** The recursion of the source goes through the values of the filtered
    dict; [fuel] bounds its depth. *)
Fixpoint _convert_dictionaries_to_domain_kwargs (fuel : nat) (source : pyval)
  : pyval :=
  match fuel with
  | O => source
  | S f =>
      match source with
      | PyDict _ =>
          match util.deep_filter_properties_iterable source with
          | PyDict d =>
              PyDict (map (fun kv =>
                             (fst kv, _convert_dictionaries_to_domain_kwargs f (snd kv)))
                        d)
          | other => other
          end
      | _ => source
      end
  end.

Definition not_supported (value : pyval) : string :=
  "Cannot instantiate Domain (domain_type " ++ dq ++ builtins.str value ++ dq
    ++ " of type " ++ dq ++ builtins.type_str value ++ dq ++ " is not supported)."
    ++ nl.

(** The [try] of [__init__]: only a TypeError or a KeyError is re-raised
    with the message of the source. *)
Definition coerce_str (domain_type : string) : result MetricDomainTypes :=
  match builtins.MetricDomainTypes_call domain_type with
  | Ok t => Ok t
  | Raise e =>
      match exn_kind e with
      | TypeError | KeyError =>
          Raise (Exn ValueError
                   (" " ++ exn_msg e ++ ": " ++ not_supported (PyStr domain_type)
                      ++ json.spaces 20))
      | _ => Raise e
      end
  end.

Definition __init__ (rule_name : string) (domain_type : pyval)
           (domain_kwargs details : option pydict) : result t :=
  t <- match domain_type with
       | PyStr s => coerce_str s
       | PyMetricType t => Ok t
       | _ => Raise (Exn ValueError
                       (" " ++ not_supported domain_type ++ json.spaces 16))
       end ;;
  let kwargs := match domain_kwargs with
                | None => PyDict []
                | Some d => PyDict d
                end in
  let domain_kwargs_dot_dict :=
    _convert_dictionaries_to_domain_kwargs (S (depth kwargs)) kwargs in
  let details := match details with None => [] | Some d => d end in
  Ok {| rule_name := rule_name;
        domain_type := t;
        domain_kwargs := match domain_kwargs_dot_dict with
                         | PyDict d => d
                         | _ => []
                         end;
        details := details |}.

(** [semantic_type.value], on whatever has that attribute. *)
Definition value_attr (semantic_type : pyval) : result pyval :=
  match semantic_type with
  | PySemanticType t => Ok (PyStr (Semantic.value t))
  | PyMetricType t => Ok (PyStr (Metric.value t))
  | _ => Raise (Exn AttributeError
                  (builtins.type_str semantic_type ++ " has no attribute 'value'"))
  end.

Definition normalize_type (semantic_type : pyval) : result pyval :=
  match semantic_type with
  | PyStr s =>
      t <- builtins.SemanticDomainTypes_call (builtins.lower s) ;;
      Ok (PyStr (Semantic.value t))
  | _ => value_attr semantic_type
  end.

(** The dict comprehension over [value.items()]. *)
Definition normalize_types (value : pyval) : result pyval :=
  match value with
  | PyDict m =>
      m' <- mapM (fun kv => t <- normalize_type (snd kv) ;; Ok (fst kv, t)) m ;;
      Ok (PyDict m')
  | _ => Raise (Exn AttributeError
                  (builtins.type_str value ++ " has no attribute 'items'"))
  end.

(** The loop of [to_json_dict] over [self["details"].items()]. *)
Fixpoint details_loop (items : pydict) (details : pydict) : result pydict :=
  match items with
  | [] => Ok details
  | (key, value) :: items' =>
      value1 <- (if Py.truthy value
                 then if String.eqb key INFERRED_SEMANTIC_TYPE_KEY
                      then normalize_types value
                      else Ok value
                 else Ok value) ;;
      converted <- util.convert_to_json_serializable value1 ;;
      details_loop items' (Py.dict_set key converted details)
  end.

Definition to_json_dict (self : t) : result pydict :=
  details <- details_loop (details self) [] ;;
  kwargs <- DomainKwargs.to_json_dict (domain_kwargs self) ;;
  let json_dict :=
    [("rule_name", PyStr (rule_name self));
     ("domain_type", PyStr (Metric.value (domain_type self)));
     ("domain_kwargs", kwargs);
     ("details", PyDict details)] in
  Ok (util.filter_properties_dict json_dict).

Definition __repr__ (self : t) : result string :=
  j <- to_json_dict self ;;
  json.dumps_indent 2 (PyDict j).

Definition __str__ (self : t) : result string := __repr__ self.

(** [hasattr(other, "to_json_dict")] *)
Definition has_to_json_dict (other : pyobj) : bool :=
  match other with ObjDomain _ => true | ObjVal _ => false end.

(** [isinstance(other, dict)]; a [Domain] is a dict. *)
Definition is_dict (other : pyobj) : bool :=
  match other with
  | ObjDomain _ => true
  | ObjVal (PyDict _) => true
  | ObjVal _ => false
  end.

(** The entries of [other] when it is a dict. *)
Definition as_dict (other : pyobj) : pydict :=
  match other with
  | ObjDomain d =>
      [("rule_name", PyStr (rule_name d));
       ("domain_type", PyMetricType (domain_type d));
       ("domain_kwargs", PyDict (domain_kwargs d));
       ("details", PyDict (details d))]
  | ObjVal (PyDict d) => d
  | ObjVal _ => []
  end.

(** [str(other)] *)
Definition str_of (other : pyobj) : result string :=
  match other with
  | ObjDomain d => __str__ d
  | ObjVal v => Ok (builtins.str v)
  end.

Definition other_to_json_dict (other : pyobj) : result pydict :=
  match other with
  | ObjDomain d => to_json_dict d
  | ObjVal v => Raise (Exn AttributeError "object has no attribute 'to_json_dict'")
  end.

(** The first operand of the [or]: the canonical JSON of both sides. *)
Definition eq_json (self : t) (other : pyobj) : result bool :=
  if has_to_json_dict other
  then a <- to_json_dict self ;;
       b <- other_to_json_dict other ;;
       Ok (Py.eqb (PyDict a) (PyDict b))
  else Ok false.

(** The second operand: a dict against the canonical JSON, both without
    their falsy entries. *)
Definition eq_mapping (self : t) (other : pyobj) : result bool :=
  if is_dict other
  then a <- to_json_dict self ;;
       Ok (Py.eqb (PyDict (util.filter_properties_dict a))
             (PyDict (util.filter_properties_dict (as_dict other))))
  else Ok false.

(** The third operand: the two string forms. *)
Definition eq_str (self : t) (other : pyobj) : result bool :=
  a <- __str__ self ;;
  b <- str_of other ;;
  Ok (String.eqb a b).

Definition __eq__ (self : t) (other : pyobj) : result bool :=
  match other with
  | ObjVal PyNone => Ok false
  | _ =>
      c1 <- eq_json self other ;;
      if c1 then Ok true
      else c2 <- eq_mapping self other ;;
           if c2 then Ok true
           else eq_str self other
  end.

Definition __ne__ (self : t) (other : pyobj) : result bool :=
  b <- __eq__ self other ;; Ok (negb b).

Section Identity.
(** The digest of [IDDict.to_id] and the builtin [hash] of a str are
    functions of the text they are given. *)
Variable digest : string -> string.
Variable hash : string -> Z.

(** Modelled from the spec: [IDDict.to_id] (core/id_dict.py) is missing;
    "the hash of the canonical JSON string (via a generic dictionary-to-id
    digest)", the canonical form having a "stable key ordering". *)
Definition to_id (d : pydict) : result string :=
  s <- json.dumps_sorted (PyDict d) ;; Ok (digest s).

Definition id (self : t) : result string :=
  j <- to_json_dict self ;; to_id j.

Definition __hash__ (self : t) : result Z :=
  i <- id self ;; Ok (hash i).
End Identity.

End Domain.

(** ** Notions used by the theory *)

Module json_aux.
Import json.

(** A text that does not start with a digit: what may follow a number. *)
Definition no_digit_head (s : string) : Prop :=
  match s with
  | EmptyString => True
  | String c _ => digit_of_char c = None
  end.

(** The characters a value can start with are no white space and close
    nothing. *)
Definition value_start (c : ascii) : bool :=
  negb (is_ws c) && negb (Ascii.eqb c "]") && negb (Ascii.eqb c "}").

(** The number of nodes of a value: the fuel its text needs. *)
Fixpoint size (v : pyval) : nat :=
  match v with
  | PyList l | PyTuple l => S (List.length l + list_sum (map size l))
  | PyDict d => S (List.length d + list_sum (map (fun kv => size (snd kv)) d))
  | _ => 1
  end.

(** The decoder reads [v], its tuples as lists, back from its text,
    whatever follows. *)
Definition decodes (v : pyval) : Prop :=
  forall fuel rest,
    size v <= fuel -> no_digit_head rest ->
    parse_value fuel (encode v ++ rest) = Some (decoded v, rest).

(** One [key: value] item of an encoded dict. *)
Definition encode_item (kv : string * pyval) : string :=
  encode_str (fst kv) ++ ": " ++ encode (snd kv).

(** The decoder reads [v], its tuples as lists, back from its indented
    text, at every nesting level and whatever follows. *)
Definition decodes_indent (indent : nat) (v : pyval) : Prop :=
  forall level fuel rest,
    size v <= fuel -> no_digit_head rest ->
    parse_value fuel (encode_indent indent level v ++ rest)
    = Some (decoded v, rest).

(** One [key: value] item of an indented dict. *)
Definition encode_indent_item (indent level : nat) (kv : string * pyval) : string :=
  encode_str (fst kv) ++ ": " ++ encode_indent indent level (snd kv).

End json_aux.

Module store_aux.

(** The backend class that the [module_name] and [class_name] entries of a
    backend configuration resolve to. *)
Definition resolved_class (sb : pydict) : result backend_class :=
  _ <- StoreBackend.verify_dynamic_loading_support
         (Py.dict_get_default "module_name" (PyStr StoreBackend.default_module) sb) ;;
  StoreBackend.load_class
    (Py.dict_get_default "class_name" (PyStr "InMemoryStoreBackend") sb)
    (Py.dict_get_default "module_name" (PyStr StoreBackend.default_module) sb).

(** [sb'] is [sb] with nothing changed or removed, nothing added but the
    defaults [table_name] and [key_columns], and nothing added at all when
    the backend class is not database-backed. *)
Definition adds_only_defaults (sb sb' : pydict) : Prop :=
  (forall k v, Py.dict_get k sb = Some v -> Py.dict_get k sb' = Some v) /\
  (forall k, k <> "table_name" -> k <> "key_columns" ->
             Py.dict_get k sb' = Py.dict_get k sb) /\
  (resolved_class sb <> Ok DatabaseStoreBackend -> sb' = sb).

(** A store with nothing in it. *)
Definition empty_store : Store :=
  {| _store_backend := []; _store_name := None; _config := [] |}.

End store_aux.

Module domain_aux.

(** The member a details entry stands for: a string by its lower-cased
    value, a member by itself. *)
Definition semantic_type_of (v : pyval) : option SemanticDomainTypes :=
  match v with
  | PyStr s => Semantic.of_value (builtins.lower s)
  | PySemanticType t => Some t
  | _ => None
  end.

(** The column-to-type mapping [m] with every type replaced by the value of
    its member. *)
Definition normalized (m : pydict) (ts : list SemanticDomainTypes) : pydict :=
  combine (map fst m) (map (fun t => PyStr (Semantic.value t)) ts).

(** One turn of the loop of [to_json_dict]: the entry that is stored. *)
Definition json_entry (kv : string * pyval) : result (string * pyval) :=
  value1 <- (if Py.truthy (snd kv)
             then if String.eqb (fst kv) INFERRED_SEMANTIC_TYPE_KEY
                  then Domain.normalize_types (snd kv)
                  else Ok (snd kv)
             else Ok (snd kv)) ;;
  converted <- util.convert_to_json_serializable value1 ;;
  Ok (fst kv, converted).

(** The shape of a canonical JSON: the four entries in their order, each
    present exactly when it is not empty. *)
Definition json_shape (self : Domain.t) (det : pydict) : pydict :=
  (if String.eqb (Domain.rule_name self) EmptyString then []
   else [("rule_name", PyStr (Domain.rule_name self))])
    ++ [("domain_type", PyStr (Metric.value (Domain.domain_type self)))]
    ++ (match Domain.domain_kwargs self with
        | [] => []
        | _ => [("domain_kwargs", json.decoded (PyDict (Domain.domain_kwargs self)))]
        end)
    ++ (match det with
        | [] => []
        | _ => [("details", PyDict det)]
        end).

(** The dicts of a Domain have distinct keys at every level. *)
Definition wf_domain (d : Domain.t) : Prop :=
  Py.wf (PyDict (Domain.domain_kwargs d)) /\ Py.wf (PyDict (Domain.details d)).

Definition wf_obj (other : Domain.pyobj) : Prop :=
  match other with
  | Domain.ObjDomain d => wf_domain d
  | Domain.ObjVal _ => True
  end.

End domain_aux.

Module contents_aux.

(** A value that is no list, no tuple and no dict. *)
Definition atom (v : pyval) : Prop :=
  match v with
  | PyList _ | PyDict _ | PyTuple _ => False
  | _ => True
  end.

(** Two values with the same contents: they differ at most in the order of
    the keys of their dicts, at any level of nesting. *)
Unset Elimination Schemes.
Inductive same_contents : pyval -> pyval -> Prop :=
| SC_atom v : atom v -> same_contents v v
| SC_list l1 l2 :
    Forall2 same_contents l1 l2 -> same_contents (PyList l1) (PyList l2)
| SC_tuple l1 l2 :
    Forall2 same_contents l1 l2 -> same_contents (PyTuple l1) (PyTuple l2)
| SC_dict d1 d d2 :
    Permutation d1 d ->
    Forall2 (fun a b => fst a = fst b /\ same_contents (snd a) (snd b)) d d2 ->
    same_contents (PyDict d1) (PyDict d2).
Set Elimination Schemes.

(** Two items with one key and values with the same contents. *)
Abbreviation same_entry :=
  (fun a b : string * pyval => fst a = fst b /\ same_contents (snd a) (snd b)).

End contents_aux.

(** ** Concrete inputs *)

Module examples.

Definition run : RunIdentifier := {| run_name := "run"; run_time := "20240101" |}.

Definition key (metric : string) : ValidationMetricIdentifier :=
  {| run_id := run; data_asset_name := "asset";
     expectation_suite_identifier := "suite";
     metric_name := metric; metric_kwargs_id := "column=age" |}.

Definition earlier_key : ValidationMetricIdentifier :=
  {| run_id := {| run_name := "earlier"; run_time := "20231231" |};
     data_asset_name := "asset"; expectation_suite_identifier := "suite";
     metric_name := "mean"; metric_kwargs_id := "column=age" |}.

Definition urn (k : ValidationMetricIdentifier) : string :=
  "urn:great_expectations:validations:" ++ expectation_suite_identifier k
    ++ ":" ++ metric_name k.


Definition binary_payload : pyval := PyDict [("handle", PyBytes "raw")].



(** A store after three writes, two of them under [run]. *)
Definition two_key_store : Store :=
  fst (MetricStore.set (key "max") (PyList [PyInt 9; PyStr "x"])
    (fst (MetricStore.set earlier_key (PyInt 1)
       (fst (MetricStore.set (key "mean") (PyInt 5) store_aux.empty_store))))).

Definition database_config : pydict := [("class_name", PyStr "DatabaseStoreBackend")].

(** [Domain(rule_name="r1", domain_type="column", domain_kwargs={"column": "age"})] *)
Definition column_domain : Domain.t :=
  {| Domain.rule_name := "r1"; Domain.domain_type := COLUMN;
     Domain.domain_kwargs := [("column", PyStr "age")];
     Domain.details := [] |}.

(** [details={"inferred_semantic_domain_type": {"age": "NUMERIC"}}] *)
Definition typed_domain : Domain.t :=
  {| Domain.rule_name := "r1"; Domain.domain_type := COLUMN;
     Domain.domain_kwargs := [("column", PyStr "age")];
     Domain.details :=
       [(INFERRED_SEMANTIC_TYPE_KEY, PyDict [("age", PyStr "NUMERIC")])] |}.

(** The text of [str(column_domain)]. *)
Definition column_domain_str : string :=
  "{" ++ nl
   ++ "  " ++ dq ++ "rule_name" ++ dq ++ ": " ++ dq ++ "r1" ++ dq ++ "," ++ nl
   ++ "  " ++ dq ++ "domain_type" ++ dq ++ ": " ++ dq ++ "column" ++ dq ++ "," ++ nl
   ++ "  " ++ dq ++ "domain_kwargs" ++ dq ++ ": {" ++ nl
   ++ "    " ++ dq ++ "column" ++ dq ++ ": " ++ dq ++ "age" ++ dq ++ nl
   ++ "  }" ++ nl
   ++ "}".

(** The same two keys in the two orders, under a nested dict as well. *)
Definition kwargs_ab : pydict :=
  [("column_A", PyStr "a"); ("column_B", PyStr "b");
   ("row_condition", PyDict [("min", PyInt 0); ("max", PyInt 9)])].

Definition kwargs_ba : pydict :=
  [("row_condition", PyDict [("max", PyInt 9); ("min", PyInt 0)]);
   ("column_B", PyStr "b"); ("column_A", PyStr "a")].

End examples.

(** ** Further concrete inputs *)

Module more_examples.

(** An envelope that holds more than the value. *)
Definition wide_envelope : pydict :=
  [("unit", PyStr "rows"); ("value", PyInt 42); ("source", PyNone)].

(** A JSON object that is no envelope. *)
Definition no_envelope : pydict := [("mean", PyInt 5)].

Definition unknown_config : pydict := [("class_name", PyStr "NoSuchBackend")].

(** Details whose inferred type of column [age] is no member's value. *)
Definition bad_details : pydict :=
  [("note", PyStr "profiled");
   (INFERRED_SEMANTIC_TYPE_KEY,
    PyDict [("id", PySemanticType IDENTIFIER); ("age", PyStr "Number")])].

(** Details whose reserved key holds a list. *)
Definition list_details : pydict :=
  [(INFERRED_SEMANTIC_TYPE_KEY, PyList [PyStr "numeric"])].

(** A second key of run [examples.run] with the URN of [examples.key "mean"]. *)
Definition height_key : ValidationMetricIdentifier :=
  {| run_id := examples.run; data_asset_name := "asset";
     expectation_suite_identifier := "suite";
     metric_name := "mean"; metric_kwargs_id := "column=height" |}.

(** Two writes under one URN. *)
Definition clash_store : Store :=
  fst (MetricStore.set height_key (PyInt 7)
    (fst (MetricStore.set (examples.key "mean") (PyInt 5) store_aux.empty_store))).

(** A store whose second key of the run holds text that is not JSON. *)
Definition broken_store : Store :=
  {| _store_backend :=
       [(Key.to_tuple (examples.key "mean"), json.encode (PyDict [("value", PyInt 5)]));
        (Key.to_tuple (examples.key "max"), "not json")];
     _store_name := None; _config := [] |}.

(** The mapping and the store that
    [EvaluationParameterStore(store_backend=database_config, store_name="params")]
    leaves. *)
Definition evaluation_mapping : pydict :=
  (examples.database_config
     ++ [("table_name", PyStr "ge_evaluation_parameters");
         ("key_columns", MetricStore.key_columns)])%list.

Definition evaluation_store : Store :=
  {| _store_backend := []; _store_name := Some "params";
     _config :=
       [("store_backend", PyDict evaluation_mapping);
        ("store_name", PyStr "params");
        ("module_name", PyStr EvaluationParameterStore.module_name);
        ("class_name", PyStr EvaluationParameterStore.class_name)] |}.

End more_examples.

Module more_store_aux.

(** The keys whose values a run of [get_bind_params] reads, with the values. *)
Definition reads (self : Store) (ks : list ValidationMetricIdentifier)
           (vs : list pyval) : Prop :=
  Forall2 (fun k v => MetricStore.get k self = Ok v) ks vs.

End more_store_aux.

Module more_domain_aux.

(** The error of the Enum lookup [SemanticDomainTypes(s)] for a text [s] that
    is no member's value. *)
Definition not_a_semantic_type (s : string) : exn :=
  Exn ValueError (builtins.repr_str s ++ " is not a valid SemanticDomainTypes").

(** Details entries that the loop of [to_json_dict] passes through as they
    are. *)
Definition plain_entries (items : pydict) : Prop :=
  Forall (fun kv => fst kv <> INFERRED_SEMANTIC_TYPE_KEY
                    /\ json.encodable (snd kv) = true) items.

(** Column types that the loop of [to_json_dict] accepts. *)
Definition known_types (m : pydict) : Prop :=
  Forall (fun kv => domain_aux.semantic_type_of (snd kv) <> None) m.

(** Details whose reserved key, when it holds a dict, holds column types
    that the loop of [to_json_dict] accepts. *)
Definition typed_details (items : pydict) : Prop :=
  Forall (fun kv => fst kv = INFERRED_SEMANTIC_TYPE_KEY ->
                    forall m, snd kv = PyDict m -> known_types m) items.

(** A Domain with details that name an unknown type. *)
Definition bad_domain : Domain.t :=
  {| Domain.rule_name := "r1"; Domain.domain_type := TABLE;
     Domain.domain_kwargs := []; Domain.details := more_examples.bad_details |}.

(** The canonical JSON of [examples.column_domain], and the same mapping with
    falsy entries added. *)
Definition column_json : pydict :=
  [("rule_name", PyStr "r1"); ("domain_type", PyStr "column");
   ("domain_kwargs", PyDict [("column", PyStr "age")])].

Definition column_json_padded : pydict :=
  [("details", PyDict []); ("rule_name", PyStr "r1"); ("comment", PyNone);
   ("domain_type", PyStr "column");
   ("domain_kwargs", PyDict [("column", PyStr "age")]); ("rank", PyInt 0)].

(** Kwargs with null and empty branches. *)
Definition sparse_kwargs : pydict :=
  [("column", PyStr "age");
   ("row_condition", PyNone);
   ("filter", PyDict [("min", PyNone); ("tags", PyList [])]);
   ("batch", PyDict [("id", PyInt 0); ("parts", PyList [PyNone; PyInt 1])])].

End more_domain_aux.

(** * Theory *)

(** ** Strings *)

Lemma append_assoc (a b c : string) : (a ++ b) ++ c = a ++ (b ++ c).
Proof. induction a as [|x a IH]; simpl; [reflexivity | now rewrite IH]. Qed.

Lemma append_nil_r (a : string) : a ++ EmptyString = a.
Proof. induction a as [|x a IH]; simpl; [reflexivity | now rewrite IH]. Qed.

Lemma length_append (a b : string) :
  String.length (a ++ b) = String.length a + String.length b.
Proof. induction a as [|x a IH]; simpl; [reflexivity | now rewrite IH]. Qed.

(** ** Well-formed values *)

Lemma wf_list l : Py.wf (PyList l) <-> Forall Py.wf l.
Proof.
  simpl. induction l as [|p l IH]; split; intros H.
  - constructor.
  - exact I.
  - destruct H as [Hp Hl]. constructor; [exact Hp | now apply IH].
  - inversion H; subst. split; [assumption | now apply IH].
Qed.

Lemma wf_tuple l : Py.wf (PyTuple l) <-> Forall Py.wf l.
Proof.
  simpl. induction l as [|p l IH]; split; intros H.
  - constructor.
  - exact I.
  - destruct H as [Hp Hl]. constructor; [exact Hp | now apply IH].
  - inversion H; subst. split; [assumption | now apply IH].
Qed.

Lemma wf_dict d :
  Py.wf (PyDict d) <-> NoDup (map fst d) /\ Forall (fun kv => Py.wf (snd kv)) d.
Proof.
  simpl. apply and_iff_compat_l.
  induction d as [|[k p] d IH]; split; intros H.
  - constructor.
  - exact I.
  - destruct H as [Hp Hd]. constructor; [exact Hp | now apply IH].
  - inversion H; subst. split; [assumption | now apply IH].
Qed.

(** ** Decoding what the encoder wrote *)

Module json_facts.
Import json json_aux.

(** *** Numbers *)

Lemma scan_digits_encode d rest :
  no_digit_head rest ->
  scan_digits (NilEmpty.string_of_uint d ++ rest) = (d, rest).
Proof.
  intros Hr. induction d; simpl;
    try (rewrite IHd; reflexivity).
  destruct rest as [|c r]; [reflexivity|].
  simpl in *. now rewrite Hr.
Qed.

Lemma to_uint_head p : forall d, Pos.to_uint p <> D0 d.
Proof.
  intros d E.
  assert (Hn : Pos.to_uint p = unorm (Pos.to_uint p)).
  { pose proof (DecimalPos.Unsigned.of_to p) as H1.
    pose proof (DecimalPos.Unsigned.to_of (Pos.to_uint p)) as H2.
    rewrite H1 in H2. simpl in H2. exact H2. }
  rewrite E in Hn. rewrite unorm_D0 in Hn.
  unfold unorm in Hn.
  destruct (nzhead d) eqn:En; try discriminate.
  - inversion Hn; subst d.
    apply (DecimalPos.Unsigned.to_uint_nonzero p). exact E.
  - apply (nzhead_nonzero _ _ En).
Qed.

Lemma scan_int_encode p rest :
  no_digit_head rest ->
  scan_int (NilEmpty.string_of_uint (Pos.to_uint p) ++ rest)
  = Some (Pos.to_uint p, rest).
Proof.
  intros Hr.
  pose proof (scan_digits_encode (Pos.to_uint p) rest Hr) as Hs.
  pose proof (to_uint_head p) as Hz.
  pose proof (DecimalPos.Unsigned.to_uint_nonnil p) as Hn.
  destruct (Pos.to_uint p) as [|d|d|d|d|d|d|d|d|d|d]; simpl in *;
    try congruence; try (exfalso; eapply Hz; reflexivity);
    now rewrite Hs.
Qed.

Lemma parse_number_encode z rest :
  no_digit_head rest ->
  parse_number (encode_int z ++ rest) = Some (PyInt z, rest).
Proof.
  intros Hr. unfold encode_int.
  pose proof (DecimalZ.of_to z) as Hz.
  destruct z as [|p|p]; simpl in *.
  - reflexivity.
  - pose proof (scan_int_encode p rest Hr) as Hs.
    pose proof (to_uint_head p) as H0.
    pose proof (DecimalPos.Unsigned.to_uint_nonnil p) as Hn.
    destruct (Pos.to_uint p) as [|d|d|d|d|d|d|d|d|d|d]; simpl in *;
      try congruence; try (exfalso; eapply H0; reflexivity);
      injection Hs as Hs; rewrite Hs; now rewrite Hz.
  - rewrite (scan_int_encode p rest Hr). now rewrite Hz.
Qed.

(** *** Strings *)

Lemma scan_escape_char c tail :
  scan_string (escape_char c ++ tail) = cons_char c (scan_string tail).
Proof.
  destruct c as [[] [] [] [] [] [] [] []]; reflexivity.
Qed.

Lemma scan_string_escape s rest :
  scan_string (escape s ++ String dquote rest) = Some (s, rest).
Proof.
  induction s as [|c s IH]; simpl.
  - reflexivity.
  - rewrite append_assoc, scan_escape_char, IH. reflexivity.
Qed.

Lemma encode_str_app s rest :
  encode_str s ++ rest = String dquote (escape s ++ String dquote rest).
Proof.
  unfold encode_str, dq. simpl. now rewrite append_assoc.
Qed.

(** *** The first character of an encoded value *)

Lemma digit_string_head d :
  d <> Nil ->
  exists c s, NilEmpty.string_of_uint d = String c s /\ value_start c = true.
Proof.
  destruct d; intros H; try congruence; simpl; eexists _, _; split;
    reflexivity.
Qed.

Lemma encode_int_head z :
  exists c s, encode_int z = String c s /\ value_start c = true.
Proof.
  unfold encode_int. destruct z as [|p|p]; simpl.
  - eexists _, _; split; reflexivity.
  - apply digit_string_head, DecimalPos.Unsigned.to_uint_nonnil.
  - eexists _, _; split; reflexivity.
Qed.

Lemma encode_head v :
  encodable v = true ->
  exists c s, encode v = String c s /\ value_start c = true.
Proof.
  destruct v as [|[]|z|s|[|p l]|[|kv d]|t|t|b|[|p l]]; simpl; intros H;
    try discriminate;
    try (eexists _, _; split; reflexivity).
  apply encode_int_head.
Qed.

Lemma skip_ws_start c s : value_start c = true -> skip_ws (String c s) = String c s.
Proof.
  unfold value_start. intros H. simpl.
  destruct (is_ws c); [discriminate | reflexivity].
Qed.

(** *** Values *)

Lemma parse_value_number f s :
  (exists c s', s = String c s' /\
                (c = "-"%char \/ digit_of_char c <> None)) ->
  parse_value (S f) s = parse_number s.
Proof.
  intros (c & s' & -> & [-> | H]); [reflexivity|].
  unfold digit_of_char in H.
  repeat match type of H with
         | context [Ascii.eqb c ?x] =>
             destruct (Ascii.eqb_spec c x) as [-> | _]; [reflexivity|]
         end.
  congruence.
Qed.

Lemma encode_int_number z :
  exists c s', encode_int z = String c s' /\
               (c = "-"%char \/ digit_of_char c <> None).
Proof.
  unfold encode_int. destruct z as [|p|p]; simpl.
  - eexists _, _; split; [reflexivity | right; discriminate].
  - pose proof (DecimalPos.Unsigned.to_uint_nonnil p) as Hn.
    destruct (Pos.to_uint p); try congruence; simpl;
      eexists _, _; (split; [reflexivity | right; discriminate]).
  - eexists _, _; split; [reflexivity | now left].
Qed.

Lemma decodes_int z : decodes (PyInt z).
Proof.
  intros [|f] rest Hf Hr; simpl in Hf; [lia|].
  cbn [encode].
  rewrite parse_value_number.
  - now apply parse_number_encode.
  - destruct (encode_int_number z) as (c & s' & E & H).
    exists c, (s' ++ rest). rewrite E. split; [reflexivity | exact H].
Qed.

Lemma decodes_str s : decodes (PyStr s).
Proof.
  intros [|f] rest Hf Hr; simpl in Hf; [lia|].
  cbn [encode]. rewrite encode_str_app.
  cbn -[scan_string]. now rewrite scan_string_escape.
Qed.

Lemma concat_cons_app (sep x : string) (xs : list string) (tail : string) :
  xs <> [] ->
  String.concat sep (x :: xs) ++ tail
  = x ++ sep ++ (String.concat sep xs ++ tail).
Proof.
  destruct xs as [|y ys]; [congruence|]. intros _.
  cbn [String.concat]. now rewrite !append_assoc.
Qed.

Lemma parse_value_space fuel s :
  parse_value fuel (String " " s) = parse_value fuel s.
Proof. destruct fuel; reflexivity. Qed.

Lemma parse_elems_space fuel s :
  parse_elems fuel (String " " s) = parse_elems fuel s.
Proof. destruct fuel; [reflexivity|]. cbn [parse_elems]. now rewrite parse_value_space. Qed.

Lemma parse_members_space fuel s :
  parse_members fuel (String " " s) = parse_members fuel s.
Proof. destruct fuel; reflexivity. Qed.

Lemma parse_elems_encode l :
  l <> [] -> Forall decodes l ->
  forall fuel rest,
    List.length l + list_sum (map size l) <= fuel ->
    parse_elems fuel (String.concat ", " (map encode l) ++ String "]" rest)
    = Some (map decoded l, rest).
Proof.
  induction l as [|v l IH]; [congruence|].
  intros _ Hd fuel rest Hf.
  inversion Hd as [|? ? Hdv Hdl]; subst.
  destruct fuel as [|f]; [simpl in Hf; lia|].
  cbn [map list_sum fold_right List.length] in Hf.
  destruct l as [|w l].
  - cbn [map String.concat parse_elems].
    rewrite Hdv; [|simpl in *; lia | reflexivity].
    reflexivity.
  - cbn [map]. rewrite concat_cons_app by discriminate.
    cbn [parse_elems].
    rewrite Hdv; [|lia | reflexivity].
    cbn -[parse_elems String.concat map].
    rewrite parse_elems_space.
    change (encode w :: map encode l) with (map encode (w :: l)).
    rewrite IH; [reflexivity | discriminate | assumption |].
    cbn [map list_sum fold_right List.length] in *. lia.
Qed.

Lemma parse_members_encode d :
  d <> [] -> Forall (fun kv => decodes (snd kv)) d ->
  forall fuel rest,
    List.length d + list_sum (map (fun kv => size (snd kv)) d) <= fuel ->
    parse_members fuel (String.concat ", " (map encode_item d) ++ String "}" rest)
    = Some (map (fun kv => (fst kv, decoded (snd kv))) d, rest).
Proof.
  induction d as [|[k v] d IH]; [congruence|].
  intros _ Hd fuel rest Hf.
  inversion Hd as [|? ? Hdv Hdl]; subst. cbn [snd] in Hdv.
  destruct fuel as [|f]; [simpl in Hf; lia|].
  cbn [map list_sum fold_right List.length snd] in Hf.
  destruct d as [|w d].
  - cbn [map String.concat]. unfold encode_item at 1. cbn [fst snd].
    rewrite !append_assoc, encode_str_app.
    cbn -[scan_string parse_value]. rewrite scan_string_escape.
    cbn -[parse_value]. rewrite parse_value_space.
    rewrite Hdv; [|simpl in *; lia | reflexivity].
    reflexivity.
  - cbn [map]. rewrite concat_cons_app by discriminate.
    change (encode_item w :: map encode_item d) with (map encode_item (w :: d)).
    remember (String.concat ", " (map encode_item (w :: d)) ++ String "}" rest)
      as tail eqn:Et.
    unfold encode_item at 1. cbn [fst snd].
    rewrite !append_assoc, encode_str_app.
    cbn -[scan_string parse_value]. rewrite scan_string_escape.
    cbn -[parse_value]. rewrite parse_value_space.
    rewrite Hdv; [|lia | reflexivity].
    cbn. rewrite parse_members_space. subst tail.
    rewrite IH; [reflexivity | discriminate | assumption |].
    cbn [map list_sum fold_right List.length] in *. lia.
Qed.

Lemma dict_set_fresh k v d :
  ~ In k (map fst d) -> Py.dict_set k v d = (d ++ [(k, v)])%list.
Proof.
  induction d as [|[k' v'] d IH]; simpl; intros H; [reflexivity|].
  destruct (String.eqb_spec k k') as [->|_]; [tauto|].
  rewrite IH; [reflexivity | tauto].
Qed.

Lemma dict_of_pairs_nodup d :
  NoDup (map fst d) -> Py.dict_of_pairs d = d.
Proof.
  unfold Py.dict_of_pairs.
  assert (G : forall l acc,
             NoDup (map fst (acc ++ l)%list) ->
             fold_left (fun d kv => Py.dict_set (fst kv) (snd kv) d) l acc
             = (acc ++ l)%list).
  { induction l as [|[k v] l IH]; intros acc H; simpl.
    - now rewrite List.app_nil_r.
    - rewrite dict_set_fresh.
      + rewrite IH; rewrite <- List.app_assoc; [reflexivity | exact H].
      + rewrite map_app in H. simpl in H.
        apply NoDup_remove_2 in H. intros Hin. apply H.
        apply in_or_app. now left. }
  intros H. now apply (G d []).
Qed.

Lemma decodes_array l v :
  v = PyList l \/ v = PyTuple l ->
  forallb encodable l = true -> Forall decodes l -> decodes v.
Proof.
  intros Hv He Hd [|f] rest Hf Hr;
    [destruct Hv as [->| ->]; simpl in Hf; lia|].
  assert (E0 : encode v = "[" ++ String.concat ", " (map encode l) ++ "]"
               /\ decoded v = PyList (map decoded l)
               /\ size v = S (List.length l + list_sum (map size l)))
    by (destruct Hv as [->| ->]; repeat split; reflexivity).
  destruct E0 as (Ee & Ed & Es). rewrite Ee, Ed. rewrite Es in Hf.
  destruct l as [|w l]; [reflexivity|].
  rewrite !append_assoc.
  assert (Hs : exists c s, String.concat ", " (map encode (w :: l))
                             ++ String "]" rest = String c s
                           /\ value_start c = true).
  { destruct (encode_head w) as (c & s & E & Hc).
    { cbn [forallb] in He. now apply andb_prop in He. }
    cbn [map]. destruct l; cbn [map String.concat]; rewrite E;
      cbn [append]; eexists _, _; (split; [reflexivity | exact Hc]). }
  destruct Hs as (c & s & E & Hc).
  cbn -[parse_elems String.concat map]. cbn [append] in E |- *.
  rewrite E, (skip_ws_start _ _ Hc).
  assert (Hc' : Ascii.eqb c "]" = false).
  { unfold value_start in Hc.
    destruct (Ascii.eqb c "]"); [|reflexivity].
    rewrite andb_false_r in Hc. discriminate. }
  rewrite Hc', <- E.
  rewrite parse_elems_encode; [reflexivity | discriminate | exact Hd | lia].
Qed.

(** Decoding undoes encoding, up to the tuples, on every value the encoder
    accepts. *)
Lemma decodes_encodable v : encodable v = true -> Py.wf v -> decodes v.
Proof.
  induction v as [|b|z|s|l IH|d IH|t|t|b|l IH] using pyval_ind;
    intros He Hw; try discriminate.
  - intros [|f] rest Hf Hr; [simpl in Hf; lia | reflexivity].
  - intros [|f] rest Hf Hr; [simpl in Hf; lia | destruct b; reflexivity].
  - apply decodes_int.
  - apply decodes_str.
  - apply (decodes_array l); [now left | exact He |].
    apply wf_list in Hw. cbn [encodable] in He.
    rewrite forallb_forall in He. rewrite Forall_forall in *.
    intros x Hx. apply IH; auto.
  - apply wf_dict in Hw. destruct Hw as [Hnd Hw].
    assert (Hd : Forall (fun kv => decodes (snd kv)) d).
    { cbn [encodable] in He.
      rewrite forallb_forall in He. rewrite Forall_forall in *.
      intros x Hx. apply IH; auto. }
    intros [|f] rest Hf Hr; [simpl in Hf; lia|].
    cbn [size] in Hf. cbn [encode].
    destruct d as [|w d]; [reflexivity|].
    rewrite !append_assoc.
    change (map (fun kv => encode_str (fst kv) ++ ": " ++ encode (snd kv)) (w :: d))
      with (map encode_item (w :: d)).
    assert (Hs : exists s, String.concat ", " (map encode_item (w :: d))
                             ++ String "}" rest = String dquote s).
    { cbn [map]. destruct d; cbn [map String.concat]; unfold encode_item at 1;
        rewrite !append_assoc, encode_str_app; eexists; reflexivity. }
    destruct Hs as (s & E).
    cbn -[parse_members String.concat map]. cbn [append] in E |- *.
    rewrite E. cbn -[parse_members]. rewrite <- E.
    rewrite parse_members_encode; [| discriminate | exact Hd | lia].
    rewrite dict_of_pairs_nodup; [reflexivity|].
    now rewrite map_map, (map_ext _ fst) by reflexivity.
  - apply (decodes_array l); [now right | exact He |].
    apply wf_tuple in Hw. cbn [encodable] in He.
    rewrite forallb_forall in He. rewrite Forall_forall in *.
    intros x Hx. apply IH; auto.
Qed.

(** *** Enough fuel *)

Lemma concat_length (f : pyval -> string) (g : pyval -> nat) l :
  Forall (fun v => g v <= String.length (f v)) l ->
  List.length l + list_sum (map g l)
  <= String.length (String.concat ", " (map f l)) + 1.
Proof.
  induction l as [|v l IH]; intros H; [simpl; lia|].
  inversion H as [|? ? Hv Hl]; subst. specialize (IH Hl).
  destruct l as [|w l].
  - simpl. lia.
  - cbn [map String.concat] in *. rewrite !length_append.
    cbn [list_sum fold_right List.length String.length] in *. lia.
Qed.

Lemma size_le_length v :
  encodable v = true -> size v <= String.length (encode v).
Proof.
  induction v as [|b|z|s|l IH|d IH|t|t|b|l IH] using pyval_ind;
    intros He; try discriminate.
  - simpl. lia.
  - destruct b; simpl; lia.
  - destruct (encode_int_head z) as (c & s & E & _).
    cbn [size encode]. rewrite E. simpl. lia.
  - cbn [size encode]. unfold encode_str, dq.
    rewrite !length_append. simpl. lia.
  - cbn [size encode encodable] in *. rewrite !length_append.
    rewrite forallb_forall in He.
    assert (H : Forall (fun v => size v <= String.length (encode v)) l).
    { rewrite Forall_forall in *. intros x Hx. apply IH; auto. }
    pose proof (concat_length encode size l H). simpl. lia.
  - cbn [size encode encodable] in *. rewrite !length_append.
    rewrite forallb_forall in He.
    assert (H : Forall (fun kv => size (snd kv)
                                  <= String.length (encode_item kv)) d).
    { rewrite Forall_forall in *. intros x Hx.
      unfold encode_item. rewrite !length_append.
      specialize (IH x Hx (He x Hx)). lia. }
    clear IH He.
    assert (G : List.length d + list_sum (map (fun kv => size (snd kv)) d)
                <= String.length (String.concat ", " (map encode_item d)) + 1).
    { induction d as [|v d IH]; [simpl; lia|].
      inversion H as [|? ? Hv Hl]; subst. specialize (IH Hl).
      destruct d as [|w d].
      - simpl. simpl in Hv. lia.
      - cbn [map String.concat] in *. rewrite !length_append.
        cbn [list_sum fold_right List.length String.length] in *. lia. }
    change (map (fun kv => encode_str (fst kv) ++ ": " ++ encode (snd kv)) d)
      with (map encode_item d).
    simpl. lia.
  - cbn [size encode encodable] in *. rewrite !length_append.
    rewrite forallb_forall in He.
    assert (H : Forall (fun v => size v <= String.length (encode v)) l).
    { rewrite Forall_forall in *. intros x Hx. apply IH; auto. }
    pose proof (concat_length encode size l H). simpl. lia.
Qed.

(** *** Values without tuples *)

Lemma native_encodable v : native v = true -> encodable v = true.
Proof.
  induction v as [|b|z|s|l IH|d IH|t|t|b|l IH] using pyval_ind;
    intros H; try discriminate; try reflexivity.
  - cbn [native encodable] in *. rewrite forallb_forall in *.
    rewrite Forall_forall in IH. auto.
  - cbn [native encodable] in *. rewrite forallb_forall in *.
    rewrite Forall_forall in IH. auto.
Qed.

Lemma decoded_native v : native v = true -> decoded v = v.
Proof.
  induction v as [|b|z|s|l IH|d IH|t|t|b|l IH] using pyval_ind;
    intros H; try discriminate; try reflexivity.
  - cbn [native decoded] in *. f_equal. rewrite forallb_forall in H.
    rewrite Forall_forall in IH. rewrite <- (map_id l) at 2.
    apply map_ext_in. auto.
  - cbn [native decoded] in *. f_equal. rewrite forallb_forall in H.
    rewrite Forall_forall in IH. rewrite <- (map_id d) at 2.
    apply map_ext_in. intros [k x] Hx. cbn [fst snd]. f_equal.
    exact (IH (k, x) Hx (H (k, x) Hx)).
Qed.

Lemma native_decoded v : encodable v = true -> native (decoded v) = true.
Proof.
  induction v as [|b|z|s|l IH|d IH|t|t|b|l IH] using pyval_ind;
    intros H; try discriminate; try reflexivity.
  - cbn [encodable native decoded] in *. rewrite forallb_forall in *.
    rewrite Forall_forall in IH. intros x Hx. apply in_map_iff in Hx.
    destruct Hx as (y & <- & Hy). auto.
  - cbn [encodable native decoded] in *. rewrite forallb_forall in *.
    rewrite Forall_forall in IH. intros x Hx. apply in_map_iff in Hx.
    destruct Hx as (y & <- & Hy). cbn [snd]. auto.
  - cbn [encodable native decoded] in *. rewrite forallb_forall in *.
    rewrite Forall_forall in IH. intros x Hx. apply in_map_iff in Hx.
    destruct Hx as (y & <- & Hy). auto.
Qed.

Lemma wf_decoded v : Py.wf v -> Py.wf (decoded v).
Proof.
  induction v as [|b|z|s|l IH|d IH|t|t|b|l IH] using pyval_ind;
    intros H; try exact H.
  - cbn [decoded]. apply wf_list. apply wf_list in H.
    rewrite Forall_forall in *. intros x Hx. apply in_map_iff in Hx.
    destruct Hx as (y & <- & Hy). auto.
  - cbn [decoded]. apply wf_dict. apply wf_dict in H. destruct H as [Hn H].
    split.
    + now rewrite map_map, (map_ext _ fst) by reflexivity.
    + rewrite Forall_forall in *. intros x Hx. apply in_map_iff in Hx.
      destruct Hx as (y & <- & Hy). cbn [snd]. auto.
  - cbn [decoded]. apply wf_list. apply wf_tuple in H.
    rewrite Forall_forall in *. intros x Hx. apply in_map_iff in Hx.
    destruct Hx as (y & <- & Hy). auto.
Qed.

(** The encoder writes a value and its decoded form as the same text. *)
Lemma encode_decoded v : encode (decoded v) = encode v.
Proof.
  induction v as [|b|z|s|l IH|d IH|t|t|b|l IH] using pyval_ind;
    try reflexivity.
  - cbn [decoded encode]. do 3 f_equal. rewrite map_map.
    apply map_ext_in. now apply Forall_forall.
  - cbn [decoded encode]. do 3 f_equal. rewrite map_map.
    apply map_ext_in. intros kv Hkv. cbn [fst snd]. do 2 f_equal.
    rewrite Forall_forall in IH. now apply IH.
  - cbn [decoded encode]. do 3 f_equal. rewrite map_map.
    apply map_ext_in. now apply Forall_forall.
Qed.

(** [json.loads(json.dumps(v))] is [v] with its tuples as lists. *)
Lemma loads_encode v :
  encodable v = true -> Py.wf v -> loads (encode v) = Ok (decoded v).
Proof.
  intros He Hw. unfold loads.
  pose proof (decodes_encodable v He Hw (S (String.length (encode v)))
                EmptyString) as H.
  rewrite append_nil_r in H. rewrite H.
  - reflexivity.
  - pose proof (size_le_length v He). lia.
  - exact I.
Qed.

Lemma loads_dumps v s :
  Py.wf v -> dumps v = Ok s -> loads s = Ok (decoded v).
Proof.
  unfold dumps. intros Hw H.
  destruct (encodable v) eqn:He; [|discriminate].
  injection H as <-. now apply loads_encode.
Qed.

End json_facts.

(** Distinctness of the keys of a concrete dict. *)
Ltac nodup_strings :=
  repeat (apply NoDup_cons; [simpl; intuition discriminate|]); apply NoDup_nil.

(** ** Dicts *)

Lemma dict_get_set_same k v d : Py.dict_get k (Py.dict_set k v d) = Some v.
Proof.
  induction d as [|[k' v'] d IH]; simpl.
  - now rewrite String.eqb_refl.
  - destruct (String.eqb k k') eqn:E; simpl; rewrite E; [reflexivity | exact IH].
Qed.

Lemma dict_get_set_other k k0 v d :
  k <> k0 -> Py.dict_get k (Py.dict_set k0 v d) = Py.dict_get k d.
Proof.
  intros Hk. induction d as [|[k' v'] d IH]; simpl.
  - destruct (String.eqb_spec k k0); [contradiction | reflexivity].
  - destruct (String.eqb_spec k0 k') as [E|Hn]; simpl.
    + subst k'. destruct (String.eqb_spec k k0); [contradiction | reflexivity].
    + destruct (String.eqb k k'); [reflexivity | exact IH].
Qed.

Lemma dict_set_same k v d : Py.dict_get k d = Some v -> Py.dict_set k v d = d.
Proof.
  induction d as [|[k' v'] d IH]; simpl; [discriminate|].
  destruct (String.eqb k k'); intros H.
  - now injection H as ->.
  - now rewrite IH.
Qed.

Lemma dict_mem_false k d : Py.dict_mem k d = false -> Py.dict_get k d = None.
Proof. unfold Py.dict_mem. destruct (Py.dict_get k d); [discriminate | reflexivity]. Qed.

(** ** MetricStore *)

Lemma tuple_to_key_to_tuple k : MetricStore.tuple_to_key (Key.to_tuple k) = Ok k.
Proof. destruct k as [[a b] c d e f]. reflexivity. Qed.

(** The envelope of a JSON-serializable value is JSON-serializable, and is
    read back with the tuples of the value as lists. *)
Lemma loads_envelope (v : pyval) :
  json.encodable v = true -> Py.wf v ->
  json.encodable (PyDict [("value", v)]) = true
  /\ json.loads (json.encode (PyDict [("value", v)]))
     = Ok (PyDict [("value", json.decoded v)]).
Proof.
  intros He Hw.
  assert (He' : json.encodable (PyDict [("value", v)]) = true).
  { simpl. now rewrite He. }
  split; [exact He'|].
  apply (json_facts.loads_encode (PyDict [("value", v)])); [exact He'|].
  simpl. repeat split; try assumption. nodup_strings.
Qed.

Lemma backend_get_set key raw b :
  StoreBackend.get key (StoreBackend.set key raw b) = Some raw.
Proof.
  assert (R : StoreBackend.tuple_eqb key key = true).
  { unfold StoreBackend.tuple_eqb.
    destruct (list_eq_dec string_dec key key); congruence. }
  induction b as [|[k0 v0] b IH]; simpl.
  - now rewrite R.
  - destruct (StoreBackend.tuple_eqb key k0) eqn:E; simpl; rewrite E;
      [reflexivity | exact IH].
Qed.

(** Writing a value under a key and reading the key back gives the value,
    its tuples as lists. *)
Lemma get_after_set (k : ValidationMetricIdentifier) (v : pyval) (self : Store) :
  json.encodable v = true -> Py.wf v ->
  snd (MetricStore.set k v self) = Ok tt
  /\ MetricStore.get k (fst (MetricStore.set k v self)) = Ok (json.decoded v).
Proof.
  intros He Hw.
  destruct (loads_envelope v He Hw) as [He' Hl].
  unfold MetricStore.set, MetricStore._validate_value,
    util.ensure_json_serializable, MetricStore.serialize, json.dumps.
  rewrite He, He'. cbn [fst snd]. split.
  - reflexivity.
  - unfold MetricStore.get. cbn [_store_backend].
    rewrite backend_get_set. unfold MetricStore.deserialize.
    assert (Hn : negb (String.eqb (json.encode (PyDict [("value", v)])) EmptyString)
                 = true) by reflexivity.
    rewrite Hn, Hl. reflexivity.
Qed.

(** C5: a write of a value that is not JSON-serializable fails the
    _validate_value check, raises its error, and leaves the store, backend
    included, as it was. *)
Theorem C5_set_rejects_unserializable
        (k : ValidationMetricIdentifier) (v : pyval) (self : Store) :
  json.encodable v = false ->
  exists e, MetricStore._validate_value v = Raise e
            /\ MetricStore.set k v self = (self, Raise e).
Proof.
  intros He. unfold MetricStore.set, MetricStore._validate_value,
    util.ensure_json_serializable. rewrite He.
  eexists. split; reflexivity.
Qed.

Lemma C5_witness :
  exists e, MetricStore._validate_value examples.binary_payload = Raise e
            /\ MetricStore.set (examples.key "mean") examples.binary_payload
                 store_aux.empty_store
               = (store_aux.empty_store, Raise e).
Proof.
  apply (C5_set_rejects_unserializable (examples.key "mean")
           examples.binary_payload store_aux.empty_store).
  reflexivity.
Defined.

(** ** EvaluationParameterStore *)

(** C9: when the backend lists exactly two keys under a run and their URNs
    differ, get_bind_params returns the mapping with exactly two entries, the
    URN of each key bound to the value stored under that key. *)
Theorem C9_get_bind_params_two_keys
        (urn : ValidationMetricIdentifier -> string)
        (self : Store) (run : RunIdentifier)
        (k1 k2 : ValidationMetricIdentifier) (v1 v2 : pyval) :
  StoreBackend.list_keys (Key.run_to_tuple run) (_store_backend self)
  = [Key.to_tuple k1; Key.to_tuple k2] ->
  urn k1 <> urn k2 ->
  MetricStore.get k1 self = Ok v1 ->
  MetricStore.get k2 self = Ok v2 ->
  EvaluationParameterStore.get_bind_params urn self run
  = Ok [(urn k1, v1); (urn k2, v2)].
Proof.
  intros Hk Hu H1 H2.
  unfold EvaluationParameterStore.get_bind_params. rewrite Hk.
  cbn [EvaluationParameterStore.bind_loop].
  rewrite !tuple_to_key_to_tuple. cbn [bind].
  rewrite H1, H2. cbn [bind Py.dict_set].
  destruct (String.eqb_spec (urn k2) (urn k1)) as [E|_]; [|reflexivity].
  symmetry in E. contradiction.
Qed.

Lemma C9_witness :
  EvaluationParameterStore.get_bind_params examples.urn examples.two_key_store
    examples.run
  = Ok [(examples.urn (examples.key "mean"), PyInt 5);
        (examples.urn (examples.key "max"), PyList [PyInt 9; PyStr "x"])].
Proof.
  apply (C9_get_bind_params_two_keys examples.urn examples.two_key_store
           examples.run (examples.key "mean") (examples.key "max"));
    [reflexivity | discriminate | reflexivity | reflexivity].
Defined.

(** ** Construction and the caller's backend configuration *)

Lemma adds_only_defaults_refl sb : store_aux.adds_only_defaults sb sb.
Proof. repeat split; auto. Qed.

Lemma adds_only_defaults_set sb k0 v :
  (k0 = "table_name" \/ k0 = "key_columns") ->
  store_aux.resolved_class sb = Ok DatabaseStoreBackend ->
  (forall v0, Py.dict_get k0 sb = Some v0 -> v = v0) ->
  store_aux.adds_only_defaults sb (Py.dict_set k0 v sb).
Proof.
  intros Hk0 Hc Hv. repeat split.
  - intros k w Hw. destruct (String.eqb_spec k k0) as [->|Hn].
    + rewrite dict_get_set_same. now rewrite (Hv _ Hw).
    + now rewrite dict_get_set_other.
  - intros k H1 H2. apply dict_get_set_other. destruct Hk0; congruence.
  - intros H. contradiction.
Qed.

Lemma adds_only_defaults_trans a b c :
  store_aux.resolved_class a = Ok DatabaseStoreBackend ->
  store_aux.adds_only_defaults a b -> store_aux.adds_only_defaults b c ->
  store_aux.adds_only_defaults a c.
Proof.
  intros Hc (A1 & A2 & _) (B1 & B2 & _). repeat split.
  - auto.
  - intros k H1 H2. now rewrite B2, A2.
  - intros H. contradiction.
Qed.

Lemma resolved_class_set sb k0 v :
  (k0 = "table_name" \/ k0 = "key_columns") ->
  store_aux.resolved_class (Py.dict_set k0 v sb) = store_aux.resolved_class sb.
Proof.
  intros Hk0. unfold store_aux.resolved_class, Py.dict_get_default.
  rewrite !dict_get_set_other; [reflexivity | |];
    destruct Hk0; subst; discriminate.
Qed.

Lemma MetricStore_init_mapping sb name :
  exists sb', fst (MetricStore.__init__ (Some sb) name) = Some sb'
              /\ store_aux.adds_only_defaults sb sb'.
Proof.
  unfold MetricStore.__init__.
  fold (store_aux.resolved_class sb).
  destruct (store_aux.resolved_class sb) as [cls|e] eqn:Hc.
  2:{ exists sb. split; [reflexivity | apply adds_only_defaults_refl]. }
  eexists. split; [reflexivity|].
  destruct cls; cbn [StoreBackend.is_database];
    try apply adds_only_defaults_refl.
  set (sb1 := if negb (Py.dict_mem "table_name" sb) then _ else sb).
  assert (H1 : store_aux.adds_only_defaults sb sb1
               /\ store_aux.resolved_class sb1 = Ok DatabaseStoreBackend).
  { subst sb1. destruct (Py.dict_mem "table_name" sb) eqn:Hm; cbn [negb].
    - split; [apply adds_only_defaults_refl | exact Hc].
    - split.
      + apply adds_only_defaults_set; auto.
        intros v0 Hv0. rewrite (dict_mem_false _ _ Hm) in Hv0. discriminate.
      + rewrite resolved_class_set; auto. }
  destruct H1 as [H1 Hc1].
  apply (adds_only_defaults_trans _ sb1); [exact Hc | exact H1 |].
  destruct (Py.dict_mem "key_columns" sb1) eqn:Hm; cbn [negb].
  - apply adds_only_defaults_refl.
  - apply adds_only_defaults_set; auto.
    intros v0 Hv0. rewrite (dict_mem_false _ _ Hm) in Hv0. discriminate.
Qed.

Lemma EvaluationParameterStore_init_mapping sb name :
  exists sb', fst (EvaluationParameterStore.__init__ (Some sb) name) = Some sb'
              /\ store_aux.adds_only_defaults sb sb'.
Proof.
  unfold EvaluationParameterStore.__init__.
  fold (store_aux.resolved_class sb).
  destruct (store_aux.resolved_class sb) as [cls|e] eqn:Hc.
  2:{ exists sb. split; [reflexivity | apply adds_only_defaults_refl]. }
  assert (G : forall sb1, store_aux.adds_only_defaults sb sb1 ->
               (store_aux.resolved_class sb = Ok DatabaseStoreBackend \/ sb1 = sb) ->
               exists sb',
                 fst (match MetricStore.__init__ (Some sb1) name with
                      | (sb2, Raise e) => (sb2, Raise e)
                      | (sb2, Ok self) =>
                          (sb2,
                           Ok {| _store_backend := _store_backend self;
                                 _store_name := _store_name self;
                                 _config :=
                                   util.filter_properties_dict
                                     [("store_backend",
                                       EvaluationParameterStore.option_val PyDict sb2);
                                      ("store_name",
                                       EvaluationParameterStore.option_val PyStr name);
                                      ("module_name",
                                       PyStr EvaluationParameterStore.module_name);
                                      ("class_name",
                                       PyStr EvaluationParameterStore.class_name)] |})
                      end) = Some sb'
                 /\ store_aux.adds_only_defaults sb sb').
  { intros sb1 H1 Hor.
    destruct (MetricStore_init_mapping sb1 name) as (sb' & E & H2).
    exists sb'. split.
    - destruct (MetricStore.__init__ (Some sb1) name) as [s2 [st|e]];
        simpl in *; exact E.
    - destruct Hor as [Hdb | ->]; [|exact H2].
      now apply (adds_only_defaults_trans _ sb1). }
  destruct cls; cbn [StoreBackend.is_database].
  - apply G; [apply adds_only_defaults_refl | now right].
  - apply G; [apply adds_only_defaults_refl | now right].
  - apply G; [|now left].
    apply adds_only_defaults_set; auto.
    intros v0 Hv0. unfold Py.dict_get_default. now rewrite Hv0.
Qed.

(** ** Domain: construction *)

Lemma metric_value_truthy t : Py.truthy (PyStr (Metric.value t)) = true.
Proof. destruct t; reflexivity. Qed.

Lemma metric_of_value_value t : Metric.of_value (Metric.value t) = Some t.
Proof. destruct t; reflexivity. Qed.

(** Every argument that is neither a member nor the value of one is refused
    with a ValueError: no Domain is built. *)
Lemma init_invalid_raises rn v kw det :
  (forall t, v <> PyMetricType t) ->
  (forall s, v = PyStr s -> Metric.of_value s = None) ->
  exists e, Domain.__init__ rn v kw det = Raise e /\ exn_kind e = ValueError.
Proof.
  intros Hm Hs. unfold Domain.__init__.
  destruct v; try (eexists; split; reflexivity).
  - unfold Domain.coerce_str, builtins.MetricDomainTypes_call.
    rewrite (Hs s eq_refl). eexists; split; reflexivity.
  - exfalso. now apply (Hm t).
Qed.

Lemma prefix_app a b : String.prefix a (a ++ b) = true.
Proof.
  induction a as [|c a IH]; simpl.
  - destruct b; reflexivity.
  - destruct (ascii_dec c c); [exact IH | congruence].
Qed.

Lemma contains_prefix a b : builtins.contains (a ++ b) a = true.
Proof.
  pose proof (prefix_app a b) as H.
  destruct (a ++ b); cbn [builtins.contains]; rewrite H; reflexivity.
Qed.

Lemma contains_app_r a b c :
  builtins.contains b c = true -> builtins.contains (a ++ b) c = true.
Proof.
  intros H. induction a as [|x a IH]; simpl; [exact H|].
  rewrite IH. apply orb_true_r.
Qed.

(** An argument that is not a str and not a member is refused with a message
    that names the argument and its type. *)
Lemma init_non_str_message rn v kw det :
  (forall t, v <> PyMetricType t) -> (forall s, v <> PyStr s) ->
  exists msg, Domain.__init__ rn v kw det = Raise (Exn ValueError msg)
              /\ builtins.contains msg (builtins.str v) = true
              /\ builtins.contains msg (builtins.type_str v) = true.
Proof.
  intros Hm Hs.
  exists (" " ++ Domain.not_supported v ++ json.spaces 16). split; [|split].
  - unfold Domain.__init__. destruct v; try reflexivity.
    + exfalso. now apply (Hs s).
    + exfalso. now apply (Hm t).
  - unfold Domain.not_supported.
    apply contains_app_r. rewrite !append_assoc.
    do 2 apply contains_app_r. apply contains_prefix.
  - unfold Domain.not_supported.
    apply contains_app_r. rewrite !append_assoc.
    do 6 apply contains_app_r. apply contains_prefix.
Qed.

(** C4, at the input where the code departs from it: a str that is no
    member's value is refused by the Enum lookup itself, whose ValueError the
    handler for TypeError and KeyError does not catch; the message names the
    value and not its type. *)
Theorem C4_invalid_string_message :
  Domain.__init__ "r1" (PyStr "not_a_type") None None
  = Raise (Exn ValueError "'not_a_type' is not a valid MetricDomainTypes")
  /\ builtins.contains "'not_a_type' is not a valid MetricDomainTypes"
       (builtins.str (PyStr "not_a_type")) = true
  /\ builtins.contains "'not_a_type' is not a valid MetricDomainTypes"
       (builtins.type_str (PyStr "not_a_type")) = false.
Proof. repeat split. Qed.

(** C6, as the code has it: a string that is the value of a member and the
    member itself construct the same Domain, so the same canonical JSON. *)
Theorem C6_value_string_and_member_agree
        (rn s : string) (t : MetricDomainTypes) (kw det : option pydict) :
  Metric.of_value s = Some t ->
  exists d1 d2,
    Domain.__init__ rn (PyStr s) kw det = Ok d1
    /\ Domain.__init__ rn (PyMetricType t) kw det = Ok d2
    /\ Domain.to_json_dict d1 = Domain.to_json_dict d2.
Proof.
  intros H. unfold Domain.__init__, Domain.coerce_str,
    builtins.MetricDomainTypes_call. rewrite H. cbn [bind].
  eexists _, _. repeat split.
Qed.

Lemma C6_witness :
  exists d1 d2,
    Domain.__init__ "r1" (PyStr "column_pair") (Some [("column_A", PyStr "a")]) None
    = Ok d1
    /\ Domain.__init__ "r1" (PyMetricType COLUMN_PAIR)
         (Some [("column_A", PyStr "a")]) None = Ok d2
    /\ Domain.to_json_dict d1 = Domain.to_json_dict d2.
Proof.
  apply (C6_value_string_and_member_agree "r1" "column_pair" COLUMN_PAIR).
  reflexivity.
Defined.

(** C6 as stated fails: COLUMN is the name of a member, the Enum lookup is by
    value, and construction from the string raises where construction from
    the member gives a Domain. *)
Lemma C6_counterexample :
  Metric.of_name "COLUMN" = Some COLUMN
  /\ (d <- Domain.__init__ "r1" (PyStr "COLUMN") None None ;; Domain.to_json_dict d)
     = Raise (Exn ValueError "'COLUMN' is not a valid MetricDomainTypes")
  /\ (d <- Domain.__init__ "r1" (PyMetricType COLUMN) None None ;; Domain.to_json_dict d)
     = Ok [("rule_name", PyStr "r1"); ("domain_type", PyStr "column")].
Proof. repeat split. Qed.

(** ** Domain: the canonical JSON *)

Lemma mapM_ok {A B} (f : A -> result B) l outs :
  Forall2 (fun a b => f a = Ok b) l outs -> mapM f l = Ok outs.
Proof.
  induction 1 as [|a b l outs Hab _ IH]; simpl; [reflexivity|].
  now rewrite Hab, IH.
Qed.

Lemma details_loop_entries items outs :
  Forall2 (fun kv o => domain_aux.json_entry kv = Ok o) items outs ->
  forall acc,
    Domain.details_loop items acc
    = Ok (fold_left (fun d kv => Py.dict_set (fst kv) (snd kv) d) outs acc).
Proof.
  induction 1 as [|[key value] o items outs Ho _ IH]; intros acc; [reflexivity|].
  cbn [Domain.details_loop fold_left].
  unfold domain_aux.json_entry in Ho. cbn [fst snd] in Ho.
  destruct (if Py.truthy value
            then if String.eqb key INFERRED_SEMANTIC_TYPE_KEY
                 then Domain.normalize_types value else Ok value
            else Ok value) as [value1|e]; [|discriminate].
  cbn [bind] in *.
  destruct (util.convert_to_json_serializable value1) as [c|e]; [|discriminate].
  cbn [bind] in *. injection Ho as <-. apply IH.
Qed.

Lemma dict_get_fold_other k outs :
  ~ In k (map fst outs) ->
  forall acc,
    Py.dict_get k (fold_left (fun d kv => Py.dict_set (fst kv) (snd kv) d) outs acc)
    = Py.dict_get k acc.
Proof.
  induction outs as [|[k0 v0] outs IH]; intros Hn acc; [reflexivity|].
  cbn [fold_left fst snd]. rewrite IH.
  - apply dict_get_set_other. intros ->. apply Hn. now left.
  - intros Hin. apply Hn. now right.
Qed.

Lemma dict_get_fold_in k v outs :
  NoDup (map fst outs) -> In (k, v) outs ->
  forall acc,
    Py.dict_get k (fold_left (fun d kv => Py.dict_set (fst kv) (snd kv) d) outs acc)
    = Some v.
Proof.
  induction outs as [|[k0 v0] outs IH]; intros Hnd Hin acc; [destruct Hin|].
  inversion Hnd as [|? ? Hk0 Hnd']; subst.
  cbn [fold_left fst snd]. destruct Hin as [E|Hin].
  - injection E as -> ->. rewrite dict_get_fold_other by exact Hk0.
    apply dict_get_set_same.
  - now apply IH.
Qed.

Lemma dict_get_in k v d : Py.dict_get k d = Some v -> In (k, v) d.
Proof.
  induction d as [|[k0 v0] d IH]; simpl; [discriminate|].
  destruct (String.eqb_spec k k0) as [->|_].
  - intros H; injection H as ->. now left.
  - intros H. right. now apply IH.
Qed.

Lemma to_json_dict_shape self det :
  Domain.details_loop (Domain.details self) [] = Ok det ->
  json.encodable (PyDict (Domain.domain_kwargs self)) = true ->
  Domain.to_json_dict self = Ok (domain_aux.json_shape self det).
Proof.
  intros Hd Hk. unfold Domain.to_json_dict. rewrite Hd. cbn [bind].
  unfold DomainKwargs.to_json_dict, DomainKwargs.to_dict,
    util.convert_to_json_serializable. rewrite Hk. cbn [bind].
  unfold util.filter_properties_dict, domain_aux.json_shape.
  cbn [filter snd]. rewrite metric_value_truthy.
  cbn [Py.truthy].
  destruct (String.eqb (Domain.rule_name self) EmptyString);
    destruct (Domain.domain_kwargs self); destruct det; reflexivity.
Qed.

Lemma encodable_entry kv :
  fst kv <> INFERRED_SEMANTIC_TYPE_KEY -> json.encodable (snd kv) = true ->
  domain_aux.json_entry kv = Ok (fst kv, json.decoded (snd kv)).
Proof.
  destruct kv as [k v]. cbn [fst snd]. intros Hk He.
  unfold domain_aux.json_entry. cbn [fst snd].
  destruct (String.eqb_spec k INFERRED_SEMANTIC_TYPE_KEY); [contradiction|].
  assert (E : (if Py.truthy v then Ok v else Ok v) = Ok v)
    by (destruct (Py.truthy v); reflexivity).
  rewrite E. cbn [bind]. unfold util.convert_to_json_serializable.
  now rewrite He.
Qed.

(** C8: the canonical JSON of a Domain is the dictionary of rule_name,
    domain_type, domain_kwargs and details, in this order, without the entries
    that are empty; to_json_dict returns it whenever domain_kwargs and details
    are JSON values, their tuples written as lists; and the Domain of rule
    r1, type column and kwargs {column: age} has exactly the three entries of
    the example, without details. *)
Theorem C8_to_json_dict_shape :
  (forall self j, Domain.to_json_dict self = Ok j ->
                  exists det, j = domain_aux.json_shape self det)
  /\ (forall self,
         json.encodable (PyDict (Domain.domain_kwargs self)) = true ->
         json.encodable (PyDict (Domain.details self)) = true ->
         NoDup (map fst (Domain.details self)) ->
         ~ In INFERRED_SEMANTIC_TYPE_KEY (map fst (Domain.details self)) ->
         Domain.to_json_dict self
         = Ok (domain_aux.json_shape self
                 (map (fun kv => (fst kv, json.decoded (snd kv)))
                    (Domain.details self))))
  /\ Domain.__init__ "r1" (PyStr "column") (Some [("column", PyStr "age")]) None
     = Ok examples.column_domain
  /\ Domain.to_json_dict examples.column_domain
     = Ok [("rule_name", PyStr "r1"); ("domain_type", PyStr "column");
           ("domain_kwargs", PyDict [("column", PyStr "age")])].
Proof.
  split; [|split; [|split; reflexivity]].
  - intros self j H. unfold Domain.to_json_dict in H.
    destruct (Domain.details_loop (Domain.details self) []) as [det|e] eqn:Hd;
      [|discriminate].
    cbn [bind] in H. exists det.
    unfold DomainKwargs.to_json_dict, DomainKwargs.to_dict,
      util.convert_to_json_serializable in H.
    destruct (json.encodable (PyDict (Domain.domain_kwargs self))) eqn:Hk;
      [|discriminate].
    pose proof (to_json_dict_shape self det Hd Hk) as E.
    unfold Domain.to_json_dict in E. rewrite Hd in E. cbn [bind] in E.
    unfold DomainKwargs.to_json_dict, DomainKwargs.to_dict,
      util.convert_to_json_serializable in E.
    rewrite Hk in E. congruence.
  - intros self Hk He Hnd Hin.
    apply to_json_dict_shape; [|exact Hk].
    rewrite (details_loop_entries _
               (map (fun kv => (fst kv, json.decoded (snd kv)))
                  (Domain.details self))).
    + f_equal. apply json_facts.dict_of_pairs_nodup.
      now rewrite map_map, (map_ext _ fst) by reflexivity.
    + cbn [json.encodable] in He. rewrite forallb_forall in He.
      clear Hnd Hk. induction (Domain.details self) as [|kv d IH];
        constructor.
      * apply encodable_entry; [|apply He; now left].
        intros E. apply Hin. left. exact E.
      * apply IH; [intros x Hx; apply He; now right|].
        intros Hx. apply Hin. now right.
Qed.

Lemma C8_witness :
  exists det,
    [("rule_name", PyStr "r1"); ("domain_type", PyStr "column");
     ("domain_kwargs", PyDict [("column", PyStr "age")])]
    = domain_aux.json_shape examples.column_domain det.
Proof.
  apply (proj1 C8_to_json_dict_shape examples.column_domain). reflexivity.
Defined.

Lemma dict_get_nodup k v d :
  NoDup (map fst d) -> In (k, v) d -> Py.dict_get k d = Some v.
Proof.
  induction d as [|[k0 v0] d IH]; intros Hnd Hin; [destruct Hin|].
  inversion Hnd as [|? ? Hk0 Hnd']; subst. simpl.
  destruct Hin as [E|Hin].
  - injection E as -> ->. now rewrite String.eqb_refl.
  - destruct (String.eqb_spec k k0) as [->|_]; [|now apply IH].
    exfalso. apply Hk0. apply (in_map fst) in Hin. exact Hin.
Qed.

Lemma Forall2_map_r {A B} (R : A -> B -> Prop) (g : A -> B) l :
  (forall x, In x l -> R x (g x)) -> Forall2 R l (map g l).
Proof.
  induction l as [|a l IH]; intros H; constructor.
  - apply H. now left.
  - apply IH. intros x Hx. apply H. now right.
Qed.

Lemma normalize_type_ok v t :
  domain_aux.semantic_type_of v = Some t ->
  Domain.normalize_type v = Ok (PyStr (Semantic.value t)).
Proof.
  destruct v; simpl; try discriminate.
  - unfold builtins.SemanticDomainTypes_call. now intros ->.
  - now intros [= ->].
Qed.

Lemma normalize_types_ok m ts :
  Forall2 (fun kv t => domain_aux.semantic_type_of (snd kv) = Some t) m ts ->
  Domain.normalize_types (PyDict m) = Ok (PyDict (domain_aux.normalized m ts)).
Proof.
  intros H. unfold Domain.normalize_types.
  rewrite (mapM_ok _ m (domain_aux.normalized m ts)); [reflexivity|].
  induction H as [|kv t m ts Hkv _ IH]; constructor; [|exact IH].
  now rewrite (normalize_type_ok _ _ Hkv).
Qed.

Lemma encodable_normalized m ts :
  json.encodable (PyDict (domain_aux.normalized m ts)) = true.
Proof.
  unfold domain_aux.normalized. cbn [json.encodable].
  revert ts. induction (map fst m) as [|k ks IH]; intros [|t ts];
    try reflexivity.
  simpl. apply IH.
Qed.

Lemma native_normalized m ts :
  json.native (PyDict (domain_aux.normalized m ts)) = true.
Proof.
  unfold domain_aux.normalized. cbn [json.native].
  revert ts. induction (map fst m) as [|k ks IH]; intros [|t ts];
    try reflexivity.
  simpl. apply IH.
Qed.

Lemma inferred_entry m ts :
  Forall2 (fun kv t => domain_aux.semantic_type_of (snd kv) = Some t) m ts ->
  domain_aux.json_entry (INFERRED_SEMANTIC_TYPE_KEY, PyDict m)
  = Ok (INFERRED_SEMANTIC_TYPE_KEY, PyDict (domain_aux.normalized m ts)).
Proof.
  intros H. unfold domain_aux.json_entry. cbn [fst snd].
  rewrite String.eqb_refl.
  assert (E : (if Py.truthy (PyDict m)
               then Domain.normalize_types (PyDict m) else Ok (PyDict m))
              = Ok (PyDict (domain_aux.normalized m ts))).
  { destruct H as [|kv t m ts Hkv Hm].
    - reflexivity.
    - cbn [Py.truthy]. apply normalize_types_ok. now constructor. }
  rewrite E. cbn [bind]. unfold util.convert_to_json_serializable.
  rewrite encodable_normalized.
  now rewrite (json_facts.decoded_native _ (native_normalized m ts)).
Qed.

(** C7: when details holds the reserved key, to_json_dict gives, under
    details and that key, the same columns, each with the string value of the
    member its entry stands for: a string is looked up by its lower-cased
    text, a member is taken as it is. *)
Theorem C7_inferred_semantic_types_normalized
        (self : Domain.t) (m : pydict) (ts : list SemanticDomainTypes) :
  NoDup (map fst (Domain.details self)) ->
  Py.dict_get INFERRED_SEMANTIC_TYPE_KEY (Domain.details self) = Some (PyDict m) ->
  Forall2 (fun kv t => domain_aux.semantic_type_of (snd kv) = Some t) m ts ->
  (forall kv, In kv (Domain.details self) ->
              fst kv <> INFERRED_SEMANTIC_TYPE_KEY -> json.encodable (snd kv) = true) ->
  json.encodable (PyDict (Domain.domain_kwargs self)) = true ->
  exists j det,
    Domain.to_json_dict self = Ok j
    /\ Py.dict_get "details" j = Some (PyDict det)
    /\ Py.dict_get INFERRED_SEMANTIC_TYPE_KEY det
       = Some (PyDict (domain_aux.normalized m ts)).
Proof.
  intros Hnd Hget Hts Hother Hkw.
  set (g := fun kv : string * pyval =>
              if String.eqb (fst kv) INFERRED_SEMANTIC_TYPE_KEY
              then (fst kv, PyDict (domain_aux.normalized m ts))
              else (fst kv, json.decoded (snd kv))).
  set (outs := map g (Domain.details self)).
  assert (Hfst : map fst outs = map fst (Domain.details self)).
  { subst outs. rewrite map_map. apply map_ext. intros kv. subst g. cbn beta.
    destruct (String.eqb (fst kv) INFERRED_SEMANTIC_TYPE_KEY); reflexivity. }
  assert (Hloop : Domain.details_loop (Domain.details self) []
                  = Ok (fold_left (fun d kv => Py.dict_set (fst kv) (snd kv) d)
                          outs [])).
  { apply details_loop_entries. subst outs. apply Forall2_map_r.
    intros [k v] Hin. subst g. cbn [fst snd].
    destruct (String.eqb_spec k INFERRED_SEMANTIC_TYPE_KEY) as [->|Hk].
    - rewrite (dict_get_nodup _ _ _ Hnd Hin) in Hget. injection Hget as ->.
      now apply inferred_entry.
    - apply (encodable_entry (k, v)); [exact Hk | now apply (Hother (k, v))]. }
  set (det := fold_left (fun d kv => Py.dict_set (fst kv) (snd kv) d) outs []) in *.
  assert (Hdet : Py.dict_get INFERRED_SEMANTIC_TYPE_KEY det
                 = Some (PyDict (domain_aux.normalized m ts))).
  { subst det. apply dict_get_fold_in; [now rewrite Hfst|].
    apply dict_get_in in Hget. subst outs.
    apply (in_map g) in Hget. subst g. cbn [fst] in Hget.
    now rewrite String.eqb_refl in Hget. }
  exists (domain_aux.json_shape self det), det. repeat split.
  - now apply to_json_dict_shape.
  - unfold domain_aux.json_shape.
    destruct det as [|e det']; [discriminate|].
    destruct (String.eqb (Domain.rule_name self) EmptyString);
      destruct (Domain.domain_kwargs self); reflexivity.
  - exact Hdet.
Qed.

Lemma C7_witness :
  exists j det,
    Domain.to_json_dict examples.typed_domain = Ok j
    /\ Py.dict_get "details" j = Some (PyDict det)
    /\ Py.dict_get INFERRED_SEMANTIC_TYPE_KEY det
       = Some (PyDict [("age", PyStr "numeric")]).
Proof.
  apply (C7_inferred_semantic_types_normalized examples.typed_domain
           [("age", PyStr "NUMERIC")] [NUMERIC]).
  - simpl. nodup_strings.
  - reflexivity.
  - constructor; [reflexivity | constructor].
  - simpl. intros kv [<-|[]] H. now contradiction H.
  - reflexivity.
Defined.

(** ** Domain: equality *)

(** The three operands of the [or], with its short circuit. *)
Lemma eq_short_circuit (self : Domain.t) (other : Domain.pyobj) :
  Domain.__eq__ self other = Ok true <->
  other <> Domain.ObjVal PyNone
  /\ (Domain.eq_json self other = Ok true
      \/ (Domain.eq_json self other = Ok false
          /\ Domain.eq_mapping self other = Ok true)
      \/ (Domain.eq_json self other = Ok false
          /\ Domain.eq_mapping self other = Ok false
          /\ Domain.eq_str self other = Ok true)).
Proof.
  assert (G : (c1 <- Domain.eq_json self other ;;
               if c1 then Ok true
               else c2 <- Domain.eq_mapping self other ;;
                    if c2 then Ok true else Domain.eq_str self other) = Ok true
              <-> (Domain.eq_json self other = Ok true
                   \/ (Domain.eq_json self other = Ok false
                       /\ Domain.eq_mapping self other = Ok true)
                   \/ (Domain.eq_json self other = Ok false
                       /\ Domain.eq_mapping self other = Ok false
                       /\ Domain.eq_str self other = Ok true))).
  { destruct (Domain.eq_json self other) as [[|]|e1]; cbn [bind].
    - split; [now left | reflexivity].
    - destruct (Domain.eq_mapping self other) as [[|]|e2]; cbn [bind].
      + split; [right; left; now split | reflexivity].
      + split.
        * intros H. right; right. now repeat split.
        * intros [H|[[_ H]|[_ [_ H]]]]; [discriminate | discriminate | exact H].
      + split; [discriminate|].
        intros [H|[[_ H]|[_ [H _]]]]; discriminate.
    - split; [discriminate|].
      intros [H|[[H _]|[H _]]]; discriminate. }
  unfold Domain.__eq__.
  destruct other as [v|d].
  - destruct v; try (rewrite G; split; [intros H; split; [discriminate | exact H]
                                       | intros [_ H]; exact H]).
    split; [discriminate | intros [H _]; now contradiction H].
  - rewrite G. split; [intros H; split; [discriminate | exact H]
                      | intros [_ H]; exact H].
Qed.

(** ** The order of strings *)

Lemma ascii_compare_trans_lt a b c :
  Ascii.compare a b = Lt -> Ascii.compare b c = Lt -> Ascii.compare a c = Lt.
Proof.
  unfold Ascii.compare. rewrite !N.compare_lt_iff. apply N.lt_trans.
Qed.

Lemma ascii_compare_eq a b : Ascii.compare a b = Eq -> a = b.
Proof. apply Ascii.compare_eq_iff. Qed.

Lemma ascii_compare_refl a : Ascii.compare a a = Eq.
Proof. unfold Ascii.compare. apply N.compare_refl. Qed.

Lemma string_compare_trans a :
  forall b c, String.compare a b <> Gt -> String.compare b c <> Gt ->
              String.compare a c <> Gt.
Proof.
  induction a as [|x a IH]; intros [|y b] [|z c]; simpl; try congruence.
  destruct (Ascii.compare x y) eqn:Exy; try congruence;
    destruct (Ascii.compare y z) eqn:Eyz; try congruence.
  - apply ascii_compare_eq in Exy, Eyz. subst. rewrite ascii_compare_refl.
    apply IH.
  - apply ascii_compare_eq in Exy. subst. rewrite Eyz. congruence.
  - apply ascii_compare_eq in Eyz. subst. rewrite Exy. congruence.
  - rewrite (ascii_compare_trans_lt _ _ _ Exy Eyz). congruence.
Qed.

Lemma leb_trans a b c :
  String.leb a b = true -> String.leb b c = true -> String.leb a c = true.
Proof.
  unfold String.leb. intros H1 H2.
  pose proof (string_compare_trans a b c) as H.
  destruct (String.compare a b); try discriminate;
    destruct (String.compare b c); try discriminate;
    destruct (String.compare a c); try reflexivity;
    exfalso; apply H; congruence.
Qed.

Lemma leb_false_flip a b : String.leb a b = false -> String.leb b a = true.
Proof.
  intros H. destruct (String.leb_total a b) as [E|E]; congruence.
Qed.

Lemma leb_strict a b : a <> b -> String.leb a b = true -> String.leb b a = false.
Proof.
  intros Hn H. destruct (String.leb b a) eqn:E; [|reflexivity].
  exfalso. apply Hn. now apply String.leb_antisym.
Qed.

(** ** Sorting the items of a dict *)

Lemma insert_item_comm x y s :
  fst x <> fst y ->
  json.insert_item x (json.insert_item y s) = json.insert_item y (json.insert_item x s).
Proof.
  intros Hn. induction s as [|h t IH]; cbn [json.insert_item].
  - destruct (String.leb (fst x) (fst y)) eqn:Exy.
    + now rewrite (leb_strict _ _ Hn Exy).
    + now rewrite (leb_false_flip _ _ Exy).
  - destruct (String.leb (fst x) (fst h)) eqn:Exh;
      destruct (String.leb (fst y) (fst h)) eqn:Eyh;
      cbn [json.insert_item]; rewrite ?Exh, ?Eyh.
    + destruct (String.leb (fst x) (fst y)) eqn:Exy.
      * now rewrite (leb_strict _ _ Hn Exy).
      * now rewrite (leb_false_flip _ _ Exy).
    + destruct (String.leb (fst y) (fst x)) eqn:Eyx; [|reflexivity].
      rewrite (leb_trans _ _ _ Eyx Exh) in Eyh. discriminate.
    + destruct (String.leb (fst x) (fst y)) eqn:Exy; [|reflexivity].
      rewrite (leb_trans _ _ _ Exy Eyh) in Exh. discriminate.
    + now rewrite IH.
Qed.

Lemma sort_items_perm l l' :
  Permutation l l' -> NoDup (map fst l) -> json.sort_items l = json.sort_items l'.
Proof.
  induction 1 as [|x l l' _ IH|x y l|l l' l'' H1 IH1 H2 IH2]; intros Hnd.
  - reflexivity.
  - cbn [json.sort_items]. rewrite IH; [reflexivity|].
    now inversion Hnd.
  - cbn [json.sort_items]. apply insert_item_comm.
    inversion Hnd as [|? ? Hin _]; subst. intros E. apply Hin. left. now symmetry.
  - rewrite IH1 by exact Hnd. apply IH2.
    eapply Permutation_NoDup; [|exact Hnd].
    now apply Permutation_map.
Qed.

(** ** Values with the same contents *)

Import contents_aux.

Lemma same_contents_refl v : same_contents v v.
Proof.
  induction v as [|b|z|s|l IH|d IH|t|t|b|l IH] using pyval_ind;
    try (apply SC_atom; exact I).
  - apply SC_list. induction IH; constructor; assumption.
  - apply (SC_dict d d d); [apply Permutation_refl|].
    induction IH; constructor; [split; [reflexivity | assumption] | assumption].
  - apply SC_tuple. induction IH; constructor; assumption.
Qed.

Lemma Forall2_in_l {A B} (R : A -> B -> Prop) l l' a :
  Forall2 R l l' -> In a l -> exists b, In b l' /\ R a b.
Proof.
  induction 1 as [|x y l l' Hxy _ IH]; intros Hin; [destruct Hin|].
  destruct Hin as [->|Hin].
  - exists y. split; [now left | exact Hxy].
  - destruct (IH Hin) as (b & Hb & Hr). exists b. split; [now right | exact Hr].
Qed.

Lemma same_entry_keys d d2 : Forall2 same_entry d d2 -> map fst d = map fst d2.
Proof.
  induction 1 as [|a b d d2 [E _] _ IH]; simpl; [reflexivity|].
  now rewrite E, IH.
Qed.

Lemma same_dict_nodup d1 d d2 :
  Permutation d1 d -> Forall2 same_entry d d2 ->
  NoDup (map fst d1) -> NoDup (map fst d2).
Proof.
  intros Hp Hf Hnd. rewrite <- (same_entry_keys _ _ Hf).
  eapply Permutation_NoDup; [|exact Hnd]. now apply Permutation_map.
Qed.

(** What the induction on the first value gives for a dict. *)
Lemma same_dict_values (P : pyval -> pyval -> Prop) d1 d d2 :
  Forall (fun kv => forall b, same_contents (snd kv) b -> Py.wf (snd kv) -> P (snd kv) b) d1 ->
  Forall (fun kv => Py.wf (snd kv)) d1 ->
  Permutation d1 d -> Forall2 same_entry d d2 ->
  Forall2 (fun a b => fst a = fst b /\ P (snd a) (snd b)) d d2.
Proof.
  intros IH Hw Hp Hf.
  assert (Hin : forall a, In a d -> In a d1).
  { intros a Ha. eapply Permutation_in; [apply Permutation_sym; exact Hp | exact Ha]. }
  clear Hp. rewrite Forall_forall in IH, Hw.
  induction Hf as [|a b d d2 [E Hs] _ IHf]; constructor.
  - split; [exact E|]. apply IH; [apply Hin; now left | exact Hs |].
    apply Hw, Hin. now left.
  - apply IHf. intros x Hx. apply Hin. now right.
Qed.

Lemma same_list_values (P : pyval -> pyval -> Prop) l1 l2 :
  Forall (fun v => forall b, same_contents v b -> Py.wf v -> P v b) l1 ->
  Forall Py.wf l1 ->
  Forall2 same_contents l1 l2 -> Forall2 P l1 l2.
Proof.
  intros IH Hw Hf. induction Hf as [|a b l1 l2 Hs _ IHf]; constructor.
  - inversion IH; subst. inversion Hw; subst. auto.
  - inversion IH; subst. inversion Hw; subst. auto.
Qed.

Lemma same_contents_wf a :
  forall b, same_contents a b -> Py.wf a -> Py.wf b.
Proof.
  induction a as [|x|z|s|l IH|d IH|t|t|x|l IH] using pyval_ind;
    intros b Hs Hw; inversion Hs; subst; try assumption.
  - apply wf_list. apply wf_list in Hw.
    pose proof (same_list_values (fun _ b => Py.wf b) l l2 IH Hw H0) as G.
    clear - G. induction G; constructor; assumption.
  - apply wf_dict. apply wf_dict in Hw. destruct Hw as [Hnd Hw]. split.
    + eapply same_dict_nodup; eassumption.
    + pose proof (same_dict_values (fun _ b => Py.wf b) d d0 d2 IH Hw H0 H1) as G.
      clear - G. induction G as [|a b ? ? [_ Hb] _ IHG]; constructor; assumption.
  - apply wf_tuple. apply wf_tuple in Hw.
    pose proof (same_list_values (fun _ b => Py.wf b) l l2 IH Hw H0) as G.
    clear - G. induction G; constructor; assumption.
Qed.

Lemma same_contents_encodable a :
  forall b, same_contents a b -> json.encodable a = json.encodable b.
Proof.
  induction a as [|x|z|s|l IH|d IH|t|t|x|l IH] using pyval_ind;
    intros b Hs; inversion Hs; subst; try reflexivity.
  3: { cbn [json.encodable]. clear Hs.
       induction H0 as [|p q l l2 Hpq _ IHf]; [reflexivity|].
       inversion IH; subst. cbn [forallb]. f_equal; auto. }
  - cbn [json.encodable]. clear Hs.
    induction H0 as [|p q l l2 Hpq _ IHf]; [reflexivity|].
    inversion IH; subst. cbn [forallb]. f_equal; auto.
  - cbn [json.encodable].
    assert (E1 : forallb (fun kv => json.encodable (snd kv)) d
                 = forallb (fun kv => json.encodable (snd kv)) d0).
    { clear - H0. induction H0; cbn [forallb]; try reflexivity.
      - now rewrite IHPermutation.
      - destruct (json.encodable (snd x)), (json.encodable (snd y)); reflexivity.
      - congruence. }
    rewrite E1.
    assert (Hin : forall a, In a d0 -> In a d).
    { intros a Ha. eapply Permutation_in; [apply Permutation_sym; exact H0 | exact Ha]. }
    rewrite Forall_forall in IH. clear - H1 Hin IH.
    induction H1 as [|p q d0 d2 [_ Hpq] _ IHf]; [reflexivity|].
    cbn [forallb]. f_equal.
    + apply IH; [apply Hin; now left | exact Hpq].
    + apply IHf. intros x Hx. apply Hin. now right.
Qed.

(** *** The sorted encoding does not see the order of keys *)

Lemma same_contents_encode_sorted a :
  forall b, same_contents a b -> Py.wf a ->
            json.encode_sorted a = json.encode_sorted b.
Proof.
  induction a as [|x|z|s|l IH|d IH|t|t|x|l IH] using pyval_ind;
    intros b Hs Hw; inversion Hs; subst; try reflexivity.
  3: { apply wf_tuple in Hw. cbn [json.encode_sorted].
       assert (E : map json.encode_sorted l = map json.encode_sorted l2).
       { pose proof (same_list_values
                       (fun a b => json.encode_sorted a = json.encode_sorted b)
                       l l2 IH Hw H0) as G.
         clear - G. induction G as [|? ? ? ? E _ IHG]; cbn [map]; [reflexivity|].
         cbv beta in E. now rewrite E, IHG. }
       now rewrite E. }
  - apply wf_list in Hw. cbn [json.encode_sorted].
    assert (E : map json.encode_sorted l = map json.encode_sorted l2).
    { pose proof (same_list_values
                    (fun a b => json.encode_sorted a = json.encode_sorted b)
                    l l2 IH Hw H0) as G.
      clear - G. induction G as [|? ? ? ? E _ IHG]; cbn [map]; [reflexivity|].
      cbv beta in E. now rewrite E, IHG. }
    now rewrite E.
  - apply wf_dict in Hw. destruct Hw as [Hnd Hw].
    cbn [json.encode_sorted].
    set (f := fun kv : string * pyval => (fst kv, json.encode_sorted (snd kv))).
    assert (E : json.sort_items (map f d) = json.sort_items (map f d2)).
    { rewrite (sort_items_perm (map f d) (map f d0)).
      - f_equal.
        pose proof (same_dict_values
                      (fun a b => json.encode_sorted a = json.encode_sorted b)
                      d d0 d2 IH Hw H0 H1) as G.
        clear - G. subst f.
        induction G as [|a b ? ? [E1 E2] _ IHG]; cbn [map]; [reflexivity|].
        now rewrite E1, E2, IHG.
      - now apply Permutation_map.
      - rewrite map_map. exact Hnd. }
    now rewrite E.
Qed.

(** *** Python equality does not see the order of keys *)

Lemma eqb_list x y :
  Py.eqb (PyList x) (PyList y) = true <-> Forall2 (fun p q => Py.eqb p q = true) x y.
Proof.
  cbn [Py.eqb]. revert y. induction x as [|p x IH]; intros [|q y].
  - split; [constructor | reflexivity].
  - split; [discriminate | inversion 1].
  - split; [discriminate | inversion 1].
  - rewrite andb_true_iff, IH. split.
    + intros [H1 H2]. now constructor.
    + inversion 1; subst. now split.
Qed.

Lemma eqb_tuple x y :
  Py.eqb (PyTuple x) (PyTuple y) = true
  <-> Forall2 (fun p q => Py.eqb p q = true) x y.
Proof.
  cbn [Py.eqb]. revert y. induction x as [|p x IH]; intros [|q y].
  - split; [constructor | reflexivity].
  - split; [discriminate | inversion 1].
  - split; [discriminate | inversion 1].
  - rewrite andb_true_iff, IH. split.
    + intros [H1 H2]. now constructor.
    + inversion 1; subst. now split.
Qed.

Lemma eqb_dict x y :
  Py.eqb (PyDict x) (PyDict y) = true <->
  List.length x = List.length y
  /\ Forall (fun kv => exists q, Py.dict_get (fst kv) y = Some q
                                 /\ Py.eqb (snd kv) q = true) x.
Proof.
  cbn [Py.eqb]. rewrite andb_true_iff, Nat.eqb_eq.
  apply and_iff_compat_l.
  induction x as [|[k p] x IH].
  - split; [constructor | reflexivity].
  - cbn [fst snd]. destruct (Py.dict_get k y) as [q|] eqn:E.
    + rewrite andb_true_iff, IH. split.
      * intros [H1 H2]. constructor; [|exact H2].
        exists q. cbn [fst snd]. now split.
      * inversion 1 as [|? ? (q' & Hq & He) Hx]; subst.
        cbn [fst snd] in Hq. rewrite E in Hq. injection Hq as <-. now split.
    + split; [discriminate|].
      inversion 1 as [|? ? (q' & Hq & He) Hx]; subst.
      cbn [fst snd] in Hq. rewrite E in Hq. discriminate.
Qed.

Lemma same_contents_eqb a :
  forall b, same_contents a b -> Py.wf a -> Py.eqb a b = true.
Proof.
  induction a as [|x|z|s|l IH|d IH|t|t|x|l IH] using pyval_ind;
    intros b Hs Hw; inversion Hs; subst;
    try (match goal with H : atom _ |- _ => destruct H end).
  - reflexivity.
  - cbn [Py.eqb]. apply Bool.eqb_reflx.
  - cbn [Py.eqb]. apply Z.eqb_refl.
  - cbn [Py.eqb]. apply String.eqb_refl.
  - apply wf_list in Hw. apply eqb_list.
    exact (same_list_values (fun a b => Py.eqb a b = true) l l2 IH Hw H0).
  - pose proof Hw as Hw'. apply wf_dict in Hw'. destruct Hw' as [Hnd Hwv].
    pose proof (same_dict_values (fun a b => Py.eqb a b = true)
                  d d0 d2 IH Hwv H0 H1) as G.
    pose proof (same_dict_nodup _ _ _ H0 H1 Hnd) as Hnd2.
    apply eqb_dict. split.
    + rewrite (Permutation_length H0). clear - H1.
      induction H1; simpl; congruence.
    + apply Forall_forall. intros [k p] Hin. cbn [fst snd].
      apply (Permutation_in _ H0) in Hin.
      destruct (Forall2_in_l _ _ _ _ G Hin) as ([k' q] & Hq & E & He).
      cbn [fst snd] in *. subst k'. exists q. split; [|exact He].
      now apply dict_get_nodup.
  - cbn [Py.eqb]. apply String.eqb_refl.
  - cbn [Py.eqb]. apply String.eqb_refl.
  - cbn [Py.eqb]. apply String.eqb_refl.
  - apply wf_tuple in Hw. apply eqb_tuple.
    exact (same_list_values (fun a b => Py.eqb a b = true) l l2 IH Hw H0).
Qed.

(** ** Cleaning and wrapping domain_kwargs *)

Lemma perm_filter {A} (p : A -> bool) l l' :
  Permutation l l' -> Permutation (filter p l) (filter p l').
Proof.
  induction 1 as [|x l l' _ IH|x y l|l l' l'' _ IH1 _ IH2]; cbn [filter].
  - constructor.
  - destruct (p x); [now constructor | exact IH].
  - destruct (p x), (p y); try apply Permutation_refl. apply perm_swap.
  - eapply Permutation_trans; eassumption.
Qed.

Lemma nodup_filter_keys (p : string * pyval -> bool) d :
  NoDup (map fst d) -> NoDup (map fst (filter p d)).
Proof.
  induction d as [|kv d IH]; intros H; [constructor|].
  inversion H as [|? ? Hin Hnd]; subst. cbn [filter].
  destruct (p kv); [|now apply IH].
  cbn [map]. constructor; [|now apply IH].
  intros Hc. apply Hin. apply in_map_iff in Hc. destruct Hc as (x & E & Hx).
  apply filter_In in Hx. apply in_map_iff. exists x. tauto.
Qed.

Lemma map_value_keys (h : pyval -> pyval) (d : pydict) :
  map fst (map (fun kv => (fst kv, h (snd kv))) d) = map fst d.
Proof. rewrite map_map. reflexivity. Qed.

Lemma null_or_empty_same a b :
  same_contents a b -> util.null_or_empty a = util.null_or_empty b.
Proof.
  intros Hs. inversion Hs as [v Ha | l1 l2 Hf | l1 l2 Hf | d1 d0 d2 Hp Hf]; subst.
  - reflexivity.
  - destruct Hf; reflexivity.
  - destruct Hf; reflexivity.
  - destruct Hf.
    + apply Permutation_sym, Permutation_nil in Hp. now subst.
    + destruct d1; [|reflexivity].
      apply Permutation_nil in Hp. discriminate.
Qed.

Lemma deep_filter_same a :
  forall b, same_contents a b -> Py.wf a ->
            same_contents (util.deep_filter_properties_iterable a)
              (util.deep_filter_properties_iterable b).
Proof.
  induction a as [|x|z|s|l IH|d IH|t|t|x|l IH] using pyval_ind;
    intros b Hs Hw;
    inversion Hs as [v Ha | l1 l2 Hf | l1 l2 Hf | d1 d0 d2 Hp Hf]; subst;
    try (apply SC_atom; exact I); try (destruct Ha).
  3: { apply wf_tuple in Hw. cbn [util.deep_filter_properties_iterable].
       pose proof (same_list_values
                     (fun a b => same_contents (util.deep_filter_properties_iterable a)
                                   (util.deep_filter_properties_iterable b))
                     l l2 IH Hw Hf) as G.
       apply SC_tuple. clear - G.
       induction G as [|p q ? ? Hpq _ IHG]; cbn [map filter]; [constructor|].
       rewrite (null_or_empty_same _ _ Hpq).
       destruct (util.null_or_empty (util.deep_filter_properties_iterable q));
         cbn [negb]; [exact IHG | now constructor]. }
  - apply wf_list in Hw. cbn [util.deep_filter_properties_iterable].
    pose proof (same_list_values
                  (fun a b => same_contents (util.deep_filter_properties_iterable a)
                                (util.deep_filter_properties_iterable b))
                  l l2 IH Hw Hf) as G.
    apply SC_list. clear - G.
    induction G as [|p q ? ? Hpq _ IHG]; cbn [map filter]; [constructor|].
    rewrite (null_or_empty_same _ _ Hpq).
    destruct (util.null_or_empty (util.deep_filter_properties_iterable q));
      cbn [negb]; [exact IHG | now constructor].
  - apply wf_dict in Hw. destruct Hw as [Hnd Hw].
    cbn [util.deep_filter_properties_iterable].
    pose proof (same_dict_values
                  (fun a b => same_contents (util.deep_filter_properties_iterable a)
                                (util.deep_filter_properties_iterable b))
                  d d0 d2 IH Hw Hp Hf) as G.
    set (g := fun kv : string * pyval =>
                (fst kv, util.deep_filter_properties_iterable (snd kv))).
    set (keep := fun kv : string * pyval => negb (util.null_or_empty (snd kv))).
    apply (SC_dict _ (filter keep (map g d0))).
    + apply perm_filter. now apply Permutation_map.
    + clear - G. induction G as [|p q ? ? [E Hpq] _ IHG]; cbn [map filter];
        [constructor|].
      assert (Ek : keep (g p) = keep (g q)).
      { unfold keep, g. cbn [fst snd]. now rewrite (null_or_empty_same _ _ Hpq). }
      rewrite Ek. destruct (keep (g q)); [|exact IHG].
      constructor; [|exact IHG]. split; [exact E | exact Hpq].
Qed.

Lemma deep_filter_wf a :
  Py.wf a -> Py.wf (util.deep_filter_properties_iterable a).
Proof.
  induction a as [|x|z|s|l IH|d IH|t|t|x|l IH] using pyval_ind; intros Hw;
    try exact I.
  3: { apply wf_tuple in Hw. cbn [util.deep_filter_properties_iterable].
       apply wf_tuple. rewrite Forall_forall in *. intros v Hv.
       apply filter_In in Hv. destruct Hv as [Hv _].
       apply in_map_iff in Hv. destruct Hv as (u & <- & Hu). auto. }
  - apply wf_list in Hw. cbn [util.deep_filter_properties_iterable].
    apply wf_list. rewrite Forall_forall in *. intros v Hv.
    apply filter_In in Hv. destruct Hv as [Hv _].
    apply in_map_iff in Hv. destruct Hv as (u & <- & Hu). auto.
  - apply wf_dict in Hw. destruct Hw as [Hnd Hw].
    cbn [util.deep_filter_properties_iterable]. apply wf_dict. split.
    + apply nodup_filter_keys. now rewrite map_value_keys.
    + rewrite Forall_forall in *. intros kv Hkv.
      apply filter_In in Hkv. destruct Hkv as [Hkv _].
      apply in_map_iff in Hkv. destruct Hkv as (u & <- & Hu). cbn [snd]. auto.
Qed.

Lemma convert_kwargs_wf f :
  forall a, Py.wf a -> Py.wf (Domain._convert_dictionaries_to_domain_kwargs f a).
Proof.
  induction f as [|f IHf]; intros a Hw; [exact Hw|].
  destruct a; try exact Hw.
  pose proof (deep_filter_wf _ Hw) as Hd.
  cbn [Domain._convert_dictionaries_to_domain_kwargs].
  cbn [util.deep_filter_properties_iterable] in *.
  apply wf_dict in Hd. destruct Hd as [Hnd Hv].
  apply wf_dict. split.
  - rewrite map_map. cbn [fst]. rewrite <- map_map with (g := fst) (f := fun x => x).
    rewrite map_id. exact Hnd.
  - rewrite Forall_forall in *. intros kv Hkv.
    apply in_map_iff in Hkv. destruct Hkv as (u & <- & Hu). cbn [snd]. auto.
Qed.

Lemma convert_kwargs_same f :
  forall a b, same_contents a b -> Py.wf a ->
              same_contents (Domain._convert_dictionaries_to_domain_kwargs f a)
                (Domain._convert_dictionaries_to_domain_kwargs f b).
Proof.
  induction f as [|f IHf]; intros a b Hs Hw; [exact Hs|].
  pose proof (deep_filter_same a b Hs Hw) as Hd.
  pose proof (deep_filter_wf a Hw) as Hdw.
  inversion Hs as [v Ha | l1 l2 Hf | l1 l2 Hf | d1 d0 d2 Hp Hf]; subst.
  - apply same_contents_refl.
  - exact Hs.
  - exact Hs.
  - cbn [Domain._convert_dictionaries_to_domain_kwargs].
    cbn [util.deep_filter_properties_iterable] in *.
    inversion Hd as [v Ha | l1 l2 Hf' | l1 l2 Hf' | e1 e0 e2 Hp' Hf']; subst;
      [destruct Ha|].
    apply wf_dict in Hdw. destruct Hdw as [_ Hv].
    set (h := fun kv : string * pyval =>
                (fst kv, Domain._convert_dictionaries_to_domain_kwargs f (snd kv))).
    apply (SC_dict _ (map h e0)); [now apply Permutation_map|].
    assert (Hin : forall x, In x e0 -> Py.wf (snd x)).
    { rewrite Forall_forall in Hv. intros x Hx. apply Hv.
      eapply Permutation_in; [apply Permutation_sym; exact Hp' | exact Hx]. }
    clear - Hf' Hin IHf. subst h.
    induction Hf' as [|p q ? ? [E Hpq] _ IHG]; cbn [map]; constructor.
    + cbn [fst snd]. split; [exact E|].
      apply IHf; [exact Hpq | apply Hin; now left].
    + apply IHG. intros x Hx. apply Hin. now right.
Qed.

Lemma max_perm l l' :
  Permutation l l' -> fold_right Nat.max 0 l = fold_right Nat.max 0 l'.
Proof.
  induction 1; cbn [fold_right]; lia.
Qed.

Lemma depth_same a :
  forall b, same_contents a b -> Py.wf a -> Domain.depth a = Domain.depth b.
Proof.
  induction a as [|x|z|s|l IH|d IH|t|t|x|l IH] using pyval_ind;
    intros b Hs Hw;
    inversion Hs as [v Ha | l1 l2 Hf | l1 l2 Hf | d1 d0 d2 Hp Hf]; subst;
    try reflexivity.
  3: { apply wf_tuple in Hw. cbn [Domain.depth]. f_equal. f_equal.
       pose proof (same_list_values (fun a b => Domain.depth a = Domain.depth b)
                     l l2 IH Hw Hf) as G.
       clear - G. induction G as [|? ? ? ? E _ IHG]; cbn [map]; [reflexivity|].
       cbv beta in E. now rewrite E, IHG. }
  - apply wf_list in Hw. cbn [Domain.depth]. f_equal. f_equal.
    pose proof (same_list_values (fun a b => Domain.depth a = Domain.depth b)
                  l l2 IH Hw Hf) as G.
    clear - G. induction G as [|? ? ? ? E _ IHG]; cbn [map]; [reflexivity|].
    cbv beta in E. now rewrite E, IHG.
  - apply wf_dict in Hw. destruct Hw as [_ Hw]. cbn [Domain.depth]. f_equal.
    pose proof (same_dict_values (fun a b => Domain.depth a = Domain.depth b)
                  d d0 d2 IH Hw Hp Hf) as G.
    rewrite (max_perm _ (map (fun kv => Domain.depth (snd kv)) d0))
      by now apply Permutation_map.
    f_equal. clear - G.
    induction G as [|? ? ? ? [_ E] _ IHG]; cbn [map]; [reflexivity|].
    now rewrite E, IHG.
Qed.

Lemma convert_kwargs_dict f d :
  exists d', Domain._convert_dictionaries_to_domain_kwargs f (PyDict d) = PyDict d'.
Proof. destruct f; eexists; reflexivity. Qed.

(** ** The details of a canonical JSON *)

Lemma dict_set_keys k v d x :
  In x (map fst (Py.dict_set k v d)) <-> x = k \/ In x (map fst d).
Proof.
  induction d as [|[k0 v0] d IH]; simpl.
  - intuition.
  - destruct (String.eqb_spec k k0) as [->|Hn]; simpl; [intuition|].
    rewrite IH. intuition.
Qed.

Lemma dict_set_wf k v d :
  Py.wf (PyDict d) -> Py.wf v -> Py.wf (PyDict (Py.dict_set k v d)).
Proof.
  rewrite !wf_dict. intros [Hnd Hv] Hw. split.
  - clear Hv. induction d as [|[k0 v0] d IH]; simpl.
    + constructor; [intros [] | constructor].
    + inversion Hnd as [|? ? Hin Hnd']; subst.
      destruct (String.eqb_spec k k0) as [->|Hn]; simpl.
      * now constructor.
      * constructor; [|now apply IH].
        rewrite dict_set_keys. intros [E|H]; [now subst | contradiction].
  - induction d as [|[k0 v0] d IH]; simpl.
    + now repeat constructor.
    + inversion Hv as [|? ? Hv0 Hv']; subst.
      inversion Hnd as [|? ? Hin Hnd']; subst.
      destruct (String.eqb k k0); constructor; auto.
Qed.

Lemma dict_set_encodable k v d :
  json.encodable (PyDict d) = true -> json.encodable v = true ->
  json.encodable (PyDict (Py.dict_set k v d)) = true.
Proof.
  cbn [json.encodable]. intros Hd Hv.
  induction d as [|[k0 v0] d IH]; simpl in *.
  - now rewrite Hv.
  - apply andb_prop in Hd. destruct Hd as [H0 Hd].
    destruct (String.eqb k k0); simpl.
    + now rewrite Hv, Hd.
    + now rewrite H0, IH.
Qed.

Lemma mapM_inv {A B} (f : A -> result B) l :
  forall outs, mapM f l = Ok outs -> Forall2 (fun a b => f a = Ok b) l outs.
Proof.
  induction l as [|a l IH]; simpl; intros outs H.
  - injection H as <-. constructor.
  - destruct (f a) as [b|e] eqn:Ea; [|discriminate]. cbn [bind] in H.
    destruct (mapM f l) as [bs|e]; [|discriminate]. cbn [bind] in H.
    injection H as <-. constructor; auto.
Qed.

Lemma normalize_type_str v t :
  Domain.normalize_type v = Ok t -> exists s, t = PyStr s.
Proof.
  destruct v; simpl; try discriminate.
  - destruct (builtins.SemanticDomainTypes_call (builtins.lower s)); simpl;
      [|discriminate]. intros [= <-]. eauto.
  - intros [= <-]. eauto.
  - intros [= <-]. eauto.
Qed.

Lemma normalize_types_wf v v' :
  Domain.normalize_types v = Ok v' -> Py.wf v -> Py.wf v'.
Proof.
  destruct v; try discriminate. cbn [Domain.normalize_types].
  destruct (mapM _ d) as [m'|e] eqn:Em; [|discriminate].
  cbn [bind]. intros [= <-] Hw. apply mapM_inv in Em.
  apply wf_dict in Hw. destruct Hw as [Hnd _]. apply wf_dict.
  assert (Hk : map fst m' = map fst d /\ Forall (fun kv => Py.wf (snd kv)) m').
  { clear Hnd. induction Em as [|a b d m' Hab _ IH]; [split; constructor|].
    destruct IH as [IH1 IH2].
    destruct (Domain.normalize_type (snd a)) as [t|e] eqn:Et; [|discriminate].
    cbn [bind] in Hab. injection Hab as <-.
    destruct (normalize_type_str _ _ Et) as (s & ->).
    split; [simpl; now rewrite IH1 | constructor; [exact I | exact IH2]]. }
  destruct Hk as [Hk Hv]. rewrite Hk. now split.
Qed.

Lemma details_loop_wf items :
  forall acc det,
    Domain.details_loop items acc = Ok det ->
    Forall (fun kv => Py.wf (snd kv)) items ->
    Py.wf (PyDict acc) -> Py.wf (PyDict det).
Proof.
  induction items as [|[key value] items IH]; intros acc det H Hi Ha.
  - injection H as <-. exact Ha.
  - inversion Hi as [|? ? Hv Hi']; subst. cbn [snd] in Hv.
    cbn [Domain.details_loop] in H.
    destruct (if Py.truthy value
              then if String.eqb key INFERRED_SEMANTIC_TYPE_KEY
                   then Domain.normalize_types value else Ok value
              else Ok value) as [value1|e] eqn:E1; [|discriminate].
    cbn [bind] in H.
    unfold util.convert_to_json_serializable in H.
    destruct (json.encodable value1); [|discriminate]. cbn [bind] in H.
    apply (IH _ _ H Hi'). apply dict_set_wf; [exact Ha|].
    apply json_facts.wf_decoded.
    destruct (Py.truthy value);
      [destruct (String.eqb key INFERRED_SEMANTIC_TYPE_KEY)|];
      try (injection E1 as <-; exact Hv).
    now apply (normalize_types_wf _ _ E1).
Qed.

Lemma details_loop_encodable items :
  forall acc det,
    Domain.details_loop items acc = Ok det ->
    json.encodable (PyDict acc) = true -> json.encodable (PyDict det) = true.
Proof.
  induction items as [|[key value] items IH]; intros acc det H Ha.
  - injection H as <-. exact Ha.
  - cbn [Domain.details_loop] in H.
    destruct (if Py.truthy value
              then if String.eqb key INFERRED_SEMANTIC_TYPE_KEY
                   then Domain.normalize_types value else Ok value
              else Ok value) as [value1|e]; [|discriminate].
    cbn [bind] in H.
    unfold util.convert_to_json_serializable in H.
    destruct (json.encodable value1) eqn:E; [|discriminate]. cbn [bind] in H.
    apply (IH _ _ H). apply dict_set_encodable; [exact Ha|].
    now apply json_facts.native_encodable, json_facts.native_decoded.
Qed.

Lemma dict_set_native k v d :
  json.native (PyDict d) = true -> json.native v = true ->
  json.native (PyDict (Py.dict_set k v d)) = true.
Proof.
  cbn [json.native]. intros Hd Hv.
  induction d as [|[k0 v0] d IH]; simpl in *.
  - now rewrite Hv.
  - apply andb_prop in Hd. destruct Hd as [H0 Hd].
    destruct (String.eqb k k0); simpl.
    + now rewrite Hv, Hd.
    + now rewrite H0, IH.
Qed.

(** The details of a canonical JSON hold no tuple. *)
Lemma details_loop_native items :
  forall acc det,
    Domain.details_loop items acc = Ok det ->
    json.native (PyDict acc) = true -> json.native (PyDict det) = true.
Proof.
  induction items as [|[key value] items IH]; intros acc det H Ha.
  - injection H as <-. exact Ha.
  - cbn [Domain.details_loop] in H.
    destruct (if Py.truthy value
              then if String.eqb key INFERRED_SEMANTIC_TYPE_KEY
                   then Domain.normalize_types value else Ok value
              else Ok value) as [value1|e]; [|discriminate].
    cbn [bind] in H.
    unfold util.convert_to_json_serializable in H.
    destruct (json.encodable value1) eqn:E; [|discriminate]. cbn [bind] in H.
    apply (IH _ _ H). apply dict_set_native; [exact Ha|].
    now apply json_facts.native_decoded.
Qed.

Lemma to_json_dict_inv self j :
  Domain.to_json_dict self = Ok j ->
  exists det,
    Domain.details_loop (Domain.details self) [] = Ok det
    /\ json.encodable (PyDict (Domain.domain_kwargs self)) = true
    /\ j = domain_aux.json_shape self det.
Proof.
  intros H. pose proof H as H'. unfold Domain.to_json_dict in H.
  destruct (Domain.details_loop (Domain.details self) []) as [det|e] eqn:Hd;
    [|discriminate].
  cbn [bind] in H. exists det.
  unfold DomainKwargs.to_json_dict, DomainKwargs.to_dict,
    util.convert_to_json_serializable in H.
  destruct (json.encodable (PyDict (Domain.domain_kwargs self))) eqn:Hk;
    [|discriminate].
  repeat split.
  rewrite (to_json_dict_shape self det Hd Hk) in H'. congruence.
Qed.

Lemma decoded_same a :
  forall b, same_contents a b -> Py.wf a ->
            same_contents (json.decoded a) (json.decoded b).
Proof.
  induction a as [|x|z|s|l IH|d IH|t|t|x|l IH] using pyval_ind;
    intros b Hs Hw;
    inversion Hs as [v Ha | l1 l2 Hf | l1 l2 Hf | d1 d0 d2 Hp Hf]; subst;
    try (apply SC_atom; exact I); try (destruct Ha).
  - apply wf_list in Hw. cbn [json.decoded].
    pose proof (same_list_values
                  (fun a b => same_contents (json.decoded a) (json.decoded b))
                  l l2 IH Hw Hf) as G.
    apply SC_list. clear - G.
    induction G; cbn [map]; constructor; assumption.
  - apply wf_dict in Hw. destruct Hw as [Hnd Hw]. cbn [json.decoded].
    pose proof (same_dict_values
                  (fun a b => same_contents (json.decoded a) (json.decoded b))
                  d d0 d2 IH Hw Hp Hf) as G.
    apply (SC_dict _ (map (fun kv => (fst kv, json.decoded (snd kv))) d0)).
    + now apply Permutation_map.
    + clear - G. induction G as [|p q ? ? [E Hpq] _ IHG]; cbn [map];
        constructor; [split; assumption | exact IHG].
  - apply wf_tuple in Hw. cbn [json.decoded].
    pose proof (same_list_values
                  (fun a b => same_contents (json.decoded a) (json.decoded b))
                  l l2 IH Hw Hf) as G.
    apply SC_list. clear - G.
    induction G; cbn [map]; constructor; assumption.
Qed.

Lemma json_shape_same self other det :
  Domain.rule_name self = Domain.rule_name other ->
  Domain.domain_type self = Domain.domain_type other ->
  same_contents (PyDict (Domain.domain_kwargs self))
    (PyDict (Domain.domain_kwargs other)) ->
  Py.wf (PyDict (Domain.domain_kwargs self)) ->
  same_contents (PyDict (domain_aux.json_shape self det))
    (PyDict (domain_aux.json_shape other det)).
Proof.
  intros Er Et Hs Hwk. unfold domain_aux.json_shape. rewrite <- Er, <- Et.
  apply (SC_dict _ _ _ (Permutation_refl _)).
  pose proof (null_or_empty_same _ _ Hs) as Hn.
  repeat apply Forall2_app.
  - induction (if String.eqb (Domain.rule_name self) EmptyString then [] else _)
      as [|x l IHl]; constructor; [|exact IHl].
    split; [reflexivity | apply same_contents_refl].
  - constructor; [|constructor]. split; [reflexivity | apply same_contents_refl].
  - destruct (Domain.domain_kwargs self), (Domain.domain_kwargs other);
      try discriminate.
    + constructor.
    + constructor; [split; [reflexivity|] | constructor].
      now apply (decoded_same _ _ Hs).
  - destruct det; constructor; [|constructor].
    split; [reflexivity | apply same_contents_refl].
Qed.

Lemma json_shape_wf self det :
  Py.wf (PyDict (Domain.domain_kwargs self)) -> Py.wf (PyDict det) ->
  Py.wf (PyDict (domain_aux.json_shape self det)).
Proof.
  intros Hk Hd. apply wf_dict. unfold domain_aux.json_shape.
  destruct (String.eqb (Domain.rule_name self) EmptyString);
    destruct (Domain.domain_kwargs self); destruct det;
    (split;
     [simpl; nodup_strings
     | cbn [app];
       repeat (apply Forall_cons;
               [cbn [snd];
                first [exact I | assumption
                      | apply json_facts.wf_decoded; assumption]|]);
       apply Forall_nil]).
Qed.

Lemma json_shape_encodable self det :
  json.encodable (PyDict (Domain.domain_kwargs self)) = true ->
  json.encodable (PyDict det) = true ->
  json.encodable (PyDict (domain_aux.json_shape self det)) = true.
Proof.
  intros Hk Hd.
  pose proof (json_facts.native_encodable _ (json_facts.native_decoded _ Hk))
    as Hk'.
  unfold domain_aux.json_shape. cbn [json.encodable] in Hd |- *.
  rewrite !forallb_app. clear Hk.
  generalize dependent (json.decoded (PyDict (Domain.domain_kwargs self))).
  intros dk Hk'.
  destruct (String.eqb (Domain.rule_name self) EmptyString);
    destruct (Domain.domain_kwargs self); destruct det;
    cbn [forallb snd json.encodable andb] in *; rewrite ?Hk', ?Hd; reflexivity.
Qed.

(** A canonical JSON holds no tuple. *)
Lemma json_shape_native self det :
  json.encodable (PyDict (Domain.domain_kwargs self)) = true ->
  json.native (PyDict det) = true ->
  json.native (PyDict (domain_aux.json_shape self det)) = true.
Proof.
  intros Hk Hd. pose proof (json_facts.native_decoded _ Hk) as Hk'.
  unfold domain_aux.json_shape. cbn [json.native] in Hd |- *.
  rewrite !forallb_app. clear Hk.
  generalize dependent (json.decoded (PyDict (Domain.domain_kwargs self))).
  intros dk Hk'.
  destruct (String.eqb (Domain.rule_name self) EmptyString);
    destruct (Domain.domain_kwargs self); destruct det;
    cbn [forallb snd json.native andb] in *; rewrite ?Hk', ?Hd; reflexivity.
Qed.

(** ** Identity of a Domain *)

Lemma init_fields rn dt kw det d :
  Domain.__init__ rn dt (Some kw) det = Ok d ->
  Domain.rule_name d = rn
  /\ Domain.details d = match det with Some x => x | None => [] end
  /\ PyDict (Domain.domain_kwargs d)
     = Domain._convert_dictionaries_to_domain_kwargs
         (S (Domain.depth (PyDict kw))) (PyDict kw).
Proof.
  unfold Domain.__init__. intros H.
  destruct (convert_kwargs_dict (S (Domain.depth (PyDict kw))) kw) as (d' & E).
  rewrite E in *.
  destruct dt; try discriminate.
  - destruct (Domain.coerce_str s); [|discriminate].
    cbn [bind] in H. injection H as <-. repeat split.
  - cbn [bind] in H. injection H as <-. repeat split.
Qed.

Lemma init_same_type rn dt kw1 kw2 det d1 d2 :
  Domain.__init__ rn dt (Some kw1) det = Ok d1 ->
  Domain.__init__ rn dt (Some kw2) det = Ok d2 ->
  Domain.domain_type d1 = Domain.domain_type d2.
Proof.
  unfold Domain.__init__. intros H1 H2.
  destruct dt; try discriminate.
  - destruct (Domain.coerce_str s); [|discriminate].
    cbn [bind] in *. injection H1 as <-. injection H2 as <-. reflexivity.
  - cbn [bind] in *. injection H1 as <-. injection H2 as <-. reflexivity.
Qed.

(** C3: two Domains built from domain_kwargs with the same contents, in
    whatever order their keys were inserted at any level, have the same id,
    compare equal and have the same hash. *)
Theorem C3_key_order_irrelevant
        (digest : string -> string) (hash : string -> Z)
        (rn : string) (dt : pyval) (kw1 kw2 : pydict) (det : option pydict)
        (d1 d2 : Domain.t) (j1 : pydict) :
  same_contents (PyDict kw1) (PyDict kw2) ->
  Py.wf (PyDict kw1) ->
  Domain.__init__ rn dt (Some kw1) det = Ok d1 ->
  Domain.__init__ rn dt (Some kw2) det = Ok d2 ->
  Py.wf (PyDict (Domain.details d1)) ->
  Domain.to_json_dict d1 = Ok j1 ->
  exists i,
    Domain.id digest d1 = Ok i
    /\ Domain.id digest d2 = Ok i
    /\ Domain.__eq__ d1 (Domain.ObjDomain d2) = Ok true
    /\ Domain.__hash__ digest hash d1 = Ok (hash i)
    /\ Domain.__hash__ digest hash d2 = Ok (hash i).
Proof.
  intros Hs Hw H1 H2 Hwd Hj.
  pose proof (init_same_type _ _ _ _ _ _ _ H1 H2) as Et.
  destruct (init_fields _ _ _ _ _ H1) as (Er1 & Ed1 & Ek1).
  destruct (init_fields _ _ _ _ _ H2) as (Er2 & Ed2 & Ek2).
  assert (Hk : same_contents (PyDict (Domain.domain_kwargs d1))
                 (PyDict (Domain.domain_kwargs d2))).
  { rewrite Ek1, Ek2, <- (depth_same _ _ Hs Hw).
    now apply convert_kwargs_same. }
  assert (Hkw : Py.wf (PyDict (Domain.domain_kwargs d1))).
  { rewrite Ek1. now apply convert_kwargs_wf. }
  destruct (to_json_dict_inv _ _ Hj) as (det' & Hloop & Henc1 & ->).
  assert (Henc2 : json.encodable (PyDict (Domain.domain_kwargs d2)) = true).
  { now rewrite <- (same_contents_encodable _ _ Hk). }
  assert (Hj2 : Domain.to_json_dict d2 = Ok (domain_aux.json_shape d2 det')).
  { apply to_json_dict_shape; [|exact Henc2]. now rewrite Ed2, <- Ed1. }
  assert (Hwdet : Py.wf (PyDict det')).
  { apply (details_loop_wf _ _ _ Hloop).
    - apply wf_dict in Hwd. tauto.
    - apply wf_dict. split; constructor. }
  assert (Hedet : json.encodable (PyDict det') = true).
  { now apply (details_loop_encodable _ _ _ Hloop). }
  pose proof (json_shape_same d1 d2 det' (eq_trans Er1 (eq_sym Er2)) Et Hk Hkw)
    as HS.
  pose proof (json_shape_wf d1 det' Hkw Hwdet) as HW.
  pose proof (json_shape_encodable d1 det' Henc1 Hedet) as HE1.
  pose proof (json_shape_encodable d2 det' Henc2 Hedet) as HE2.
  exists (digest (json.encode_sorted (PyDict (domain_aux.json_shape d1 det')))).
  assert (I1 : Domain.id digest d1
               = Ok (digest (json.encode_sorted
                               (PyDict (domain_aux.json_shape d1 det'))))).
  { unfold Domain.id, Domain.to_id, json.dumps_sorted.
    rewrite Hj. cbn [bind]. now rewrite HE1. }
  assert (I2 : Domain.id digest d2
               = Ok (digest (json.encode_sorted
                               (PyDict (domain_aux.json_shape d1 det'))))).
  { unfold Domain.id, Domain.to_id, json.dumps_sorted.
    rewrite Hj2. cbn [bind]. rewrite HE2. cbn [bind].
    now rewrite (same_contents_encode_sorted _ _ HS HW). }
  repeat split.
  - exact I1.
  - exact I2.
  - unfold Domain.__eq__, Domain.eq_json.
    cbn [Domain.has_to_json_dict Domain.other_to_json_dict].
    rewrite Hj, Hj2. cbn [bind].
    now rewrite (same_contents_eqb _ _ HS HW).
  - unfold Domain.__hash__. now rewrite I1.
  - unfold Domain.__hash__. now rewrite I2.
Qed.

Lemma same_kwargs_example :
  same_contents (PyDict examples.kwargs_ab) (PyDict examples.kwargs_ba).
Proof.
  apply (SC_dict _
           [("row_condition", PyDict [("min", PyInt 0); ("max", PyInt 9)]);
            ("column_B", PyStr "b"); ("column_A", PyStr "a")]).
  - unfold examples.kwargs_ab.
    eapply Permutation_trans; [apply perm_skip, perm_swap|].
    eapply Permutation_trans; [apply perm_swap|].
    apply perm_skip, perm_swap.
  - constructor; [split; [reflexivity|] | ].
    + apply (SC_dict _ [("max", PyInt 9); ("min", PyInt 0)]);
        [apply perm_swap|].
      repeat (constructor; [split; [reflexivity | apply SC_atom; exact I]|]).
      constructor.
    + repeat (constructor; [split; [reflexivity | apply SC_atom; exact I]|]).
      constructor.
Defined.

Lemma C3_witness :
  exists i,
    Domain.id (fun s => s) {| Domain.rule_name := "r1"; Domain.domain_type := COLUMN_PAIR;
                              Domain.domain_kwargs := examples.kwargs_ab;
                              Domain.details := [] |} = Ok i
    /\ Domain.id (fun s => s) {| Domain.rule_name := "r1";
                                 Domain.domain_type := COLUMN_PAIR;
                                 Domain.domain_kwargs := examples.kwargs_ba;
                                 Domain.details := [] |} = Ok i
    /\ Domain.__eq__ {| Domain.rule_name := "r1"; Domain.domain_type := COLUMN_PAIR;
                        Domain.domain_kwargs := examples.kwargs_ab;
                        Domain.details := [] |}
         (Domain.ObjDomain {| Domain.rule_name := "r1";
                              Domain.domain_type := COLUMN_PAIR;
                              Domain.domain_kwargs := examples.kwargs_ba;
                              Domain.details := [] |}) = Ok true
    /\ Domain.__hash__ (fun s => s) (fun s => Z.of_nat (String.length s))
         {| Domain.rule_name := "r1"; Domain.domain_type := COLUMN_PAIR;
            Domain.domain_kwargs := examples.kwargs_ab; Domain.details := [] |}
       = Ok (Z.of_nat (String.length i))
    /\ Domain.__hash__ (fun s => s) (fun s => Z.of_nat (String.length s))
         {| Domain.rule_name := "r1"; Domain.domain_type := COLUMN_PAIR;
            Domain.domain_kwargs := examples.kwargs_ba; Domain.details := [] |}
       = Ok (Z.of_nat (String.length i)).
Proof.
  eapply (C3_key_order_irrelevant (fun s => s) (fun s => Z.of_nat (String.length s))
            "r1" (PyStr "column_pair") examples.kwargs_ab examples.kwargs_ba None).
  - exact same_kwargs_example.
  - simpl. repeat split; nodup_strings.
  - reflexivity.
  - reflexivity.
  - simpl. split; [constructor | exact I].
  - reflexivity.
Defined.

(** ** Decoding the indented text *)

Module json_indent_facts.
Import json json_aux json_facts.

Lemma parse_value_skip fuel s s' :
  skip_ws s = skip_ws s' -> parse_value fuel s = parse_value fuel s'.
Proof.
  intros H. destruct fuel; [reflexivity|]. cbn [parse_value]. now rewrite H.
Qed.

Lemma parse_elems_skip fuel s s' :
  skip_ws s = skip_ws s' -> parse_elems fuel s = parse_elems fuel s'.
Proof.
  intros H. destruct fuel; [reflexivity|]. cbn [parse_elems].
  now rewrite (parse_value_skip fuel s s' H).
Qed.

Lemma parse_members_skip fuel s s' :
  skip_ws s = skip_ws s' -> parse_members fuel s = parse_members fuel s'.
Proof.
  intros H. destruct fuel; [reflexivity|]. cbn [parse_members]. now rewrite H.
Qed.

Lemma skip_ws_spaces n s : skip_ws (spaces n ++ s) = skip_ws s.
Proof. induction n as [|n IH]; [reflexivity | exact IH]. Qed.

Lemma skip_ws_newline_indent i l s : skip_ws (newline_indent i l ++ s) = skip_ws s.
Proof.
  unfold newline_indent, nl. rewrite append_assoc. cbn [append skip_ws].
  change (is_ws newline) with true. cbv iota. apply skip_ws_spaces.
Qed.

Lemma newline_indent_head i l s : no_digit_head (newline_indent i l ++ s).
Proof. reflexivity. Qed.

Lemma parse_elems_last f v s tail rest :
  parse_value f s = Some (v, tail) -> skip_ws tail = String "]" rest ->
  parse_elems (S f) s = Some ([v], rest).
Proof. intros H1 H2. cbn [parse_elems]. now rewrite H1, H2. Qed.

Lemma parse_elems_more f v s tail s2 vs rest :
  parse_value f s = Some (v, tail) -> skip_ws tail = String "," s2 ->
  parse_elems f s2 = Some (vs, rest) ->
  parse_elems (S f) s = Some (v :: vs, rest).
Proof. intros H1 H2 H3. cbn [parse_elems]. now rewrite H1, H2, H3. Qed.

Lemma parse_members_last f k v s r0 r1 r2 tail rest :
  skip_ws s = String dquote r0 -> scan_string r0 = Some (k, r1) ->
  skip_ws r1 = String ":" r2 -> parse_value f r2 = Some (v, tail) ->
  skip_ws tail = String "}" rest ->
  parse_members (S f) s = Some ([(k, v)], rest).
Proof.
  intros H1 H2 H3 H4 H5. cbn [parse_members].
  rewrite H1. change (Ascii.eqb dquote dquote) with true. cbn [negb].
  now rewrite H2, H3, H4, H5.
Qed.

Lemma parse_members_more f k v s r0 r1 r2 tail s2 d rest :
  skip_ws s = String dquote r0 -> scan_string r0 = Some (k, r1) ->
  skip_ws r1 = String ":" r2 -> parse_value f r2 = Some (v, tail) ->
  skip_ws tail = String "," s2 -> parse_members f s2 = Some (d, rest) ->
  parse_members (S f) s = Some ((k, v) :: d, rest).
Proof.
  intros H1 H2 H3 H4 H5 H6. cbn [parse_members].
  rewrite H1. change (Ascii.eqb dquote dquote) with true. cbn [negb].
  now rewrite H2, H3, H4, H5, H6.
Qed.

Lemma parse_value_list f s s1 c r l rest :
  skip_ws s = String "[" s1 -> skip_ws s1 = String c r ->
  Ascii.eqb c "]" = false -> parse_elems f s1 = Some (l, rest) ->
  parse_value (S f) s = Some (PyList l, rest).
Proof.
  intros H1 H2 H3 H4. cbn [parse_value]. rewrite H1. cbn -[parse_elems skip_ws].
  now rewrite H2, H3, H4.
Qed.

Lemma parse_value_dict f s s1 c r d rest :
  skip_ws s = String "{" s1 -> skip_ws s1 = String c r ->
  Ascii.eqb c "}" = false -> parse_members f s1 = Some (d, rest) ->
  parse_value (S f) s = Some (PyDict (Py.dict_of_pairs d), rest).
Proof.
  intros H1 H2 H3 H4. cbn [parse_value]. rewrite H1. cbn -[parse_members skip_ws].
  now rewrite H2, H3, H4.
Qed.

Lemma encode_indent_head i level v :
  encodable v = true ->
  exists c s, encode_indent i level v = String c s /\ value_start c = true.
Proof.
  destruct v as [|[]|z|s|[|p l]|[|kv d]|t|t|b|[|p l]]; simpl; intros H;
    try discriminate;
    try (eexists _, _; split; reflexivity).
  apply encode_int_head.
Qed.

Lemma value_start_not c :
  value_start c = true -> Ascii.eqb c "]" = false /\ Ascii.eqb c "}" = false.
Proof.
  unfold value_start. intros H.
  destruct (Ascii.eqb c "]"), (Ascii.eqb c "}"); try (split; reflexivity);
    rewrite ?andb_false_r in H; discriminate.
Qed.

Lemma decodes_indent_scalar i v :
  match v with PyList _ | PyDict _ | PyTuple _ => False | _ => True end ->
  encodable v = true -> decodes_indent i v.
Proof.
  intros Ha He level fuel rest Hf Hr.
  assert (E : encode_indent i level v = encode v) by (destruct v; tauto).
  rewrite E. apply decodes_encodable; try assumption.
  destruct v; try exact I; contradiction.
Qed.

Lemma parse_elems_indent i level l :
  l <> [] -> Forall (decodes_indent i) l ->
  forall fuel rest,
    List.length l + list_sum (map size l) <= fuel ->
    parse_elems fuel
      (String.concat ("," ++ newline_indent i (S level))
         (map (encode_indent i (S level)) l)
         ++ newline_indent i level ++ String "]" rest)
    = Some (map decoded l, rest).
Proof.
  induction l as [|v l IH]; [congruence|].
  intros _ Hd fuel rest Hf.
  inversion Hd as [|? ? Hdv Hdl]; subst.
  destruct fuel as [|f]; [simpl in Hf; lia|].
  cbn [map list_sum fold_right List.length] in Hf.
  destruct l as [|w l].
  - cbn [map String.concat].
    eapply parse_elems_last.
    + apply Hdv; [lia | apply newline_indent_head].
    + rewrite skip_ws_newline_indent. reflexivity.
  - cbn [map]. rewrite concat_cons_app by discriminate.
    change (encode_indent i (S level) w :: map (encode_indent i (S level)) l)
      with (map (encode_indent i (S level)) (w :: l)).
    rewrite append_assoc.
    eapply parse_elems_more.
    + apply Hdv; [lia | reflexivity].
    + reflexivity.
    + erewrite parse_elems_skip; [|apply skip_ws_newline_indent].
      apply IH; [discriminate | assumption |].
      cbn [map list_sum fold_right List.length] in *. lia.
Qed.

Lemma parse_members_indent i level d :
  d <> [] -> Forall (fun kv => decodes_indent i (snd kv)) d ->
  forall fuel rest,
    List.length d + list_sum (map (fun kv => size (snd kv)) d) <= fuel ->
    parse_members fuel
      (String.concat ("," ++ newline_indent i (S level))
         (map (encode_indent_item i (S level)) d)
         ++ newline_indent i level ++ String "}" rest)
    = Some (map (fun kv => (fst kv, decoded (snd kv))) d, rest).
Proof.
  induction d as [|[k v] d IH]; [congruence|].
  intros _ Hd fuel rest Hf.
  inversion Hd as [|? ? Hdv Hdl]; subst. cbn [snd] in Hdv.
  destruct fuel as [|f]; [simpl in Hf; lia|].
  cbn [map list_sum fold_right List.length snd] in Hf.
  destruct d as [|w d].
  - cbn [map String.concat]. unfold encode_indent_item. cbn [fst snd].
    rewrite !append_assoc, encode_str_app.
    eapply parse_members_last.
    + reflexivity.
    + apply scan_string_escape.
    + reflexivity.
    + rewrite parse_value_space.
      apply Hdv; [lia | apply newline_indent_head].
    + rewrite skip_ws_newline_indent. reflexivity.
  - cbn [map]. rewrite concat_cons_app by discriminate.
    change (encode_indent_item i (S level) w :: map (encode_indent_item i (S level)) d)
      with (map (encode_indent_item i (S level)) (w :: d)).
    unfold encode_indent_item at 1. cbn [fst snd].
    rewrite !append_assoc, encode_str_app.
    eapply parse_members_more.
    + reflexivity.
    + apply scan_string_escape.
    + reflexivity.
    + rewrite parse_value_space. apply Hdv; [lia | reflexivity].
    + reflexivity.
    + erewrite parse_members_skip; [|apply skip_ws_newline_indent].
      apply IH; [discriminate | assumption |].
      cbn [map list_sum fold_right List.length] in *. lia.
Qed.

Lemma decodes_indent_array i l v :
  v = PyList l \/ v = PyTuple l ->
  forallb encodable l = true -> Forall (decodes_indent i) l ->
  decodes_indent i v.
Proof.
  intros Hv He Hd level [|f] rest Hf Hr;
    [destruct Hv as [->| ->]; simpl in Hf; lia|].
  assert (E0 : encode_indent i level v = encode_indent i level (PyList l)
               /\ decoded v = PyList (map decoded l)
               /\ size v = S (List.length l + list_sum (map size l)))
    by (destruct Hv as [->| ->]; repeat split; destruct l; reflexivity).
  destruct E0 as (Ee & Ed & Es). rewrite Ee, Ed. rewrite Es in Hf.
  destruct l as [|w l]; [reflexivity|].
  cbn [encode_indent]. rewrite !append_assoc.
  destruct (encode_indent_head i (S level) w) as (c & s & E & Hc).
  { cbn [forallb] in He. now apply andb_prop in He. }
  destruct (value_start_not c Hc) as [Hc1 _].
  cbn [append].
  match goal with
  | |- parse_value _ (String _ ?s1) = _ =>
      assert (Hs : exists r, skip_ws s1 = String c r)
  end.
  { rewrite skip_ws_newline_indent. cbn [map].
    destruct l; cbn [map String.concat]; rewrite E; cbn [append];
      rewrite (skip_ws_start _ _ Hc); eexists; reflexivity. }
  destruct Hs as (r & Hs).
  eapply (parse_value_list f _ _ c r).
  + reflexivity.
  + exact Hs.
  + exact Hc1.
  + erewrite parse_elems_skip; [|apply skip_ws_newline_indent].
    apply parse_elems_indent; [discriminate | exact Hd | lia].
Qed.

(** Decoding undoes the indented encoding as well. *)
Lemma decodes_indent_encodable i v :
  encodable v = true -> Py.wf v -> decodes_indent i v.
Proof.
  induction v as [|b|z|s|l IH|d IH|t|t|b|l IH] using pyval_ind;
    intros He Hw; try discriminate;
    try (apply decodes_indent_scalar; [exact I | exact He]).
  - apply (decodes_indent_array i l); [now left | exact He |].
    apply wf_list in Hw. cbn [encodable] in He.
    rewrite forallb_forall in He. rewrite Forall_forall in *.
    intros x Hx. apply IH; auto.
  - apply wf_dict in Hw. destruct Hw as [Hnd Hw].
    assert (Hd : Forall (fun kv => decodes_indent i (snd kv)) d).
    { cbn [encodable] in He.
      rewrite forallb_forall in He. rewrite Forall_forall in *.
      intros x Hx. apply IH; auto. }
    intros level [|f] rest Hf Hr; [simpl in Hf; lia|].
    cbn [size] in Hf.
    destruct d as [|w d]; [reflexivity|].
    cbn [encode_indent]. rewrite !append_assoc.
    change (map (fun kv => encode_str (fst kv) ++ ": "
                             ++ encode_indent i (S level) (snd kv)) (w :: d))
      with (map (encode_indent_item i (S level)) (w :: d)).
    cbn [decoded].
    rewrite <- (dict_of_pairs_nodup
                  (map (fun kv => (fst kv, decoded (snd kv))) (w :: d)))
      by (now rewrite map_map, (map_ext _ fst) by reflexivity).
    cbn [append].
    match goal with
    | |- parse_value _ (String _ ?s1) = _ =>
        assert (Hs : exists r, skip_ws s1 = String dquote r)
    end.
    { rewrite skip_ws_newline_indent. cbn [map].
      destruct d; cbn [map String.concat]; unfold encode_indent_item at 1;
        rewrite !append_assoc, encode_str_app; eexists; reflexivity. }
    destruct Hs as (r & Hs).
    eapply (parse_value_dict f _ _ dquote r).
    + reflexivity.
    + exact Hs.
    + reflexivity.
    + erewrite parse_members_skip; [|apply skip_ws_newline_indent].
      apply parse_members_indent; [discriminate | exact Hd | lia].
  - apply (decodes_indent_array i l); [now right | exact He |].
    apply wf_tuple in Hw. cbn [encodable] in He.
    rewrite forallb_forall in He. rewrite Forall_forall in *.
    intros x Hx. apply IH; auto.
Qed.

(** Two values without tuples that have the same indented text are the same
    value. *)
Lemma encode_indent_inj i v1 v2 :
  native v1 = true -> native v2 = true -> Py.wf v1 -> Py.wf v2 ->
  encode_indent i 0 v1 = encode_indent i 0 v2 -> v1 = v2.
Proof.
  intros Hn1 Hn2 Hw1 Hw2 E.
  pose proof (native_encodable _ Hn1) as He1.
  pose proof (native_encodable _ Hn2) as He2.
  assert (H1 : parse_value (size v1 + size v2)
                 (encode_indent i 0 v1 ++ EmptyString)
               = Some (decoded v1, EmptyString)).
  { apply decodes_indent_encodable; [assumption | assumption | lia | exact I]. }
  assert (H2 : parse_value (size v1 + size v2)
                 (encode_indent i 0 v2 ++ EmptyString)
               = Some (decoded v2, EmptyString)).
  { apply decodes_indent_encodable; [assumption | assumption | lia | exact I]. }
  rewrite E, H2 in H1. rewrite !decoded_native in H1 by assumption.
  now injection H1.
Qed.

End json_indent_facts.

(** ** Domain: equality through the string forms *)

Import contents_aux.

Lemma to_json_dict_wf self j :
  domain_aux.wf_domain self -> Domain.to_json_dict self = Ok j -> Py.wf (PyDict j).
Proof.
  intros [Hk Hd] Hj.
  destruct (to_json_dict_inv _ _ Hj) as (det & Hloop & _ & ->).
  apply json_shape_wf; [exact Hk|].
  apply (details_loop_wf _ _ _ Hloop).
  - apply wf_dict in Hd. tauto.
  - apply wf_dict. split; constructor.
Qed.

Lemma to_json_dict_native self j :
  Domain.to_json_dict self = Ok j -> json.native (PyDict j) = true.
Proof.
  intros Hj. destruct (to_json_dict_inv _ _ Hj) as (det & Hloop & Hk & ->).
  apply json_shape_native; [exact Hk|].
  now apply (details_loop_native _ _ _ Hloop).
Qed.

Lemma eqb_refl v : Py.wf v -> Py.eqb v v = true.
Proof. intros H. apply same_contents_eqb; [apply same_contents_refl | exact H]. Qed.

Lemma ok_eqb (a b : string) : Ok (String.eqb a b) = Ok true -> a = b.
Proof. intros H. apply String.eqb_eq. congruence. Qed.

(** Two Domains with the same string form have the same canonical JSON. *)
Lemma eq_str_domain_json self d :
  domain_aux.wf_domain self -> domain_aux.wf_domain d ->
  Domain.eq_str self (Domain.ObjDomain d) = Ok true ->
  Domain.eq_json self (Domain.ObjDomain d) = Ok true.
Proof.
  intros Hw1 Hw2.
  unfold Domain.eq_str, Domain.eq_json, Domain.str_of, Domain.__str__,
    Domain.__repr__, json.dumps_indent.
  cbn [Domain.has_to_json_dict Domain.other_to_json_dict].
  destruct (Domain.to_json_dict self) as [ja|e] eqn:Ha; [|discriminate].
  cbn [bind].
  destruct (json.encodable (PyDict ja)) eqn:Ea; [|discriminate]. cbn [bind].
  destruct (Domain.to_json_dict d) as [jb|e] eqn:Hb; [|discriminate].
  cbn [bind].
  destruct (json.encodable (PyDict jb)) eqn:Eb; [|discriminate]. cbn [bind].
  intros H. apply ok_eqb in H.
  pose proof (to_json_dict_wf _ _ Hw1 Ha) as Wa.
  pose proof (to_json_dict_wf _ _ Hw2 Hb) as Wb.
  apply json_indent_facts.encode_indent_inj in H;
    try assumption; try (eapply to_json_dict_native; eassumption).
  rewrite <- H. now rewrite eqb_refl.
Qed.

Lemma json_shape_nonempty self det : domain_aux.json_shape self det <> [].
Proof.
  unfold domain_aux.json_shape.
  destruct (String.eqb (Domain.rule_name self) EmptyString); discriminate.
Qed.

(** The string form of a Domain is not the [str] of any dict: its second
    character is a newline, that of a dict a quote or the closing brace. *)
Lemma eq_str_mapping self m :
  Domain.eq_str self (Domain.ObjVal (PyDict m)) <> Ok true.
Proof.
  unfold Domain.eq_str, Domain.str_of, Domain.__str__, Domain.__repr__,
    json.dumps_indent.
  destruct (Domain.to_json_dict self) as [j|e] eqn:Hj; [|discriminate].
  cbn [bind].
  destruct (json.encodable (PyDict j)); [|discriminate]. cbn [bind].
  destruct (to_json_dict_inv _ _ Hj) as (det & _ & _ & ->).
  pose proof (json_shape_nonempty self det) as Hn.
  destruct (domain_aux.json_shape self det) as [|x l]; [congruence|].
  cbn [json.encode_indent].
  match goal with
  | |- context [json.newline_indent 2 1 ++ ?t] => generalize t
  end.
  intros tail. unfold json.newline_indent, nl.
  cbn [builtins.str builtins.repr append].
  intros H. apply ok_eqb in H.
  assert (Hq : forall k, newline <> builtins.repr_quote k).
  { intros k0. unfold builtins.repr_quote.
    destruct (builtins.contains_char "'" k0
              && negb (builtins.contains_char dquote k0)); discriminate. }
  destruct m as [|[k v] m]; [discriminate H|].
  cbn [map fst snd] in H. unfold builtins.repr_str at 1 in H.
  destruct m as [|kv m]; cbn [map String.concat append] in H;
    injection H as H _; exact (Hq k H).
Qed.

(** self == other holds exactly when other is not None and either the
    canonical JSON of both sides match, or other is a mapping whose entries
    without the falsy ones match the canonical JSON of self without its falsy
    ones, or other is neither a Domain nor a mapping and the string form of
    self is str(other). *)
Lemma eq_characterized (self : Domain.t) (other : Domain.pyobj) :
  domain_aux.wf_domain self -> domain_aux.wf_obj other ->
  (Domain.__eq__ self other = Ok true <->
   other <> Domain.ObjVal PyNone
   /\ (Domain.eq_json self other = Ok true
       \/ (Domain.eq_json self other = Ok false
           /\ Domain.eq_mapping self other = Ok true)
       \/ (Domain.is_dict other = false
           /\ Domain.eq_str self other = Ok true))).
Proof.
  intros Hw Hwo. rewrite eq_short_circuit. apply and_iff_compat_l. split.
  - intros [H|[H|(H1 & H2 & H3)]]; [now left | right; now left|].
    destruct other as [v|d].
    + destruct v; try (right; right; split; [reflexivity | exact H3]).
      exfalso. now apply (eq_str_mapping self d).
    + rewrite (eq_str_domain_json self d Hw Hwo H3) in H1. discriminate.
  - intros [H|[H|(H1 & H2)]]; [now left | right; now left|].
    right; right. destruct other as [v|d]; [|discriminate].
    unfold Domain.eq_json, Domain.eq_mapping.
    cbn [Domain.has_to_json_dict]. rewrite H1. now repeat split.
Qed.

(** * Further properties of metric_store.py *)

(** ** Reading stored text *)

Module json_length_facts.
Import json json_aux json_facts.

Lemma concat_sep_length (sep : string) (f : pyval -> string) (g : pyval -> nat) l :
  1 <= String.length sep ->
  Forall (fun v => g v <= String.length (f v)) l ->
  List.length l + list_sum (map g l)
  <= String.length (String.concat sep (map f l)) + 1.
Proof.
  intros Hs. induction l as [|v l IH]; intros H; [simpl; lia|].
  inversion H as [|? ? Hv Hl]; subst. specialize (IH Hl).
  destruct l as [|w l].
  - simpl. lia.
  - cbn [map String.concat] in *. rewrite !length_append.
    cbn [list_sum fold_right List.length] in *. lia.
Qed.

Lemma concat_items_length (sep : string) (f : string * pyval -> string) d :
  1 <= String.length sep ->
  Forall (fun kv => size (snd kv) <= String.length (f kv)) d ->
  List.length d + list_sum (map (fun kv => size (snd kv)) d)
  <= String.length (String.concat sep (map f d)) + 1.
Proof.
  intros Hs. induction d as [|v d IH]; intros H; [simpl; lia|].
  inversion H as [|? ? Hv Hl]; subst. specialize (IH Hl).
  destruct d as [|w d].
  - simpl. simpl in Hv. lia.
  - cbn [map String.concat] in *. rewrite !length_append.
    cbn [list_sum fold_right List.length] in *. lia.
Qed.

Lemma size_le_length_indent i v :
  encodable v = true ->
  forall level, size v <= String.length (encode_indent i level v).
Proof.
  induction v as [|b|z|s|l IH|d IH|t|t|b|l IH] using pyval_ind;
    intros He level; try discriminate.
  - simpl. lia.
  - destruct b; simpl; lia.
  - destruct (encode_int_head z) as (c & s & E & _).
    cbn [size encode_indent]. rewrite E. simpl. lia.
  - cbn [size encode_indent]. unfold encode_str, dq.
    rewrite !length_append. simpl. lia.
  - cbn [encodable] in He. rewrite forallb_forall in He.
    destruct l as [|w l]; [simpl; lia|].
    cbn [size encode_indent]. rewrite !length_append.
    assert (H : Forall (fun v => size v
                                 <= String.length (encode_indent i (S level) v))
                  (w :: l)).
    { rewrite Forall_forall in *. intros x Hx. apply IH; auto. }
    pose proof (concat_sep_length ("," ++ newline_indent i (S level))
                  (encode_indent i (S level)) size (w :: l)) as G.
    rewrite length_append in G. cbn [String.length] in G.
    specialize (G ltac:(lia) H). cbn [String.length]. lia.
  - cbn [encodable] in He. rewrite forallb_forall in He.
    destruct d as [|w d]; [simpl; lia|].
    cbn [size encode_indent]. rewrite !length_append.
    assert (H : Forall (fun kv => size (snd kv)
                                  <= String.length (encode_indent_item i (S level) kv))
                  (w :: d)).
    { rewrite Forall_forall in *. intros x Hx.
      unfold encode_indent_item. rewrite !length_append.
      specialize (IH x Hx (He x Hx) (S level)). lia. }
    pose proof (concat_items_length ("," ++ newline_indent i (S level))
                  (encode_indent_item i (S level)) (w :: d)) as G.
    rewrite length_append in G. cbn [String.length] in G.
    specialize (G ltac:(lia) H).
    change (map (fun kv => encode_str (fst kv) ++ ": "
                             ++ encode_indent i (S level) (snd kv)) (w :: d))
      with (map (encode_indent_item i (S level)) (w :: d)).
    cbn [String.length]. lia.
  - cbn [encodable] in He. rewrite forallb_forall in He.
    destruct l as [|w l]; [simpl; lia|].
    cbn [size encode_indent]. rewrite !length_append.
    assert (H : Forall (fun v => size v
                                 <= String.length (encode_indent i (S level) v))
                  (w :: l)).
    { rewrite Forall_forall in *. intros x Hx. apply IH; auto. }
    pose proof (concat_sep_length ("," ++ newline_indent i (S level))
                  (encode_indent i (S level)) size (w :: l)) as G.
    rewrite length_append in G. cbn [String.length] in G.
    specialize (G ltac:(lia) H). cbn [String.length]. lia.
Qed.

(** [json.loads(json.dumps(v, indent=i))] is [v] with its tuples as
    lists. *)
Lemma loads_encode_indent i v :
  encodable v = true -> Py.wf v -> loads (encode_indent i 0 v) = Ok (decoded v).
Proof.
  intros He Hw. unfold loads.
  pose proof (json_indent_facts.decodes_indent_encodable i v He Hw 0
                (S (String.length (encode_indent i 0 v))) EmptyString) as H.
  rewrite append_nil_r in H. rewrite H.
  - reflexivity.
  - pose proof (size_le_length_indent i v He 0). lia.
  - exact I.
Qed.

Lemma encode_nonempty v :
  encodable v = true -> String.eqb (encode v) EmptyString = false.
Proof.
  intros He. destruct (encode_head v He) as (c & s & E & _). now rewrite E.
Qed.

Lemma encode_indent_nonempty i v :
  encodable v = true -> String.eqb (encode_indent i 0 v) EmptyString = false.
Proof.
  intros He.
  destruct (json_indent_facts.encode_indent_head i 0 v He) as (c & s & E & _).
  now rewrite E.
Qed.

End json_length_facts.

(** deserialize gives the entry under "value" of any object of nulls,
    booleans, integers, strings, lists and objects, as json.dumps writes it
    compactly or with any indentation, whatever else the object holds. *)
Theorem deserialize_reads_value_entry
        (k : ValidationMetricIdentifier) (d : pydict) (v : pyval) (indent : nat) :
  json.native (PyDict d) = true -> Py.wf (PyDict d) ->
  Py.dict_get "value" d = Some v ->
  MetricStore.deserialize k (Some (json.encode (PyDict d))) = Ok v
  /\ MetricStore.deserialize k (Some (json.encode_indent indent 0 (PyDict d))) = Ok v.
Proof.
  intros Hn Hw Hv. pose proof (json_facts.native_encodable _ Hn) as He.
  unfold MetricStore.deserialize. split.
  - rewrite (json_length_facts.encode_nonempty _ He). cbn [negb].
    rewrite (json_facts.loads_encode _ He Hw), (json_facts.decoded_native _ Hn).
    cbn [bind builtins.getitem]. now rewrite Hv.
  - rewrite (json_length_facts.encode_indent_nonempty _ _ He). cbn [negb].
    rewrite (json_length_facts.loads_encode_indent _ _ He Hw),
      (json_facts.decoded_native _ Hn).
    cbn [bind builtins.getitem]. now rewrite Hv.
Qed.

Lemma deserialize_reads_value_entry_witness :
  MetricStore.deserialize (examples.key "mean")
    (Some (json.encode (PyDict more_examples.wide_envelope))) = Ok (PyInt 42)
  /\ MetricStore.deserialize (examples.key "mean")
       (Some (json.encode_indent 4 0 (PyDict more_examples.wide_envelope)))
     = Ok (PyInt 42).
Proof.
  apply (deserialize_reads_value_entry (examples.key "mean")
           more_examples.wide_envelope (PyInt 42) 4).
  - reflexivity.
  - simpl. repeat split; nodup_strings.
  - reflexivity.
Defined.

Lemma dict_get_map_values (h : pyval -> pyval) k d :
  Py.dict_get k (map (fun kv => (fst kv, h (snd kv))) d)
  = option_map h (Py.dict_get k d).
Proof.
  induction d as [|[k0 v0] d IH]; simpl; [reflexivity|].
  destruct (String.eqb k k0); [reflexivity | exact IH].
Qed.

(** deserialize of the JSON text that json.dumps writes for a value of
    None, bools, ints, strs, lists, tuples and dicts that is no envelope
    raises: KeyError for a dict without the key "value", TypeError for a
    value that is no dict. *)
Theorem deserialize_rejects_other_json
        (k : ValidationMetricIdentifier) (v : pyval) :
  json.encodable v = true -> Py.wf v ->
  (forall d, v = PyDict d -> Py.dict_get "value" d = None ->
             MetricStore.deserialize k (Some (json.encode v))
             = Raise (Exn KeyError "'value'"))
  /\ ((forall d, v <> PyDict d) ->
      exists msg, MetricStore.deserialize k (Some (json.encode v))
                  = Raise (Exn TypeError msg)).
Proof.
  intros He Hw. unfold MetricStore.deserialize.
  rewrite (json_length_facts.encode_nonempty _ He). cbn [negb].
  rewrite (json_facts.loads_encode _ He Hw). cbn [bind]. split.
  - intros d -> Hd. cbn [json.decoded builtins.getitem].
    now rewrite dict_get_map_values, Hd.
  - intros Hn. destruct v; try (eexists; reflexivity).
    exfalso. now apply (Hn d).
Qed.

Lemma deserialize_rejects_other_json_witness :
  (forall d, PyDict more_examples.no_envelope = PyDict d ->
             Py.dict_get "value" d = None ->
             MetricStore.deserialize (examples.key "mean")
               (Some (json.encode (PyDict more_examples.no_envelope)))
             = Raise (Exn KeyError "'value'"))
  /\ ((forall d, PyDict more_examples.no_envelope <> PyDict d) ->
      exists msg, MetricStore.deserialize (examples.key "mean")
                    (Some (json.encode (PyDict more_examples.no_envelope)))
                  = Raise (Exn TypeError msg)).
Proof.
  apply (deserialize_rejects_other_json (examples.key "mean")
           (PyDict more_examples.no_envelope)).
  - reflexivity.
  - simpl. repeat split; nodup_strings.
Defined.

(** On values that hold no tuple serialize writes different texts for
    different values, under whatever keys; a tuple and the list of its items
    are written as the same text. *)
Theorem serialize_injective_without_tuples
        (k1 k2 : ValidationMetricIdentifier) (v1 v2 : pyval) (raw1 raw2 : string) :
  Py.wf v1 -> Py.wf v2 ->
  MetricStore.serialize k1 v1 = Ok raw1 -> MetricStore.serialize k2 v2 = Ok raw2 ->
  (json.native v1 = true -> json.native v2 = true -> v1 <> v2 -> raw1 <> raw2)
  /\ (forall l, v1 = PyTuple l -> v2 = PyList l -> raw1 = raw2).
Proof.
  unfold MetricStore.serialize. intros W1 W2 H1 H2. split.
  - intros N1 N2 Hn E. subst raw2.
    assert (Wd : forall v, Py.wf v -> Py.wf (PyDict [("value", v)])).
    { intros v W. simpl. repeat split; try assumption. nodup_strings. }
    apply json_facts.loads_dumps in H1; [|now apply Wd].
    apply json_facts.loads_dumps in H2; [|now apply Wd].
    cbn [json.decoded map fst snd] in H1, H2.
    rewrite (json_facts.decoded_native _ N1) in H1.
    rewrite (json_facts.decoded_native _ N2) in H2.
    congruence.
  - intros l -> ->. unfold json.dumps in *.
    cbn [json.encodable forallb snd andb] in H1, H2.
    destruct (forallb json.encodable l); [|discriminate].
    cbn [andb] in H1, H2. injection H1 as <-. injection H2 as <-.
    reflexivity.
Qed.

Lemma serialize_injective_without_tuples_witness :
  json.encode (PyDict [("value", PyInt 1)])
  <> json.encode (PyDict [("value", PyBool true)]).
Proof.
  apply (proj1 (serialize_injective_without_tuples
                  (examples.key "mean") (examples.key "mean")
                  (PyInt 1) (PyBool true) _ _ I I eq_refl eq_refl));
    try reflexivity.
  discriminate.
Defined.

(** ** Construction *)

Lemma dict_mem_set_same k v d : Py.dict_mem k (Py.dict_set k v d) = true.
Proof. unfold Py.dict_mem. now rewrite dict_get_set_same. Qed.

Lemma dict_mem_set_other k k0 v d :
  k <> k0 -> Py.dict_mem k (Py.dict_set k0 v d) = Py.dict_mem k d.
Proof. intros H. unfold Py.dict_mem. now rewrite dict_get_set_other. Qed.

Lemma dict_get_default_some k v dflt d :
  Py.dict_get k d = Some v -> Py.dict_get_default k dflt d = v.
Proof. unfold Py.dict_get_default. now intros ->. Qed.

Lemma dict_mem_true_get k d :
  Py.dict_mem k d = true -> exists v, Py.dict_get k d = Some v.
Proof.
  unfold Py.dict_mem. destruct (Py.dict_get k d); [eauto | discriminate].
Qed.

(** The mapping after [MetricStore.__init__] over a database backend. *)
Lemma MetricStore_init_database sb name :
  store_aux.resolved_class sb = Ok DatabaseStoreBackend ->
  exists m,
    fst (MetricStore.__init__ (Some sb) name) = Some m
    /\ Py.dict_get "table_name" m
       = Some (Py.dict_get_default "table_name" (PyStr "ge_metrics") sb)
    /\ Py.dict_get "key_columns" m
       = Some (Py.dict_get_default "key_columns" MetricStore.key_columns sb)
    /\ store_aux.resolved_class m = Ok DatabaseStoreBackend.
Proof.
  intros Hc. unfold MetricStore.__init__.
  fold (store_aux.resolved_class sb). rewrite Hc.
  cbn [StoreBackend.is_database fst].
  eexists. split; [reflexivity|].
  set (sb1 := if negb (Py.dict_mem "table_name" sb) then _ else sb).
  assert (H1 : Py.dict_get "table_name" sb1
               = Some (Py.dict_get_default "table_name" (PyStr "ge_metrics") sb)
               /\ Py.dict_get "key_columns" sb1 = Py.dict_get "key_columns" sb
               /\ store_aux.resolved_class sb1 = Ok DatabaseStoreBackend).
  { subst sb1. destruct (Py.dict_mem "table_name" sb) eqn:Hm; cbn [negb].
    - destruct (dict_mem_true_get _ _ Hm) as (v & Hv).
      rewrite (dict_get_default_some _ _ _ _ Hv). auto.
    - rewrite dict_get_set_same, dict_get_set_other by discriminate.
      rewrite resolved_class_set by auto. auto. }
  destruct H1 as (Ht & Hk & Hr).
  destruct (Py.dict_mem "key_columns" sb1) eqn:Hm; cbn [negb].
  - destruct (dict_mem_true_get _ _ Hm) as (v & Hv).
    repeat split; try assumption.
    rewrite Hv. rewrite Hk in Hv.
    now rewrite (dict_get_default_some _ _ _ _ Hv).
  - rewrite dict_get_set_same, dict_get_set_other by discriminate.
    rewrite resolved_class_set by auto.
    repeat split; try assumption.
    unfold Py.dict_get_default. now rewrite Hk.
Qed.

Lemma MetricStore_init_complete m name :
  store_aux.resolved_class m = Ok DatabaseStoreBackend ->
  Py.dict_mem "table_name" m = true -> Py.dict_mem "key_columns" m = true ->
  fst (MetricStore.__init__ (Some m) name) = Some m.
Proof.
  intros Hc Ht Hk. unfold MetricStore.__init__.
  fold (store_aux.resolved_class m). rewrite Hc.
  cbn [StoreBackend.is_database fst]. rewrite Ht. cbn [negb]. now rewrite Hk.
Qed.

Lemma MetricStore_init_other sb name :
  store_aux.resolved_class sb <> Ok DatabaseStoreBackend ->
  fst (MetricStore.__init__ (Some sb) name) = Some sb.
Proof.
  intros Hc. unfold MetricStore.__init__.
  fold (store_aux.resolved_class sb).
  destruct (store_aux.resolved_class sb) as [[]|e]; try reflexivity.
  now contradiction Hc.
Qed.

Lemma get_some_mem k v d : Py.dict_get k d = Some v -> Py.dict_mem k d = true.
Proof. unfold Py.dict_mem. now intros ->. Qed.

Lemma MetricStore_init_twice sb name name' m :
  fst (MetricStore.__init__ (Some sb) name) = Some m ->
  fst (MetricStore.__init__ (Some m) name') = Some m.
Proof.
  intros H.
  destruct (store_aux.resolved_class sb) as [cls|e] eqn:Hc.
  - destruct cls.
    + rewrite MetricStore_init_other in H by congruence.
      injection H as <-. apply MetricStore_init_other. congruence.
    + rewrite MetricStore_init_other in H by congruence.
      injection H as <-. apply MetricStore_init_other. congruence.
    + destruct (MetricStore_init_database sb name Hc) as (m' & E & Ht & Hk & Hr).
      rewrite E in H. injection H as <-.
      apply MetricStore_init_complete;
        [exact Hr | eapply get_some_mem; eassumption
         | eapply get_some_mem; eassumption].
  - rewrite MetricStore_init_other in H by congruence.
    injection H as <-. apply MetricStore_init_other. congruence.
Qed.

(** The mapping after [EvaluationParameterStore.__init__] is the mapping
    after [MetricStore.__init__] on the mapping with its table name set. *)
Lemma EvaluationParameterStore_init_mapping_eq sb name :
  fst (EvaluationParameterStore.__init__ (Some sb) name)
  = match store_aux.resolved_class sb with
    | Ok DatabaseStoreBackend =>
        fst (MetricStore.__init__
               (Some (Py.dict_set "table_name"
                        (Py.dict_get_default "table_name"
                           (PyStr "ge_evaluation_parameters") sb) sb)) name)
    | Ok _ => fst (MetricStore.__init__ (Some sb) name)
    | Raise _ => Some sb
    end.
Proof.
  unfold EvaluationParameterStore.__init__.
  fold (store_aux.resolved_class sb).
  destruct (store_aux.resolved_class sb) as [cls|e]; [|reflexivity].
  destruct cls; cbn [StoreBackend.is_database];
    match goal with
    | |- context [MetricStore.__init__ ?a ?b] =>
        destruct (MetricStore.__init__ a b) as [s2 [st|e]]; reflexivity
    end.
Qed.

Lemma EvaluationParameterStore_init_database sb name :
  store_aux.resolved_class sb = Ok DatabaseStoreBackend ->
  exists m,
    fst (EvaluationParameterStore.__init__ (Some sb) name) = Some m
    /\ Py.dict_get "table_name" m
       = Some (Py.dict_get_default "table_name"
                 (PyStr "ge_evaluation_parameters") sb)
    /\ Py.dict_get "key_columns" m
       = Some (Py.dict_get_default "key_columns" MetricStore.key_columns sb)
    /\ store_aux.resolved_class m = Ok DatabaseStoreBackend.
Proof.
  intros Hc. rewrite EvaluationParameterStore_init_mapping_eq, Hc.
  set (sb1 := Py.dict_set "table_name" _ sb).
  assert (Hc1 : store_aux.resolved_class sb1 = Ok DatabaseStoreBackend).
  { subst sb1. rewrite resolved_class_set; auto. }
  destruct (MetricStore_init_database sb1 name Hc1) as (m & E & Ht & Hk & Hr).
  exists m. repeat split; try assumption.
  - rewrite Ht. subst sb1. unfold Py.dict_get_default at 1.
    now rewrite dict_get_set_same.
  - rewrite Hk. subst sb1. unfold Py.dict_get_default.
    now rewrite dict_get_set_other by discriminate.
Qed.

(** Over a database backend both constructors leave the caller's mapping with
    a table name and key columns: the caller's own when given, otherwise
    ge_metrics for a MetricStore, ge_evaluation_parameters for an
    EvaluationParameterStore, and the six key columns for both. *)
Theorem database_defaults (sb : pydict) (name : option string) :
  store_aux.resolved_class sb = Ok DatabaseStoreBackend ->
  exists m e,
    fst (MetricStore.__init__ (Some sb) name) = Some m
    /\ fst (EvaluationParameterStore.__init__ (Some sb) name) = Some e
    /\ Py.dict_get "table_name" m
       = Some (Py.dict_get_default "table_name" (PyStr "ge_metrics") sb)
    /\ Py.dict_get "table_name" e
       = Some (Py.dict_get_default "table_name"
                 (PyStr "ge_evaluation_parameters") sb)
    /\ Py.dict_get "key_columns" m
       = Some (Py.dict_get_default "key_columns" MetricStore.key_columns sb)
    /\ Py.dict_get "key_columns" e
       = Some (Py.dict_get_default "key_columns" MetricStore.key_columns sb).
Proof.
  intros Hc.
  destruct (MetricStore_init_database sb name Hc) as (m & Em & Ht & Hk & _).
  destruct (EvaluationParameterStore_init_database sb name Hc)
    as (e & Ee & Ht' & Hk' & _).
  exists m, e. auto 10.
Qed.

Lemma database_defaults_witness :
  exists m e,
    fst (MetricStore.__init__ (Some examples.database_config) None) = Some m
    /\ fst (EvaluationParameterStore.__init__ (Some examples.database_config) None)
       = Some e
    /\ Py.dict_get "table_name" m = Some (PyStr "ge_metrics")
    /\ Py.dict_get "table_name" e = Some (PyStr "ge_evaluation_parameters")
    /\ Py.dict_get "key_columns" m = Some MetricStore.key_columns
    /\ Py.dict_get "key_columns" e = Some MetricStore.key_columns.
Proof.
  apply (database_defaults examples.database_config None). reflexivity.
Defined.

(** Constructing a second store from the mapping a first construction left
    changes the mapping no further, for both stores. *)
Theorem construction_idempotent
        (sb : pydict) (name name' : option string) (m e : pydict) :
  fst (MetricStore.__init__ (Some sb) name) = Some m ->
  fst (EvaluationParameterStore.__init__ (Some sb) name) = Some e ->
  fst (MetricStore.__init__ (Some m) name') = Some m
  /\ fst (EvaluationParameterStore.__init__ (Some e) name') = Some e.
Proof.
  intros Hm He. split; [now apply (MetricStore_init_twice sb name)|].
  destruct (store_aux.resolved_class sb) as [cls|x] eqn:Hc.
  - assert (Hdb : cls = DatabaseStoreBackend \/ cls <> DatabaseStoreBackend)
      by (destruct cls; auto; right; discriminate).
    destruct Hdb as [->|Hn].
    + destruct (EvaluationParameterStore_init_database sb name Hc)
        as (e' & E & Ht & Hk & Hr).
      rewrite E in He. injection He as <-.
      rewrite EvaluationParameterStore_init_mapping_eq, Hr.
      rewrite dict_set_same by (unfold Py.dict_get_default; now rewrite Ht).
      apply MetricStore_init_complete;
        [exact Hr | eapply get_some_mem; eassumption
         | eapply get_some_mem; eassumption].
    + rewrite EvaluationParameterStore_init_mapping_eq, Hc in He.
      assert (Hne : store_aux.resolved_class sb <> Ok DatabaseStoreBackend)
        by (rewrite Hc; congruence).
      assert (E : e = sb).
      { destruct cls; try (now contradiction Hn);
          rewrite (MetricStore_init_other sb name Hne) in He; congruence. }
      subst e. rewrite EvaluationParameterStore_init_mapping_eq, Hc.
      destruct cls; try (now contradiction Hn);
        apply MetricStore_init_other; exact Hne.
  - rewrite EvaluationParameterStore_init_mapping_eq, Hc in He.
    injection He as <-.
    now rewrite EvaluationParameterStore_init_mapping_eq, Hc.
Qed.

Lemma construction_idempotent_witness :
  fst (MetricStore.__init__
         (Some (examples.database_config
                  ++ [("table_name", PyStr "ge_metrics");
                      ("key_columns", MetricStore.key_columns)])%list)
         (Some "again"))
  = Some (examples.database_config
            ++ [("table_name", PyStr "ge_metrics");
                ("key_columns", MetricStore.key_columns)])%list
  /\ fst (EvaluationParameterStore.__init__
            (Some (examples.database_config
                     ++ [("table_name", PyStr "ge_evaluation_parameters");
                         ("key_columns", MetricStore.key_columns)])%list)
            (Some "again"))
     = Some (examples.database_config
               ++ [("table_name", PyStr "ge_evaluation_parameters");
                   ("key_columns", MetricStore.key_columns)])%list.
Proof.
  apply (construction_idempotent examples.database_config None (Some "again"));
    reflexivity.
Defined.

(** When the backend class cannot be loaded both constructors raise the
    loader's error, build no store and leave the caller's mapping as it
    was. *)
Theorem construction_failure_keeps_mapping
        (sb : pydict) (name : option string) (e : exn) :
  store_aux.resolved_class sb = Raise e ->
  MetricStore.__init__ (Some sb) name = (Some sb, Raise e)
  /\ EvaluationParameterStore.__init__ (Some sb) name = (Some sb, Raise e).
Proof.
  intros Hc. unfold EvaluationParameterStore.__init__, MetricStore.__init__.
  fold (store_aux.resolved_class sb). rewrite Hc. split; reflexivity.
Qed.

Lemma construction_failure_keeps_mapping_witness :
  MetricStore.__init__ (Some more_examples.unknown_config) None
  = (Some more_examples.unknown_config,
     Raise (Exn ClassInstantiationError "No class named NoSuchBackend"))
  /\ EvaluationParameterStore.__init__ (Some more_examples.unknown_config) None
     = (Some more_examples.unknown_config,
        Raise (Exn ClassInstantiationError "No class named NoSuchBackend")).
Proof.
  apply (construction_failure_keeps_mapping more_examples.unknown_config None).
  reflexivity.
Defined.

(** The configuration record of an EvaluationParameterStore holds the
    backend mapping as construction left it, injected defaults included,
    unless that mapping is empty; the store name unless it is absent or
    empty; and always the module and class names of the store. *)
Theorem config_after_construction
        (sb : pydict) (name : option string) (m : pydict) (self : Store) :
  EvaluationParameterStore.__init__ (Some sb) name = (Some m, Ok self) ->
  Py.dict_get "store_backend" (EvaluationParameterStore.config self)
  = match m with [] => None | _ => Some (PyDict m) end
  /\ Py.dict_get "store_name" (EvaluationParameterStore.config self)
     = match name with
       | Some n => if String.eqb n EmptyString then None else Some (PyStr n)
       | None => None
       end
  /\ Py.dict_get "module_name" (EvaluationParameterStore.config self)
     = Some (PyStr EvaluationParameterStore.module_name)
  /\ Py.dict_get "class_name" (EvaluationParameterStore.config self)
     = Some (PyStr EvaluationParameterStore.class_name).
Proof.
  unfold EvaluationParameterStore.__init__.
  fold (store_aux.resolved_class sb).
  destruct (store_aux.resolved_class sb) as [cls|e]; [|discriminate].
  assert (G : forall sb1,
             match MetricStore.__init__ (Some sb1) name with
             | (sb2, Raise e) => (sb2, Raise e)
             | (sb2, Ok st) =>
                 (sb2,
                  Ok {| _store_backend := _store_backend st;
                        _store_name := _store_name st;
                        _config :=
                          util.filter_properties_dict
                            [("store_backend",
                              EvaluationParameterStore.option_val PyDict sb2);
                             ("store_name",
                              EvaluationParameterStore.option_val PyStr name);
                             ("module_name",
                              PyStr EvaluationParameterStore.module_name);
                             ("class_name",
                              PyStr EvaluationParameterStore.class_name)] |})
             end = (Some m, Ok self) ->
             Py.dict_get "store_backend" (EvaluationParameterStore.config self)
             = match m with [] => None | _ => Some (PyDict m) end
             /\ Py.dict_get "store_name" (EvaluationParameterStore.config self)
                = match name with
                  | Some n => if String.eqb n EmptyString then None
                              else Some (PyStr n)
                  | None => None
                  end
             /\ Py.dict_get "module_name" (EvaluationParameterStore.config self)
                = Some (PyStr EvaluationParameterStore.module_name)
             /\ Py.dict_get "class_name" (EvaluationParameterStore.config self)
                = Some (PyStr EvaluationParameterStore.class_name)).
  { intros sb1 H.
    destruct (MetricStore.__init__ (Some sb1) name) as [s2 [st|e]];
      [|discriminate].
    injection H as -> <-.
    unfold EvaluationParameterStore.config, util.filter_properties_dict.
    cbn [_config].
    destruct m as [|x m']; destruct name as [n|];
      cbn [EvaluationParameterStore.option_val filter snd Py.truthy];
      try (destruct (String.eqb n EmptyString)); cbn [negb];
      repeat split. }
  destruct cls; cbn [StoreBackend.is_database]; apply G.
Qed.

Lemma config_after_construction_witness :
  Py.dict_get "store_backend"
    (EvaluationParameterStore.config more_examples.evaluation_store)
  = Some (PyDict more_examples.evaluation_mapping)
  /\ Py.dict_get "store_name"
       (EvaluationParameterStore.config more_examples.evaluation_store)
     = Some (PyStr "params")
  /\ Py.dict_get "module_name"
       (EvaluationParameterStore.config more_examples.evaluation_store)
     = Some (PyStr EvaluationParameterStore.module_name)
  /\ Py.dict_get "class_name"
       (EvaluationParameterStore.config more_examples.evaluation_store)
     = Some (PyStr EvaluationParameterStore.class_name).
Proof.
  exact (config_after_construction examples.database_config (Some "params")
           more_examples.evaluation_mapping more_examples.evaluation_store
           eq_refl).
Defined.

(** ** get_bind_params *)

Import more_store_aux.

Lemma bind_loop_reads urn self ks vs :
  reads self ks vs ->
  forall acc,
    EvaluationParameterStore.bind_loop urn self (map Key.to_tuple ks) acc
    = Ok (fold_left (fun d kv => Py.dict_set (fst kv) (snd kv) d)
            (combine (map urn ks) vs) acc).
Proof.
  induction 1 as [|k v ks vs Hk _ IH]; intros acc; [reflexivity|].
  cbn [map EvaluationParameterStore.bind_loop combine fold_left fst snd].
  rewrite (tuple_to_key_to_tuple k). cbn [bind]. rewrite Hk. cbn [bind]. apply IH.
Qed.

Lemma bind_loop_raises urn self pre vpre k post e :
  reads self pre vpre -> MetricStore.get k self = Raise e ->
  forall acc,
    EvaluationParameterStore.bind_loop urn self
      (map Key.to_tuple (pre ++ k :: post)) acc = Raise e.
Proof.
  induction 1 as [|k0 v0 pre vpre Hk _ IH]; intros He acc.
  - cbn [List.app map EvaluationParameterStore.bind_loop].
    rewrite (tuple_to_key_to_tuple k). cbn [bind]. now rewrite He.
  - cbn [List.app map EvaluationParameterStore.bind_loop].
    rewrite (tuple_to_key_to_tuple k0). cbn [bind]. rewrite Hk. cbn [bind].
    now apply IH.
Qed.

Lemma reads_length self ks vs : reads self ks vs -> List.length ks = List.length vs.
Proof. induction 1; simpl; congruence. Qed.

Lemma combine_keys {A B} (l : list A) (l' : list B) :
  List.length l = List.length l' -> map fst (combine l l') = l.
Proof.
  revert l'. induction l as [|a l IH]; intros [|b l'] H; try discriminate;
    [reflexivity|].
  simpl. f_equal. apply IH. now injection H.
Qed.

Lemma combine_append {A B} (l1 l2 : list A) (l1' l2' : list B) :
  List.length l1 = List.length l1' ->
  combine (l1 ++ l2) (l1' ++ l2') = (combine l1 l1' ++ combine l2 l2')%list.
Proof.
  revert l1'. induction l1 as [|a l1 IH]; intros [|b l1'] H; try discriminate;
    [reflexivity|].
  simpl. f_equal. apply IH. now injection H.
Qed.

Lemma dict_set_length k v d :
  List.length (Py.dict_set k v d) <= S (List.length d).
Proof.
  induction d as [|[k0 v0] d IH]; simpl; [lia|].
  destruct (String.eqb k k0); simpl; lia.
Qed.

Lemma fold_set_length outs :
  forall acc,
    List.length (fold_left (fun d kv => Py.dict_set (fst kv) (snd kv) d) outs acc)
    <= List.length acc + List.length outs.
Proof.
  induction outs as [|kv outs IH]; intros acc; cbn [fold_left List.length]; [lia|].
  specialize (IH (Py.dict_set (fst kv) (snd kv) acc)).
  pose proof (dict_set_length (fst kv) (snd kv) acc). lia.
Qed.

(** Over any number of keys with distinct URNs get_bind_params returns one
    entry per key, in the order of the backend: the URN of the key bound to
    the value read under it. *)
Theorem get_bind_params_distinct_urns
        (urn : ValidationMetricIdentifier -> string) (self : Store)
        (run : RunIdentifier) (ks : list ValidationMetricIdentifier)
        (vs : list pyval) :
  StoreBackend.list_keys (Key.run_to_tuple run) (_store_backend self)
  = map Key.to_tuple ks ->
  reads self ks vs ->
  NoDup (map urn ks) ->
  EvaluationParameterStore.get_bind_params urn self run
  = Ok (combine (map urn ks) vs).
Proof.
  intros Hk Hr Hn. unfold EvaluationParameterStore.get_bind_params.
  rewrite Hk, (bind_loop_reads urn self ks vs Hr). f_equal.
  apply json_facts.dict_of_pairs_nodup.
  rewrite combine_keys; [exact Hn|].
  rewrite length_map. now apply (reads_length self).
Qed.

Lemma get_bind_params_distinct_urns_witness :
  EvaluationParameterStore.get_bind_params examples.urn examples.two_key_store
    examples.run
  = Ok (combine (map examples.urn [examples.key "mean"; examples.key "max"])
          [PyInt 5; PyList [PyInt 9; PyStr "x"]]).
Proof.
  apply (get_bind_params_distinct_urns examples.urn examples.two_key_store
           examples.run [examples.key "mean"; examples.key "max"]).
  - reflexivity.
  - repeat constructor.
  - simpl. nodup_strings.
Defined.

(** When several keys of the run have one URN, the result has one entry for
    it, bound to the value of the last such key; the result never has more
    entries than the run has keys. *)
Theorem get_bind_params_last_key_wins
        (urn : ValidationMetricIdentifier -> string) (self : Store)
        (run : RunIdentifier)
        (pre post : list ValidationMetricIdentifier) (k : ValidationMetricIdentifier)
        (vpre vpost : list pyval) (v : pyval) :
  StoreBackend.list_keys (Key.run_to_tuple run) (_store_backend self)
  = map Key.to_tuple (pre ++ k :: post) ->
  reads self pre vpre -> MetricStore.get k self = Ok v -> reads self post vpost ->
  ~ In (urn k) (map urn post) ->
  exists params,
    EvaluationParameterStore.get_bind_params urn self run = Ok params
    /\ Py.dict_get (urn k) params = Some v
    /\ List.length params <= List.length (pre ++ k :: post).
Proof.
  intros Hk Hpre Hv Hpost Hn.
  assert (Hr : reads self (pre ++ k :: post) (vpre ++ v :: vpost)).
  { apply Forall2_app; [exact Hpre | constructor; assumption]. }
  unfold EvaluationParameterStore.get_bind_params.
  rewrite Hk, (bind_loop_reads urn self _ _ Hr).
  eexists. split; [reflexivity|]. split.
  - rewrite map_app. cbn [map].
    rewrite combine_append by (rewrite length_map; now apply (reads_length self)).
    cbn [combine]. rewrite fold_left_app. cbn [fold_left fst snd].
    rewrite dict_get_fold_other.
    + apply dict_get_set_same.
    + rewrite combine_keys; [exact Hn|].
      rewrite length_map. now apply (reads_length self).
  - pose proof (fold_set_length (combine (map urn (pre ++ k :: post))
                                   (vpre ++ v :: vpost)) []) as L.
    rewrite length_combine, length_map in L. cbn [List.length] in L. lia.
Qed.

Lemma get_bind_params_last_key_wins_witness :
  exists params,
    EvaluationParameterStore.get_bind_params examples.urn
      more_examples.clash_store examples.run = Ok params
    /\ Py.dict_get (examples.urn more_examples.height_key) params = Some (PyInt 7)
    /\ List.length params
       <= List.length ([examples.key "mean"] ++ more_examples.height_key :: []).
Proof.
  apply (get_bind_params_last_key_wins examples.urn more_examples.clash_store
           examples.run [examples.key "mean"] [] more_examples.height_key
           [PyInt 5] []).
  - reflexivity.
  - repeat constructor.
  - reflexivity.
  - constructor.
  - simpl. tauto.
Defined.

(** When reading one of the keys of the run raises, get_bind_params raises
    that error and returns no mapping, whatever was read before. *)
Theorem get_bind_params_propagates_error
        (urn : ValidationMetricIdentifier -> string) (self : Store)
        (run : RunIdentifier)
        (pre post : list ValidationMetricIdentifier) (k : ValidationMetricIdentifier)
        (vpre : list pyval) (e : exn) :
  StoreBackend.list_keys (Key.run_to_tuple run) (_store_backend self)
  = map Key.to_tuple (pre ++ k :: post) ->
  reads self pre vpre -> MetricStore.get k self = Raise e ->
  EvaluationParameterStore.get_bind_params urn self run = Raise e.
Proof.
  intros Hk Hpre He. unfold EvaluationParameterStore.get_bind_params.
  rewrite Hk. now apply (bind_loop_raises urn self pre vpre).
Qed.

Lemma get_bind_params_propagates_error_witness :
  EvaluationParameterStore.get_bind_params examples.urn
    more_examples.broken_store examples.run
  = Raise json.decode_error.
Proof.
  apply (get_bind_params_propagates_error examples.urn more_examples.broken_store
           examples.run [examples.key "mean"] [] (examples.key "max") [PyInt 5]).
  - reflexivity.
  - repeat constructor.
  - reflexivity.
Defined.

(** * Further properties of domain.py *)

Import contents_aux more_domain_aux.

(** ** Construction *)

Lemma metric_of_value_some s t : Metric.of_value s = Some t -> s = Metric.value t.
Proof.
  unfold Metric.of_value. intros H. apply find_some in H.
  destruct H as [_ H]. apply String.eqb_eq in H. now symmetry.
Qed.

(** Construction succeeds exactly for a member of MetricDomainTypes and for
    a str that is the value of a member, and the Domain then holds that
    member. *)
Theorem init_succeeds_iff_member_or_value
        (rn : string) (v : pyval) (kw det : option pydict) :
  (forall d, Domain.__init__ rn v kw det = Ok d ->
             v = PyMetricType (Domain.domain_type d)
             \/ v = PyStr (Metric.value (Domain.domain_type d)))
  /\ (forall t, v = PyMetricType t \/ v = PyStr (Metric.value t) ->
                exists d, Domain.__init__ rn v kw det = Ok d
                          /\ Domain.domain_type d = t).
Proof.
  split.
  - intros d H. unfold Domain.__init__ in H. destruct v; try discriminate.
    + unfold Domain.coerce_str, builtins.MetricDomainTypes_call in H.
      destruct (Metric.of_value s) as [t|] eqn:E; [|discriminate].
      cbn [bind] in H. injection H as <-. cbn [Domain.domain_type].
      right. f_equal. now apply metric_of_value_some.
    + cbn [bind] in H. injection H as <-. now left.
  - intros t [->| ->]; unfold Domain.__init__.
    + eexists. split; reflexivity.
    + unfold Domain.coerce_str, builtins.MetricDomainTypes_call.
      rewrite metric_of_value_value. eexists. split; reflexivity.
Qed.

Lemma init_succeeds_iff_member_or_value_witness :
  exists d, Domain.__init__ "r1" (PyStr "multicolumn") None None = Ok d
            /\ Domain.domain_type d = MULTICOLUMN.
Proof.
  apply (proj2 (init_succeeds_iff_member_or_value "r1" (PyStr "multicolumn")
                  None None) MULTICOLUMN).
  now right.
Defined.

(** *** The kwargs a Domain keeps *)

Lemma filter_length_eq {A} (p : A -> bool) l :
  List.length (filter p l) = List.length l -> filter p l = l.
Proof.
  induction l as [|a l IH]; [reflexivity|]. cbn [filter].
  destruct (p a); cbn [List.length]; intros H.
  - f_equal. apply IH. lia.
  - pose proof (filter_length_le p l). lia.
Qed.

Lemma map_fixed {A} (g : A -> A) l : map g l = l -> Forall (fun x => g x = x) l.
Proof.
  induction l as [|a l IH]; intros H; constructor.
  - now injection H.
  - apply IH. now injection H.
Qed.

Lemma map_fixed_id {A} (g : A -> A) l : Forall (fun x => g x = x) l -> map g l = l.
Proof. induction 1; simpl; congruence. Qed.

Lemma filter_twice {A} (p : A -> bool) l : filter p (filter p l) = filter p l.
Proof.
  induction l as [|a l IH]; [reflexivity|]. cbn [filter].
  destruct (p a) eqn:E; [|exact IH]. cbn [filter]. now rewrite E, IH.
Qed.

Lemma deep_filter_idempotent v :
  util.deep_filter_properties_iterable (util.deep_filter_properties_iterable v)
  = util.deep_filter_properties_iterable v.
Proof.
  induction v as [|x|z|s|l IH|d IH|t|t|x|l IH] using pyval_ind; try reflexivity.
  3: { cbn [util.deep_filter_properties_iterable]. f_equal.
       rewrite map_fixed_id; [apply filter_twice|].
       apply Forall_forall. intros y Hy. apply filter_In in Hy.
       destruct Hy as [Hy _]. apply in_map_iff in Hy. destruct Hy as (u & <- & Hu).
       rewrite Forall_forall in IH. now apply IH. }
  - cbn [util.deep_filter_properties_iterable]. f_equal.
    rewrite map_fixed_id; [apply filter_twice|].
    apply Forall_forall. intros y Hy. apply filter_In in Hy.
    destruct Hy as [Hy _]. apply in_map_iff in Hy. destruct Hy as (u & <- & Hu).
    rewrite Forall_forall in IH. now apply IH.
  - cbn [util.deep_filter_properties_iterable]. f_equal.
    rewrite map_fixed_id; [apply filter_twice|].
    apply Forall_forall. intros y Hy. apply filter_In in Hy.
    destruct Hy as [Hy _]. apply in_map_iff in Hy. destruct Hy as (u & <- & Hu).
    cbn [fst snd]. rewrite Forall_forall in IH. now rewrite (IH u Hu).
Qed.

Lemma clean_dict_values d :
  util.deep_filter_properties_iterable (PyDict d) = PyDict d ->
  Forall (fun kv => util.deep_filter_properties_iterable (snd kv) = snd kv) d.
Proof.
  cbn [util.deep_filter_properties_iterable]. intros H. injection H as H.
  set (g := fun kv : string * pyval =>
              (fst kv, util.deep_filter_properties_iterable (snd kv))) in *.
  assert (E : map g d = d).
  { rewrite <- H at 2. symmetry. apply filter_length_eq.
    rewrite H. now rewrite length_map. }
  apply map_fixed in E. rewrite Forall_forall in *. intros kv Hkv.
  specialize (E kv Hkv). subst g. cbv beta in E.
  destruct kv as [k x]. cbn [fst snd] in *. congruence.
Qed.

(** On a cleaned value the recursion of the constructor changes nothing,
    however deep it is allowed to go. *)
Lemma convert_clean f :
  forall v, util.deep_filter_properties_iterable v = v ->
            Domain._convert_dictionaries_to_domain_kwargs f v = v.
Proof.
  induction f as [|f IH]; intros v Hv; [reflexivity|].
  destruct v; try reflexivity.
  cbn [Domain._convert_dictionaries_to_domain_kwargs]. rewrite Hv. f_equal.
  apply map_fixed_id. pose proof (clean_dict_values d Hv) as Hc.
  rewrite Forall_forall in *. intros [k x] Hx. cbn [fst snd].
  f_equal. apply IH. exact (Hc (k, x) Hx).
Qed.

Lemma convert_is_deep_filter f d :
  Domain._convert_dictionaries_to_domain_kwargs (S f) (PyDict d)
  = util.deep_filter_properties_iterable (PyDict d).
Proof.
  pose proof (deep_filter_idempotent (PyDict d)) as Hi.
  cbn [Domain._convert_dictionaries_to_domain_kwargs].
  destruct (util.deep_filter_properties_iterable (PyDict d)) eqn:E;
    try reflexivity.
  f_equal. apply map_fixed_id. pose proof (clean_dict_values d0 Hi) as Hc.
  rewrite Forall_forall in *. intros [k x] Hx. cbn [fst snd].
  f_equal. apply convert_clean. exact (Hc (k, x) Hx).
Qed.

(** The kwargs a constructed Domain holds are the kwargs it was given after
    one deep cleaning; the level-by-level recursion of the constructor, and
    the bound on its depth, change nothing more; cleaning what it holds again
    changes nothing. *)
Theorem init_keeps_cleaned_kwargs
        (rn : string) (v : pyval) (kw : pydict) (det : option pydict) (d : Domain.t) :
  Domain.__init__ rn v (Some kw) det = Ok d ->
  PyDict (Domain.domain_kwargs d) = util.deep_filter_properties_iterable (PyDict kw)
  /\ (forall fuel,
         Domain._convert_dictionaries_to_domain_kwargs fuel
           (PyDict (Domain.domain_kwargs d))
         = PyDict (Domain.domain_kwargs d)).
Proof.
  intros H. destruct (init_fields _ _ _ _ _ H) as (_ & _ & Ek).
  rewrite convert_is_deep_filter in Ek. split; [exact Ek|].
  intros fuel. apply convert_clean. rewrite Ek. apply deep_filter_idempotent.
Qed.

Lemma init_keeps_cleaned_kwargs_witness :
  PyDict [("column", PyStr "age");
          ("batch", PyDict [("id", PyInt 0); ("parts", PyList [PyInt 1])])]
  = util.deep_filter_properties_iterable (PyDict sparse_kwargs)
  /\ (forall fuel,
         Domain._convert_dictionaries_to_domain_kwargs fuel
           (PyDict [("column", PyStr "age");
                    ("batch", PyDict [("id", PyInt 0);
                                      ("parts", PyList [PyInt 1])])])
         = PyDict [("column", PyStr "age");
                   ("batch", PyDict [("id", PyInt 0);
                                     ("parts", PyList [PyInt 1])])]).
Proof.
  exact (init_keeps_cleaned_kwargs "r1" (PyStr "column") sparse_kwargs None
           {| Domain.rule_name := "r1"; Domain.domain_type := COLUMN;
              Domain.domain_kwargs :=
                [("column", PyStr "age");
                 ("batch", PyDict [("id", PyInt 0); ("parts", PyList [PyInt 1])])];
              Domain.details := [] |} eq_refl).
Defined.

(** ** The loop of to_json_dict *)

Lemma details_loop_cons kv items acc :
  Domain.details_loop (kv :: items) acc
  = (o <- domain_aux.json_entry kv ;;
     Domain.details_loop items (Py.dict_set (fst o) (snd o) acc)).
Proof.
  destruct kv as [key value]. unfold domain_aux.json_entry.
  cbn [Domain.details_loop fst snd].
  destruct (if Py.truthy value
            then if String.eqb key INFERRED_SEMANTIC_TYPE_KEY
                 then Domain.normalize_types value else Ok value
            else Ok value) as [value1|e]; [|reflexivity].
  cbn [bind]. destruct (util.convert_to_json_serializable value1); reflexivity.
Qed.

Lemma details_loop_raises pre x post e :
  plain_entries pre -> domain_aux.json_entry x = Raise e ->
  forall acc, Domain.details_loop (pre ++ x :: post)%list acc = Raise e.
Proof.
  intros Hp Hx. induction Hp as [|kv pre [Hk He] _ IH]; intros acc.
  - cbn [List.app]. now rewrite details_loop_cons, Hx.
  - cbn [List.app]. rewrite details_loop_cons, (encodable_entry kv Hk He).
    cbn [bind]. apply IH.
Qed.

Lemma mapM_raises {A B} (f : A -> result B) pre x post e :
  Forall (fun a => exists b, f a = Ok b) pre -> f x = Raise e ->
  mapM f (pre ++ x :: post)%list = Raise e.
Proof.
  intros Hp Hx. induction Hp as [|a pre [b Hb] _ IH]; cbn [List.app mapM].
  - now rewrite Hx.
  - now rewrite Hb, IH.
Qed.

Lemma to_json_dict_loop_raises self e :
  Domain.details_loop (Domain.details self) [] = Raise e ->
  Domain.to_json_dict self = Raise e.
Proof. intros H. unfold Domain.to_json_dict. now rewrite H. Qed.

Lemma str_raises self e :
  Domain.to_json_dict self = Raise e -> Domain.__str__ self = Raise e.
Proof. intros H. unfold Domain.__str__, Domain.__repr__. now rewrite H. Qed.

(** A string under the reserved key of the details that is no value of
    SemanticDomainTypes, in any case, is accepted by the constructor; it is
    to_json_dict, and with it the string form, that raises the ValueError of
    the Enum lookup, naming the lower-cased text. *)
Theorem unknown_semantic_type_raises_on_conversion
        (rn : string) (t : MetricDomainTypes) (kw : option pydict)
        (pre post mpre mpost : pydict) (col s : string) :
  plain_entries pre -> known_types mpre ->
  Semantic.of_value (builtins.lower s) = None ->
  exists d,
    Domain.__init__ rn (PyMetricType t) kw
      (Some (pre ++ (INFERRED_SEMANTIC_TYPE_KEY,
                     PyDict (mpre ++ (col, PyStr s) :: mpost)) :: post)%list)
    = Ok d
    /\ Domain.to_json_dict d = Raise (not_a_semantic_type (builtins.lower s))
    /\ Domain.__str__ d = Raise (not_a_semantic_type (builtins.lower s)).
Proof.
  intros Hp Hm Hs. eexists. split; [reflexivity|].
  assert (H : forall self,
             Domain.details self
             = (pre ++ (INFERRED_SEMANTIC_TYPE_KEY,
                        PyDict (mpre ++ (col, PyStr s) :: mpost)) :: post)%list ->
             Domain.to_json_dict self
             = Raise (not_a_semantic_type (builtins.lower s))).
  { intros self E. apply to_json_dict_loop_raises. rewrite E.
    apply details_loop_raises; [exact Hp|].
    unfold domain_aux.json_entry. cbn [fst snd]. rewrite String.eqb_refl.
    assert (Ht : Py.truthy (PyDict (mpre ++ (col, PyStr s) :: mpost)%list) = true)
      by (destruct mpre; reflexivity).
    rewrite Ht. unfold Domain.normalize_types.
    rewrite (mapM_raises _ mpre (col, PyStr s) mpost
               (not_a_semantic_type (builtins.lower s))); [reflexivity| |].
    - eapply Forall_impl; [|exact Hm]. intros kv Hkv. cbv beta in Hkv.
      destruct (domain_aux.semantic_type_of (snd kv)) as [ty|] eqn:E';
        [|congruence].
      eexists. now rewrite (normalize_type_ok _ _ E').
    - cbn [snd Domain.normalize_type].
      unfold builtins.SemanticDomainTypes_call. now rewrite Hs. }
  split; [|apply str_raises]; apply H; reflexivity.
Qed.

Lemma unknown_semantic_type_raises_on_conversion_witness :
  exists d,
    Domain.__init__ "r1" (PyMetricType TABLE) None
      (Some more_examples.bad_details) = Ok d
    /\ Domain.to_json_dict d = Raise (not_a_semantic_type "number")
    /\ Domain.__str__ d = Raise (not_a_semantic_type "number").
Proof.
  apply (unknown_semantic_type_raises_on_conversion "r1" TABLE None
           [("note", PyStr "profiled")] []
           [("id", PySemanticType IDENTIFIER)] [] "age" "Number").
  - repeat constructor. cbn [fst]. discriminate.
  - repeat constructor. cbn [snd domain_aux.semantic_type_of]. discriminate.
  - reflexivity.
Defined.

(** A truthy value under the reserved key that is not a dict is accepted by
    the constructor as well; to_json_dict and the string form then raise an
    AttributeError, for the missing items(). *)
Theorem non_dict_semantic_types_raise_on_conversion
        (rn : string) (t : MetricDomainTypes) (kw : option pydict)
        (pre post : pydict) (v : pyval) :
  plain_entries pre -> Py.truthy v = true -> (forall m, v <> PyDict m) ->
  exists d e,
    Domain.__init__ rn (PyMetricType t) kw
      (Some (pre ++ (INFERRED_SEMANTIC_TYPE_KEY, v) :: post)%list) = Ok d
    /\ exn_kind e = AttributeError
    /\ Domain.to_json_dict d = Raise e
    /\ Domain.__str__ d = Raise e.
Proof.
  intros Hp Ht Hv. eexists.
  exists (Exn AttributeError (builtins.type_str v ++ " has no attribute 'items'")).
  split; [reflexivity|]. split; [reflexivity|].
  assert (H : forall self,
             Domain.details self = (pre ++ (INFERRED_SEMANTIC_TYPE_KEY, v) :: post)%list ->
             Domain.to_json_dict self
             = Raise (Exn AttributeError
                        (builtins.type_str v ++ " has no attribute 'items'"))).
  { intros self E. apply to_json_dict_loop_raises. rewrite E.
    apply details_loop_raises; [exact Hp|].
    unfold domain_aux.json_entry. cbn [fst snd].
    rewrite String.eqb_refl, Ht.
    destruct v; try reflexivity. now elim (Hv d). }
  split; [|apply str_raises]; apply H; reflexivity.
Qed.

Lemma non_dict_semantic_types_raise_on_conversion_witness :
  exists d e,
    Domain.__init__ "r1" (PyMetricType TABLE) None
      (Some more_examples.list_details) = Ok d
    /\ exn_kind e = AttributeError
    /\ Domain.to_json_dict d = Raise e
    /\ Domain.__str__ d = Raise e.
Proof.
  apply (non_dict_semantic_types_raise_on_conversion "r1" TABLE None [] []
           (PyList [PyStr "numeric"])).
  - constructor.
  - reflexivity.
  - discriminate.
Defined.

(** ** The string form *)

Lemma to_json_dict_encodable self j :
  Domain.to_json_dict self = Ok j -> json.encodable (PyDict j) = true.
Proof.
  intros Hj. destruct (to_json_dict_inv _ _ Hj) as (det & Hloop & Hk & ->).
  apply json_shape_encodable; [exact Hk|].
  now apply (details_loop_encodable _ _ _ Hloop).
Qed.

Lemma str_of_json self j :
  Domain.to_json_dict self = Ok j ->
  Domain.__str__ self = Ok (json.encode_indent 2 0 (PyDict j)).
Proof.
  intros Hj. unfold Domain.__str__, Domain.__repr__, json.dumps_indent.
  rewrite Hj. cbn [bind]. now rewrite (to_json_dict_encodable _ _ Hj).
Qed.

(** The string form of a Domain is JSON text, the same from repr and str,
    and json.loads reads the canonical JSON back from it. *)
Theorem str_parses_back_to_json (self : Domain.t) (j : pydict) :
  domain_aux.wf_domain self -> Domain.to_json_dict self = Ok j ->
  exists s, Domain.__str__ self = Ok s
            /\ Domain.__repr__ self = Ok s
            /\ json.loads s = Ok (PyDict j).
Proof.
  intros Hw Hj. exists (json.encode_indent 2 0 (PyDict j)).
  split; [now apply str_of_json|]. split; [now apply str_of_json|].
  rewrite json_length_facts.loads_encode_indent.
  - now rewrite (json_facts.decoded_native _ (to_json_dict_native _ _ Hj)).
  - now apply (to_json_dict_encodable self).
  - now apply (to_json_dict_wf self).
Qed.

Lemma str_parses_back_to_json_witness :
  exists s, Domain.__str__ examples.typed_domain = Ok s
            /\ Domain.__repr__ examples.typed_domain = Ok s
            /\ json.loads s
               = Ok (PyDict [("rule_name", PyStr "r1");
                             ("domain_type", PyStr "column");
                             ("domain_kwargs", PyDict [("column", PyStr "age")]);
                             ("details",
                              PyDict [(INFERRED_SEMANTIC_TYPE_KEY,
                                       PyDict [("age", PyStr "numeric")])])]).
Proof.
  apply str_parses_back_to_json.
  - split; apply wf_dict; (split; [simpl; nodup_strings|]);
      repeat constructor; simpl; auto using NoDup_nil.
  - reflexivity.
Defined.

(** ** Equality *)

Lemma domain_type_in_shape self det :
  In ("domain_type", PyStr (Metric.value (Domain.domain_type self)))
     (domain_aux.json_shape self det).
Proof.
  unfold domain_aux.json_shape. apply in_or_app. right.
  apply in_or_app. left. now left.
Qed.

(** Against a Domain the comparison of the mappings never holds: the entry
    of the Domain is the member, that of the canonical JSON its value. *)
Lemma eq_mapping_domain_false a b ja :
  Domain.to_json_dict a = Ok ja ->
  Domain.eq_mapping a (Domain.ObjDomain b) = Ok false.
Proof.
  intros Ha. unfold Domain.eq_mapping. cbn [Domain.is_dict]. rewrite Ha.
  cbn [bind]. f_equal. apply not_true_is_false. intros H.
  apply eqb_dict in H. destruct H as [_ H]. rewrite Forall_forall in H.
  destruct (to_json_dict_inv _ _ Ha) as (det & _ & _ & ->).
  specialize (H ("domain_type", PyStr (Metric.value (Domain.domain_type a)))).
  destruct H as (q & Hq & Hqe).
  - unfold util.filter_properties_dict. apply filter_In. split.
    + apply domain_type_in_shape.
    + apply metric_value_truthy.
  - cbn [fst] in Hq. unfold util.filter_properties_dict, Domain.as_dict in Hq.
    cbn [filter snd Py.truthy] in Hq.
    destruct (negb (String.eqb (Domain.rule_name b) EmptyString));
      destruct (Domain.domain_kwargs b); destruct (Domain.details b);
      cbn in Hq; injection Hq as <-; discriminate.
Qed.

Lemma eq_json_domains a b ja jb :
  Domain.to_json_dict a = Ok ja -> Domain.to_json_dict b = Ok jb ->
  Domain.eq_json a (Domain.ObjDomain b) = Ok (Py.eqb (PyDict ja) (PyDict jb)).
Proof.
  intros Ha Hb. unfold Domain.eq_json.
  cbn [Domain.has_to_json_dict Domain.other_to_json_dict]. now rewrite Ha, Hb.
Qed.

(** Two Domains are equal exactly when both have a canonical JSON and the
    two are equal as dicts; the comparison of the mappings and that of the
    string forms add nothing. *)
Theorem eq_of_domains_is_eq_of_json (a b : Domain.t) :
  domain_aux.wf_domain a -> domain_aux.wf_domain b ->
  (Domain.__eq__ a (Domain.ObjDomain b) = Ok true <->
   exists ja jb, Domain.to_json_dict a = Ok ja
                 /\ Domain.to_json_dict b = Ok jb
                 /\ Py.eqb (PyDict ja) (PyDict jb) = true).
Proof.
  intros Hwa Hwb. rewrite eq_short_circuit. split.
  - intros [_ H].
    assert (Hj : Domain.eq_json a (Domain.ObjDomain b) = Ok true).
    { destruct H as [H|[[H1 H2]|(H1 & H2 & H3)]]; [exact H| |].
      - exfalso. unfold Domain.eq_json in H1.
        cbn [Domain.has_to_json_dict] in H1.
        destruct (Domain.to_json_dict a) as [ja|e] eqn:Ha; [|discriminate].
        rewrite (eq_mapping_domain_false a b ja Ha) in H2. discriminate.
      - now apply eq_str_domain_json. }
    unfold Domain.eq_json in Hj.
    cbn [Domain.has_to_json_dict Domain.other_to_json_dict] in Hj.
    destruct (Domain.to_json_dict a) as [ja|e]; [|discriminate].
    destruct (Domain.to_json_dict b) as [jb|e]; [|discriminate].
    cbn [bind] in Hj. exists ja, jb. repeat split. congruence.
  - intros (ja & jb & Ha & Hb & He). split; [discriminate|]. left.
    now rewrite (eq_json_domains a b ja jb Ha Hb), He.
Qed.

Lemma eq_of_domains_is_eq_of_json_witness :
  Domain.__eq__ examples.typed_domain (Domain.ObjDomain examples.typed_domain)
  = Ok true <->
  exists ja jb, Domain.to_json_dict examples.typed_domain = Ok ja
                /\ Domain.to_json_dict examples.typed_domain = Ok jb
                /\ Py.eqb (PyDict ja) (PyDict jb) = true.
Proof.
  assert (Hw : domain_aux.wf_domain examples.typed_domain).
  { split; apply wf_dict; (split; [simpl; nodup_strings|]);
      repeat constructor; simpl; auto using NoDup_nil. }
  exact (eq_of_domains_is_eq_of_json examples.typed_domain examples.typed_domain
           Hw Hw).
Defined.

Lemma filter_properties_wf j :
  Py.wf (PyDict j) -> Py.wf (PyDict (util.filter_properties_dict j)).
Proof.
  rewrite !wf_dict. intros [Hn Hv]. unfold util.filter_properties_dict. split.
  - now apply nodup_filter_keys.
  - apply Forall_forall. intros kv Hkv. apply filter_In in Hkv.
    rewrite Forall_forall in Hv. now apply Hv.
Qed.

Lemma eq_json_value self v : Domain.eq_json self (Domain.ObjVal v) = Ok false.
Proof. reflexivity. Qed.

Lemma eq_mapping_own_json self j :
  domain_aux.wf_domain self -> Domain.to_json_dict self = Ok j ->
  Domain.eq_mapping self (Domain.ObjVal (PyDict j)) = Ok true.
Proof.
  intros Hw Hj. unfold Domain.eq_mapping. cbn [Domain.is_dict Domain.as_dict].
  rewrite Hj. cbn [bind]. f_equal. apply eqb_refl, filter_properties_wf.
  now apply (to_json_dict_wf self).
Qed.

(** A Domain that has a canonical JSON equals itself, is not unequal to
    itself, and equals the plain dict that is its canonical JSON. *)
Theorem eq_reflexive_and_own_json (self : Domain.t) (j : pydict) :
  domain_aux.wf_domain self -> Domain.to_json_dict self = Ok j ->
  Domain.__eq__ self (Domain.ObjDomain self) = Ok true
  /\ Domain.__ne__ self (Domain.ObjDomain self) = Ok false
  /\ Domain.__eq__ self (Domain.ObjVal (PyDict j)) = Ok true.
Proof.
  intros Hw Hj.
  assert (Hr : Domain.__eq__ self (Domain.ObjDomain self) = Ok true).
  { apply eq_short_circuit. split; [discriminate|]. left.
    rewrite (eq_json_domains self self j j Hj Hj). f_equal.
    apply eqb_refl. now apply (to_json_dict_wf self). }
  split; [exact Hr|]. split.
  - unfold Domain.__ne__. now rewrite Hr.
  - apply eq_short_circuit. split; [discriminate|]. right. left.
    split; [reflexivity|]. now apply eq_mapping_own_json.
Qed.

Lemma eq_reflexive_and_own_json_witness :
  Domain.__eq__ examples.column_domain (Domain.ObjDomain examples.column_domain)
  = Ok true
  /\ Domain.__ne__ examples.column_domain (Domain.ObjDomain examples.column_domain)
     = Ok false
  /\ Domain.__eq__ examples.column_domain (Domain.ObjVal (PyDict column_json))
     = Ok true.
Proof.
  apply eq_reflexive_and_own_json.
  - split; apply wf_dict; (split; [simpl; nodup_strings|]);
      repeat constructor; simpl; auto using NoDup_nil.
  - reflexivity.
Defined.

Lemma eq_str_mapping_value self m :
  Domain.eq_str self (Domain.ObjVal (PyDict m))
  = (s <- Domain.__str__ self ;; Ok false).
Proof.
  pose proof (eq_str_mapping self m) as H. unfold Domain.eq_str in *.
  cbn [Domain.str_of] in *.
  destruct (Domain.__str__ self) as [s|e]; [|reflexivity]. cbn [bind] in *.
  destruct (String.eqb s (builtins.str (PyDict m))); [now elim H | reflexivity].
Qed.

(** Against a plain dict the outcome depends on the truthy entries of the
    dict only. *)
Lemma eq_mapping_filtered (self : Domain.t) (m m' : pydict) :
  util.filter_properties_dict m = util.filter_properties_dict m' ->
  Domain.__eq__ self (Domain.ObjVal (PyDict m))
  = Domain.__eq__ self (Domain.ObjVal (PyDict m')).
Proof.
  intros H. unfold Domain.__eq__. rewrite !eq_json_value. cbn [bind].
  assert (E : Domain.eq_mapping self (Domain.ObjVal (PyDict m))
              = Domain.eq_mapping self (Domain.ObjVal (PyDict m'))).
  { unfold Domain.eq_mapping. cbn [Domain.is_dict Domain.as_dict].
    now rewrite H. }
  rewrite E, !eq_str_mapping_value. reflexivity.
Qed.

(** Against a plain dict an entry of the dict that is None or an empty str,
    list, tuple or dict does not count: wherever it stands, the outcome is
    that for the dict without it. *)
Theorem eq_ignores_null_and_empty_entries
        (self : Domain.t) (pre post : pydict) (k : string) (v : pyval) :
  util.null_or_empty v = true \/ v = PyStr EmptyString ->
  Domain.__eq__ self (Domain.ObjVal (PyDict (pre ++ (k, v) :: post)%list))
  = Domain.__eq__ self (Domain.ObjVal (PyDict (pre ++ post)%list)).
Proof.
  intros Hv. apply eq_mapping_filtered. unfold util.filter_properties_dict.
  rewrite !filter_app. cbn [filter snd].
  assert (E : Py.truthy v = false).
  { destruct Hv as [Hv| ->]; [|reflexivity].
    destruct v as [|x|z|s|[|p l]|[|kv d]|t|t|x|[|p l]];
      try discriminate; reflexivity. }
  now rewrite E.
Qed.

Lemma eq_ignores_null_and_empty_entries_witness :
  Domain.__eq__ examples.column_domain
    (Domain.ObjVal
       (PyDict [("rule_name", PyStr "r1"); ("details", PyDict []);
                ("domain_type", PyStr "column");
                ("domain_kwargs", PyDict [("column", PyStr "age")])]))
  = Domain.__eq__ examples.column_domain (Domain.ObjVal (PyDict column_json)).
Proof.
  apply (eq_ignores_null_and_empty_entries examples.column_domain
           [("rule_name", PyStr "r1")]
           [("domain_type", PyStr "column");
            ("domain_kwargs", PyDict [("column", PyStr "age")])]
           "details" (PyDict [])).
  now left.
Defined.

(** A Domain equals a str exactly when the str is its string form, the
    pretty-printed canonical JSON: the third operand of the comparison. *)
Theorem eq_with_str_is_eq_of_string_form (self : Domain.t) (s : string) :
  Domain.__eq__ self (Domain.ObjVal (PyStr s)) = Ok true
  <-> Domain.__str__ self = Ok s.
Proof.
  unfold Domain.__eq__, Domain.eq_json, Domain.eq_mapping, Domain.eq_str.
  cbn [Domain.has_to_json_dict Domain.is_dict Domain.str_of bind builtins.str].
  destruct (Domain.__str__ self) as [a|e]; cbn [bind]; split; intros H.
  - apply ok_eqb in H. now subst.
  - injection H as ->. now rewrite String.eqb_refl.
  - discriminate.
  - discriminate.
Qed.

(** An error of to_json_dict is the error of every comparison but that with
    None, which is False without looking at the Domain, and of the string
    form, the id and the hash; when to_json_dict returns, a comparison with
    a plain value returns as well. *)
Theorem eq_raises_what_to_json_dict_raises
        (digest : string -> string) (hash : string -> Z)
        (self : Domain.t) (other : Domain.pyobj) (v : pyval) :
  Domain.__eq__ self (Domain.ObjVal PyNone) = Ok false
  /\ (forall e, Domain.to_json_dict self = Raise e ->
                (other <> Domain.ObjVal PyNone ->
                 Domain.__eq__ self other = Raise e
                 /\ Domain.__ne__ self other = Raise e)
                /\ Domain.__str__ self = Raise e
                /\ Domain.id digest self = Raise e
                /\ Domain.__hash__ digest hash self = Raise e)
  /\ (forall j, Domain.to_json_dict self = Ok j ->
                exists b, Domain.__eq__ self (Domain.ObjVal v) = Ok b).
Proof.
  split; [reflexivity|]. split.
  - intros e He. split; [|split; [|split]].
    + intros Ho.
      assert (G : Domain.__eq__ self other = Raise e).
      { pose proof (str_raises self e He) as Hs.
        unfold Domain.__eq__, Domain.eq_json, Domain.eq_mapping, Domain.eq_str.
        rewrite He, Hs. cbn [bind].
        destruct other as [x|d]; [|reflexivity].
        destruct x; try reflexivity. now elim Ho. }
      split; [exact G|]. unfold Domain.__ne__. now rewrite G.
    + now apply str_raises.
    + unfold Domain.id. now rewrite He.
    + unfold Domain.__hash__, Domain.id. now rewrite He.
  - intros j Hj. pose proof (str_of_json self j Hj) as Hs.
    unfold Domain.__eq__, Domain.eq_json, Domain.eq_mapping, Domain.eq_str.
    rewrite Hj, Hs. cbn [Domain.has_to_json_dict Domain.str_of bind].
    destruct v; cbn [Domain.is_dict bind]; try (eexists; reflexivity).
    match goal with
    | |- context [if ?c then _ else _] => destruct c
    end; eexists; reflexivity.
Qed.

Lemma eq_raises_what_to_json_dict_raises_witness :
  Domain.__eq__ bad_domain (Domain.ObjDomain examples.column_domain)
  = Raise (not_a_semantic_type "number")
  /\ Domain.__hash__ (fun s => s) (fun s => Z.of_nat (String.length s)) bad_domain
     = Raise (not_a_semantic_type "number")
  /\ exists b, Domain.__eq__ examples.column_domain (Domain.ObjVal (PyInt 3)) = Ok b.
Proof.
  pose proof (eq_raises_what_to_json_dict_raises
                (fun s => s) (fun s => Z.of_nat (String.length s))
                bad_domain (Domain.ObjDomain examples.column_domain) (PyInt 3))
    as (_ & H & _).
  destruct (H (not_a_semantic_type "number") eq_refl) as (H1 & _ & _ & H4).
  split; [apply H1; discriminate|]. split; [exact H4|].
  pose proof (eq_raises_what_to_json_dict_raises
                (fun s => s) (fun s => Z.of_nat (String.length s))
                examples.column_domain (Domain.ObjVal PyNone) (PyInt 3))
    as (_ & _ & G).
  exact (G column_json eq_refl).
Defined.

(** ** Rebuilding a Domain from its canonical JSON *)

Lemma semantic_value_known t :
  domain_aux.semantic_type_of (PyStr (Semantic.value t)) = Some t.
Proof. destruct t; reflexivity. Qed.

Lemma known_types_members m :
  known_types m ->
  exists ts, Forall2 (fun kv t => domain_aux.semantic_type_of (snd kv) = Some t) m ts.
Proof.
  induction 1 as [|kv m Hkv _ [ts IH]].
  - exists []. constructor.
  - destruct (domain_aux.semantic_type_of (snd kv)) as [t|] eqn:E; [|congruence].
    exists (t :: ts). now constructor.
Qed.

Lemma normalized_stable m ts :
  Forall2 (fun kv t => domain_aux.semantic_type_of (snd kv) = Some t) m ts ->
  Forall2 (fun kv t => domain_aux.semantic_type_of (snd kv) = Some t)
    (domain_aux.normalized m ts) ts
  /\ domain_aux.normalized (domain_aux.normalized m ts) ts
     = domain_aux.normalized m ts.
Proof.
  unfold domain_aux.normalized.
  induction 1 as [|kv t m ts _ _ [IH1 IH2]]; cbn [map combine fst snd].
  - split; [constructor | reflexivity].
  - split.
    + constructor; [apply semantic_value_known | exact IH1].
    + now rewrite IH2.
Qed.

Lemma truthy_decoded v : Py.truthy (json.decoded v) = Py.truthy v.
Proof. destruct v as [|x|z|s|[|p l]|[|kv d]|t|t|x|[|p l]]; reflexivity. Qed.

Lemma decoded_twice v :
  json.encodable v = true -> json.decoded (json.decoded v) = json.decoded v.
Proof. intros H. now apply json_facts.decoded_native, json_facts.native_decoded. Qed.

(** An entry that is falsy or not under the reserved key is stored as it is,
    its tuples as lists. *)
Lemma json_entry_plain k v :
  Py.truthy v = false \/ k <> INFERRED_SEMANTIC_TYPE_KEY ->
  json.encodable v = true ->
  domain_aux.json_entry (k, v) = Ok (k, json.decoded v).
Proof.
  intros Hc He. unfold domain_aux.json_entry. cbn [fst snd].
  assert (E : (if Py.truthy v
               then if String.eqb k INFERRED_SEMANTIC_TYPE_KEY
                    then Domain.normalize_types v else Ok v
               else Ok v) = Ok v).
  { destruct (Py.truthy v); [|reflexivity].
    destruct (String.eqb_spec k INFERRED_SEMANTIC_TYPE_KEY); [|reflexivity].
    destruct Hc; [discriminate | contradiction]. }
  rewrite E. cbn [bind]. unfold util.convert_to_json_serializable.
  now rewrite He.
Qed.

Lemma json_entry_plain_inv k v o :
  Py.truthy v = false \/ k <> INFERRED_SEMANTIC_TYPE_KEY ->
  domain_aux.json_entry (k, v) = Ok o ->
  json.encodable v = true /\ o = (k, json.decoded v).
Proof.
  intros Hc H. destruct (json.encodable v) eqn:He.
  - rewrite (json_entry_plain k v Hc He) in H. split; congruence.
  - exfalso. unfold domain_aux.json_entry in H. cbn [fst snd] in H.
    assert (E : (if Py.truthy v
                 then if String.eqb k INFERRED_SEMANTIC_TYPE_KEY
                      then Domain.normalize_types v else Ok v
                 else Ok v) = Ok v).
    { destruct (Py.truthy v); [|reflexivity].
      destruct (String.eqb_spec k INFERRED_SEMANTIC_TYPE_KEY); [|reflexivity].
      destruct Hc; [discriminate | contradiction]. }
    rewrite E in H. cbn [bind] in H.
    unfold util.convert_to_json_serializable in H. rewrite He in H.
    discriminate.
Qed.

(** One turn of the loop on an entry that a turn of the loop has stored
    stores the same entry. *)
Lemma json_entry_stable kv o :
  (fst kv = INFERRED_SEMANTIC_TYPE_KEY ->
   forall m, snd kv = PyDict m -> known_types m) ->
  domain_aux.json_entry kv = Ok o ->
  fst o = fst kv /\ domain_aux.json_entry o = Ok o.
Proof.
  destruct kv as [k v]. cbn [fst snd]. intros Hk H.
  assert (Plain : Py.truthy v = false \/ k <> INFERRED_SEMANTIC_TYPE_KEY ->
                  fst o = k /\ domain_aux.json_entry o = Ok o).
  { intros Hc. destruct (json_entry_plain_inv k v o Hc H) as [He ->].
    split; [reflexivity|]. rewrite json_entry_plain.
    - now rewrite decoded_twice.
    - rewrite truthy_decoded. exact Hc.
    - now apply json_facts.native_encodable, json_facts.native_decoded. }
  destruct (Py.truthy v) eqn:Ht; [|apply Plain; now left].
  destruct (String.eqb_spec k INFERRED_SEMANTIC_TYPE_KEY) as [->|Hn];
    [|apply Plain; now right].
  clear Plain.
  destruct v as [|x|z|s|l|m|t|t|x|l];
    try (unfold domain_aux.json_entry in H; cbn [fst snd] in H;
         rewrite Ht, String.eqb_refl in H; discriminate).
  destruct (known_types_members m (Hk eq_refl m eq_refl)) as [ts Hts].
  rewrite (inferred_entry m ts Hts) in H. injection H as <-.
  split; [reflexivity|].
  destruct (normalized_stable m ts Hts) as [H1 H2].
  rewrite (inferred_entry _ ts H1). now rewrite H2.
Qed.

Lemma details_loop_inv items :
  forall acc det,
    Domain.details_loop items acc = Ok det ->
    exists outs,
      Forall2 (fun kv o => domain_aux.json_entry kv = Ok o) items outs
      /\ det = fold_left (fun d kv => Py.dict_set (fst kv) (snd kv) d) outs acc.
Proof.
  induction items as [|kv items IH]; intros acc det H.
  - injection H as <-. exists []. split; [constructor | reflexivity].
  - rewrite details_loop_cons in H.
    destruct (domain_aux.json_entry kv) as [o|e] eqn:E; [|discriminate].
    cbn [bind] in H. destruct (IH _ _ H) as (outs & Ho & ->).
    exists (o :: outs). split; [now constructor | reflexivity].
Qed.

Lemma Forall2_same {A} (P : A -> A -> Prop) l :
  Forall (fun x => P x x) l -> Forall2 P l l.
Proof. induction 1; constructor; assumption. Qed.

(** With distinct keys the details of the canonical JSON are what a second
    run of the loop gives on them. *)
Lemma details_loop_stable items det :
  NoDup (map fst items) -> typed_details items ->
  Domain.details_loop items [] = Ok det ->
  Domain.details_loop det [] = Ok det /\ map fst det = map fst items.
Proof.
  intros Hn Ht H. destruct (details_loop_inv _ _ _ H) as (outs & Ho & ->).
  assert (G : map fst outs = map fst items
              /\ Forall (fun o => domain_aux.json_entry o = Ok o) outs).
  { clear Hn H. induction Ho as [|kv o items outs Hkv _ IH].
    - split; constructor.
    - inversion Ht as [|? ? Hk Ht']; subst.
      destruct (json_entry_stable kv o Hk Hkv) as [Hf Hs].
      destruct (IH Ht') as [IH1 IH2]. split.
      + cbn [map]. now rewrite Hf, IH1.
      + now constructor. }
  destruct G as [Hk Hs].
  assert (E : fold_left (fun d kv => Py.dict_set (fst kv) (snd kv) d) outs [] = outs).
  { apply json_facts.dict_of_pairs_nodup. now rewrite Hk. }
  rewrite E. split; [|exact Hk].
  rewrite (details_loop_entries outs outs).
  - now rewrite E.
  - now apply Forall2_same.
Qed.

Lemma init_kwargs_clean rn v kw det d :
  Domain.__init__ rn v kw det = Ok d ->
  util.deep_filter_properties_iterable (PyDict (Domain.domain_kwargs d))
  = PyDict (Domain.domain_kwargs d).
Proof.
  destruct kw as [kw|].
  - intros H. destruct (init_fields _ _ _ _ _ H) as (_ & _ & Ek).
    rewrite convert_is_deep_filter in Ek. rewrite Ek.
    apply deep_filter_idempotent.
  - unfold Domain.__init__. intros H.
    assert (E : Domain.domain_kwargs d = []).
    { destruct v; try discriminate.
      - destruct (Domain.coerce_str s); [|discriminate].
        cbn [bind] in H. now injection H as <-.
      - cbn [bind] in H. now injection H as <-. }
    now rewrite E.
Qed.

Lemma details_of_shape self det :
  Py.dict_get_default "details" (PyDict []) (domain_aux.json_shape self det)
  = PyDict det.
Proof.
  unfold Py.dict_get_default, domain_aux.json_shape.
  destruct (String.eqb (Domain.rule_name self) EmptyString);
    destruct (Domain.domain_kwargs self); destruct det; reflexivity.
Qed.

Lemma kwargs_of_shape self det :
  Py.dict_get_default "domain_kwargs" (PyDict []) (domain_aux.json_shape self det)
  = json.decoded (PyDict (Domain.domain_kwargs self)).
Proof.
  unfold Py.dict_get_default, domain_aux.json_shape.
  destruct (String.eqb (Domain.rule_name self) EmptyString);
    destruct (Domain.domain_kwargs self); destruct det; reflexivity.
Qed.

Lemma type_of_shape self det :
  Py.dict_get "domain_type" (domain_aux.json_shape self det)
  = Some (PyStr (Metric.value (Domain.domain_type self))).
Proof.
  unfold domain_aux.json_shape.
  destruct (String.eqb (Domain.rule_name self) EmptyString); reflexivity.
Qed.

Lemma null_or_empty_decoded v :
  util.null_or_empty (json.decoded v) = util.null_or_empty v.
Proof. destruct v as [|x|z|s|[|p l]|[|kv d]|t|t|x|[|p l]]; reflexivity. Qed.

Lemma filter_map_same {A} (p : A -> bool) (f : A -> A) l :
  (forall x, p (f x) = p x) -> filter p (map f l) = map f (filter p l).
Proof.
  intros H. induction l as [|a l IH]; [reflexivity|].
  cbn [map filter]. rewrite H. destruct (p a); cbn [map]; now rewrite IH.
Qed.

(** Cleaning what json reads back is reading back what was cleaned. *)
Lemma deep_filter_decoded v :
  util.deep_filter_properties_iterable (json.decoded v)
  = json.decoded (util.deep_filter_properties_iterable v).
Proof.
  induction v as [|x|z|s|l IH|d IH|t|t|x|l IH] using pyval_ind;
    try reflexivity.
  - cbn [json.decoded util.deep_filter_properties_iterable]. f_equal.
    rewrite <- filter_map_same by (intros y; now rewrite null_or_empty_decoded).
    f_equal. rewrite !map_map. apply map_ext_in. now apply Forall_forall.
  - cbn [json.decoded util.deep_filter_properties_iterable]. f_equal.
    rewrite <- (filter_map_same
                  (fun kv : string * pyval => negb (util.null_or_empty (snd kv)))
                  (fun kv => (fst kv, json.decoded (snd kv))))
      by (intros y; cbn [snd]; now rewrite null_or_empty_decoded).
    f_equal. rewrite !map_map. apply map_ext_in. intros kv Hkv. cbn [fst snd].
    f_equal. rewrite Forall_forall in IH. now apply IH.
  - cbn [json.decoded util.deep_filter_properties_iterable]. f_equal.
    rewrite <- filter_map_same by (intros y; now rewrite null_or_empty_decoded).
    f_equal. rewrite !map_map. apply map_ext_in. now apply Forall_forall.
Qed.

(** A Domain built again from the rule name and from the type, the kwargs and
    the details that the canonical JSON of a constructed Domain holds is
    accepted by the constructor, has the same canonical JSON, and the two are
    equal, provided the types under the reserved key of the details are strs
    or members of SemanticDomainTypes. *)
Theorem rebuilt_from_json_is_equal
        (rn : string) (v : pyval) (kw det0 : option pydict)
        (self : Domain.t) (j : pydict) :
  Domain.__init__ rn v kw det0 = Ok self ->
  domain_aux.wf_domain self -> typed_details (Domain.details self) ->
  Domain.to_json_dict self = Ok j ->
  exists t kwj det d,
    Py.dict_get "domain_type" j = Some (PyStr t)
    /\ Py.dict_get_default "domain_kwargs" (PyDict []) j = PyDict kwj
    /\ Py.dict_get_default "details" (PyDict []) j = PyDict det
    /\ Domain.__init__ (Domain.rule_name self) (PyStr t) (Some kwj) (Some det)
       = Ok d
    /\ Domain.to_json_dict d = Ok j
    /\ Domain.__eq__ self (Domain.ObjDomain d) = Ok true.
Proof.
  intros Hi Hw Ht Hj.
  destruct (to_json_dict_inv _ _ Hj) as (det & Hloop & Hk & ->).
  pose proof (init_kwargs_clean _ _ _ _ _ Hi) as Hc.
  destruct Hw as [Hwk Hwd]. pose proof Hwd as Hwd'. apply wf_dict in Hwd'.
  destruct (details_loop_stable _ _ (proj1 Hwd') Ht Hloop) as [Hs _].
  set (kwj := map (fun kv : string * pyval => (fst kv, json.decoded (snd kv)))
                (Domain.domain_kwargs self)).
  assert (Ekw : json.decoded (PyDict (Domain.domain_kwargs self)) = PyDict kwj)
    by reflexivity.
  assert (Hkj : json.encodable (PyDict kwj) = true).
  { rewrite <- Ekw.
    now apply json_facts.native_encodable, json_facts.native_decoded. }
  set (d := {| Domain.rule_name := Domain.rule_name self;
               Domain.domain_type := Domain.domain_type self;
               Domain.domain_kwargs := kwj;
               Domain.details := det |}).
  assert (Esh : domain_aux.json_shape d det = domain_aux.json_shape self det).
  { unfold domain_aux.json_shape.
    cbn [Domain.rule_name Domain.domain_type Domain.domain_kwargs d].
    rewrite <- Ekw, (decoded_twice _ Hk). subst kwj.
    destruct (Domain.domain_kwargs self); reflexivity. }
  assert (Hd : Domain.to_json_dict d = Ok (domain_aux.json_shape self det)).
  { rewrite <- Esh. now apply to_json_dict_shape. }
  exists (Metric.value (Domain.domain_type self)), kwj, det, d.
  split; [apply type_of_shape|]. split; [now rewrite kwargs_of_shape|].
  split; [apply details_of_shape|]. split; [|split].
  - unfold Domain.__init__, Domain.coerce_str, builtins.MetricDomainTypes_call.
    rewrite metric_of_value_value. cbn [bind].
    rewrite convert_is_deep_filter, <- Ekw, deep_filter_decoded, Hc, Ekw.
    reflexivity.
  - exact Hd.
  - apply eq_short_circuit. split; [discriminate|]. left.
    rewrite (eq_json_domains self d _ _ Hj Hd). f_equal. apply eqb_refl.
    apply json_shape_wf; [exact Hwk|].
    apply (details_loop_wf _ _ _ Hloop); [tauto|].
    apply wf_dict. split; constructor.
Qed.

Lemma rebuilt_from_json_is_equal_witness :
  exists t kwj det d,
    Py.dict_get "domain_type"
      [("rule_name", PyStr "r1"); ("domain_type", PyStr "column");
       ("domain_kwargs", PyDict [("column", PyStr "age")]);
       ("details",
        PyDict [(INFERRED_SEMANTIC_TYPE_KEY, PyDict [("age", PyStr "numeric")])])]
    = Some (PyStr t)
    /\ Py.dict_get_default "domain_kwargs" (PyDict [])
         [("rule_name", PyStr "r1"); ("domain_type", PyStr "column");
          ("domain_kwargs", PyDict [("column", PyStr "age")]);
          ("details",
           PyDict [(INFERRED_SEMANTIC_TYPE_KEY,
                    PyDict [("age", PyStr "numeric")])])]
       = PyDict kwj
    /\ Py.dict_get_default "details" (PyDict [])
         [("rule_name", PyStr "r1"); ("domain_type", PyStr "column");
          ("domain_kwargs", PyDict [("column", PyStr "age")]);
          ("details",
           PyDict [(INFERRED_SEMANTIC_TYPE_KEY,
                    PyDict [("age", PyStr "numeric")])])]
       = PyDict det
    /\ Domain.__init__ "r1" (PyStr t) (Some kwj) (Some det) = Ok d
    /\ Domain.to_json_dict d
       = Ok [("rule_name", PyStr "r1"); ("domain_type", PyStr "column");
             ("domain_kwargs", PyDict [("column", PyStr "age")]);
             ("details",
              PyDict [(INFERRED_SEMANTIC_TYPE_KEY,
                       PyDict [("age", PyStr "numeric")])])]
    /\ Domain.__eq__ examples.typed_domain (Domain.ObjDomain d) = Ok true.
Proof.
  apply (rebuilt_from_json_is_equal "r1" (PyMetricType COLUMN)
           (Some [("column", PyStr "age")])
           (Some [(INFERRED_SEMANTIC_TYPE_KEY, PyDict [("age", PyStr "NUMERIC")])])
           examples.typed_domain).
  - reflexivity.
  - split; apply wf_dict; (split; [simpl; nodup_strings|]);
      repeat constructor; simpl; auto using NoDup_nil.
  - constructor; [|constructor]. intros _ m E. injection E as <-.
    repeat constructor. cbn. discriminate.
  - reflexivity.
Defined.

(** * The round trip, equality and construction, as the code has them *)

(** ** What a write reads back as *)






(** ** Equality of a Domain with a Domain or a plain mapping *)

(** C2: for a Domain self and an operand other that is a Domain or a plain
    mapping, self == other holds exactly when the canonical JSON
    representations of both sides match, or other is a plain mapping whose
    entries without the falsy ones match the canonical JSON of self without
    its falsy ones; in no other case does it hold. *)
Theorem C2_eq_json_or_mapping (self : Domain.t) (other : Domain.pyobj) :
  domain_aux.wf_domain self -> domain_aux.wf_obj other ->
  Domain.is_dict other = true ->
  (Domain.__eq__ self other = Ok true <->
   (exists a b,
       Domain.to_json_dict self = Ok a
       /\ Domain.other_to_json_dict other = Ok b
       /\ Py.eqb (PyDict a) (PyDict b) = true)
   \/ (exists a m,
          other = Domain.ObjVal (PyDict m)
          /\ Domain.to_json_dict self = Ok a
          /\ Py.eqb (PyDict (util.filter_properties_dict a))
               (PyDict (util.filter_properties_dict m)) = true)).
Proof.
  intros Hw Hwo Hd. rewrite (eq_characterized self other Hw Hwo). split.
  - intros [_ [H|[[H1 H2]|[H _]]]]; [| |congruence].
    + left. unfold Domain.eq_json in H.
      destruct other as [v|d]; [discriminate|].
      cbn [Domain.has_to_json_dict Domain.other_to_json_dict] in *.
      destruct (Domain.to_json_dict self) as [a|e]; [|discriminate].
      destruct (Domain.to_json_dict d) as [b|e]; [|discriminate].
      cbn [bind] in H. exists a, b. repeat split. congruence.
    + right. unfold Domain.eq_mapping in H2. rewrite Hd in H2.
      destruct (Domain.to_json_dict self) as [a|e] eqn:Ha; [|discriminate].
      cbn [bind] in H2. destruct other as [v|d].
      * destruct v; try discriminate. exists a, d. repeat split.
        cbn [Domain.as_dict] in H2. congruence.
      * pose proof (eq_mapping_domain_false self d a Ha) as F.
        unfold Domain.eq_mapping in F. cbn [Domain.is_dict] in F.
        rewrite Ha in F. cbn [bind] in F. congruence.
  - intros [(a & b & Ha & Hb & E)|(a & m & -> & Ha & E)].
    + destruct other as [v|d]; [discriminate|].
      split; [discriminate|]. left.
      now rewrite (eq_json_domains self d a b Ha Hb), E.
    + split; [discriminate|]. right. left. split; [reflexivity|].
      unfold Domain.eq_mapping. cbn [Domain.is_dict Domain.as_dict].
      rewrite Ha. cbn [bind]. now rewrite E.
Qed.

Lemma C2_witness :
  Domain.__eq__ examples.column_domain
    (Domain.ObjVal (PyDict more_domain_aux.column_json_padded)) = Ok true <->
  (exists a b,
      Domain.to_json_dict examples.column_domain = Ok a
      /\ Domain.other_to_json_dict
           (Domain.ObjVal (PyDict more_domain_aux.column_json_padded)) = Ok b
      /\ Py.eqb (PyDict a) (PyDict b) = true)
  \/ (exists a m,
         Domain.ObjVal (PyDict more_domain_aux.column_json_padded)
         = Domain.ObjVal (PyDict m)
         /\ Domain.to_json_dict examples.column_domain = Ok a
         /\ Py.eqb (PyDict (util.filter_properties_dict a))
              (PyDict (util.filter_properties_dict m)) = true).
Proof.
  apply (C2_eq_json_or_mapping examples.column_domain
           (Domain.ObjVal (PyDict more_domain_aux.column_json_padded))).
  - split; simpl; repeat split; nodup_strings.
  - exact I.
  - reflexivity.
Defined.

(** ** What construction does to the caller's mapping *)

(** C10, as the code has it: constructing a MetricStore or an
    EvaluationParameterStore changes and removes no entry of the caller's
    backend configuration, adds nothing to it but the defaults table_name and
    key_columns, and adds nothing at all unless the configured backend class
    is the database one; for the database class the mapping is left with both
    entries, each the caller's own when given, and otherwise ge_metrics
    (MetricStore) or ge_evaluation_parameters (EvaluationParameterStore) and
    the six key columns. *)
Theorem C10_construction_adds_only_defaults (sb : pydict) (name : option string) :
  exists m e : pydict,
    fst (MetricStore.__init__ (Some sb) name) = Some m
    /\ fst (EvaluationParameterStore.__init__ (Some sb) name) = Some e
    /\ store_aux.adds_only_defaults sb m
    /\ store_aux.adds_only_defaults sb e
    /\ (store_aux.resolved_class sb = Ok DatabaseStoreBackend ->
        Py.dict_get "table_name" m
        = Some (Py.dict_get_default "table_name" (PyStr "ge_metrics") sb)
        /\ Py.dict_get "table_name" e
           = Some (Py.dict_get_default "table_name"
                     (PyStr "ge_evaluation_parameters") sb)
        /\ Py.dict_get "key_columns" m
           = Some (Py.dict_get_default "key_columns" MetricStore.key_columns sb)
        /\ Py.dict_get "key_columns" e
           = Some (Py.dict_get_default "key_columns" MetricStore.key_columns sb)).
Proof.
  destruct (MetricStore_init_mapping sb name) as (m & Em & Hm).
  destruct (EvaluationParameterStore_init_mapping sb name) as (e & Ee & He).
  exists m, e.
  split; [exact Em|]. split; [exact Ee|]. split; [exact Hm|].
  split; [exact He|]. intros Hc.
  destruct (MetricStore_init_database sb name Hc) as (m' & Em' & Ht & Hk & _).
  destruct (EvaluationParameterStore_init_database sb name Hc)
    as (e' & Ee' & Ht' & Hk' & _).
  rewrite Em in Em'. injection Em' as <-.
  rewrite Ee in Ee'. injection Ee' as <-.
  repeat split; assumption.
Qed.

Lemma C10_witness :
  exists m e : pydict,
    fst (MetricStore.__init__ (Some examples.database_config) None) = Some m
    /\ fst (EvaluationParameterStore.__init__ (Some examples.database_config) None)
       = Some e
    /\ store_aux.adds_only_defaults examples.database_config m
    /\ store_aux.adds_only_defaults examples.database_config e
    /\ (store_aux.resolved_class examples.database_config
        = Ok DatabaseStoreBackend ->
        Py.dict_get "table_name" m
        = Some (Py.dict_get_default "table_name" (PyStr "ge_metrics")
                  examples.database_config)
        /\ Py.dict_get "table_name" e
           = Some (Py.dict_get_default "table_name"
                     (PyStr "ge_evaluation_parameters") examples.database_config)
        /\ Py.dict_get "key_columns" m
           = Some (Py.dict_get_default "key_columns" MetricStore.key_columns
                     examples.database_config)
        /\ Py.dict_get "key_columns" e
           = Some (Py.dict_get_default "key_columns" MetricStore.key_columns
                     examples.database_config)).
Proof.
  exact (C10_construction_adds_only_defaults examples.database_config None).
Defined.

(** C10 as stated fails: constructing a MetricStore over a database backend
    configuration without table_name leaves the caller's mapping with two
    entries more. *)
Lemma C10_counterexample :
  fst (MetricStore.__init__ (Some examples.database_config) None)
  = Some (examples.database_config
            ++ [("table_name", PyStr "ge_metrics");
                ("key_columns", MetricStore.key_columns)])%list
  /\ fst (MetricStore.__init__ (Some examples.database_config) None)
     <> Some examples.database_config.
Proof. split; [reflexivity | discriminate]. Qed.
